(** * Metadata Image Cleaner: the App component (React, TypeScript)

    A shallow embedding of [App] from the repository's single component
    file: the component state ([useState] hooks), the event handlers, the
    asynchronous calls they make to the platform (exifr, FileReader, Image,
    canvas) and the undo/redo history.

    How the source is read:
    - a handler is a closure over the values of the render it belongs to:
      it is a function of that render's [AppState] and {e reads} only from
      it, while each [setX(v)] call {e writes} to the store that the next
      render will see;
    - the setters called while one event, timer or answer of the platform
      is handled are rendered together (React batches them, in listeners of
      the document, timers and promise callbacks too); an event on an
      element of the page is handled by the handler of the latest render,
      which reads the state as the previous handler has left it;
    - [handlePaste] and [handleKeyDown] are listeners of the document,
      registered by an effect whose dependencies are [originalImage],
      [processedImage] and [history]: the listeners in place are those of
      the last render in which one of the three had changed, and they read
      the [originalFileName] and the [metadata] of that render, which a
      load may have replaced since;
    - a handler body is a program in a small free monad ([Prog]): state
      setters and DOM effects, synchronous platform queries, asynchronous
      requests (an [await], or a callback registered on a platform object),
      calls of an async function that are not awaited, and [setTimeout];
    - [exec] runs such a program; an event loop ([step]) dispatches user
      events, timers and answers of the platform. *)

From Stdlib Require Import ZArith QArith String Ascii DecimalString.
From stdpp Require Import gmap strings list.

Set Warnings "-register-all".

Local Open Scope string_scope.
Local Open Scope list_scope.
Local Open Scope stdpp_scope.

(** ** JavaScript values *)

(** Values of type [any], as far as the component looks at them: it tests
    them for truthiness, reads properties and stores them. *)
Inductive JsVal : Type :=
| VUndefined
| VNull
| VBool (b : bool)
| VNum (n : Z)
| VStr (s : string)
| VObj (props : list (string * JsVal)).

Definition truthy (v : JsVal) : bool :=
  match v with
  | VUndefined | VNull => false
  | VBool b => b
  | VNum n => negb (n =? 0)%Z
  | VStr s => negb (String.eqb s "")
  | VObj _ => true
  end.

Fixpoint assoc (key : string) (props : list (string * JsVal)) : JsVal :=
  match props with
  | [] => VUndefined
  | (k, v) :: rest => if String.eqb k key then v else assoc key rest
  end.

(** [v.key] on a value that is neither [null] nor [undefined]. *)
Definition get_prop (v : JsVal) (key : string) : JsVal :=
  match v with
  | VObj props => assoc key props
  | _ => VUndefined
  end.

(** [string | null] in a condition: [null] and the empty string are falsy. *)
Definition truthy_str (o : option string) : bool :=
  match o with
  | Some s => negb (String.eqb s "")
  | None => false
  end.

(** A thrown value, seen through [String(error)]. *)
Record Thrown : Type := { thrown_String : string }.

(** ** Regular expressions, as far as [handleDownload] uses them *)

Inductive CharClass : Type :=
| Lit (c : ascii)              (* \.      *)
| NoneOf (cs : list ascii).    (* [^...]  *)

Inductive ReItem : Type :=
| One (cls : CharClass)
| Plus (cls : CharClass)       (* greedy + *)
| EndAnchor.                   (* $ (no m flag) *)

Definition Regex := list ReItem.

Definition class_ok (cls : CharClass) (c : ascii) : bool :=
  match cls with
  | Lit d => Ascii.eqb c d
  | NoneOf cs => negb (existsb (Ascii.eqb c) cs)
  end.

(** [cls+] followed by [cont]: take one character, then prefer to take
    more, and fall back to the continuation. *)
Fixpoint match_plus (cls : CharClass) (cont : string -> option string)
    (s : string) : option string :=
  match s with
  | String c s' =>
      if class_ok cls c then
        match match_plus cls cont s' with
        | Some rest => Some rest
        | None => cont s'
        end
      else None
  | EmptyString => None
  end.

(** Match the regex at the start of [s]; the result is what follows the
    match. *)
Fixpoint match_here (r : Regex) (s : string) : option string :=
  match r with
  | [] => Some s
  | One cls :: r' =>
      match s with
      | String c s' => if class_ok cls c then match_here r' s' else None
      | EmptyString => None
      end
  | Plus cls :: r' => match_plus cls (match_here r') s
  | EndAnchor :: r' =>
      match s with
      | EmptyString => match_here r' s
      | String _ _ => None
      end
  end.

(** [s.replace(r, repl)] for a regex without the g flag: the leftmost match
    is replaced. *)
Fixpoint replace_first (r : Regex) (repl : string) (s : string) : string :=
  match match_here r s with
  | Some rest => repl +:+ rest
  | None =>
      match s with
      | String c s' => String c (replace_first r repl s')
      | EmptyString => s
      end
  end.

(** [/\.[^/.]+$/] *)
Definition extensionRegex : Regex :=
  [One (Lit "."); Plus (NoneOf ["/"%char; "."%char]); EndAnchor].

(** ** Files, blobs, snapshots and the component state *)

Module File.
Record t : Type := { name : string; size : N; type : string; lastModified : Z }.
End File.

Record Blob : Type := { blob_type : string; blob_size : N }.

(** [interface ExifData { [key: string]: any }] *)
Abbreviation ExifData := (gmap string JsVal).

Module HistoryState.
Record t : Type := {
  originalImage : option string;
  originalFileName : string;
  metadata : option ExifData;
  processedImage : option string;
}.
End HistoryState.

(** The [useState] cells of [App]. *)
Record AppState : Type := {
  isDragging : bool;
  isProcessing : bool;
  processedImage : option string;
  originalImage : option string;
  originalFileName : string;
  metadata : option ExifData;
  history : list HistoryState.t;
  futureHistory : list HistoryState.t;
  notification : option string;
  showJsonModal : bool;
}.

Definition initialState : AppState :=
  {| isDragging := false; isProcessing := false; processedImage := None;
     originalImage := None; originalFileName := ""; metadata := None;
     history := []; futureHistory := []; notification := None;
     showJsonModal := false |}.

(** The object literal [{ originalImage, originalFileName, metadata,
    processedImage }] that [saveToHistory], [handleUndo] and [handleRedo]
    build. *)
Definition snapshot (s : AppState) : HistoryState.t :=
  {| HistoryState.originalImage := originalImage s;
     HistoryState.originalFileName := originalFileName s;
     HistoryState.metadata := metadata s;
     HistoryState.processedImage := processedImage s |}.

(** ** Effects *)

(** Synchronous effects without a result. *)
Inductive Action : Type :=
| SetIsDragging (b : bool)
| SetIsProcessing (b : bool)
| SetProcessedImage (o : option string)
| SetOriginalImage (o : option string)
| SetOriginalFileName (s : string)
| SetMetadata (o : option ExifData)
| SetHistory (l : list HistoryState.t)
| SetFutureHistory (l : list HistoryState.t)
| SetNotification (o : option string)
| SetShowJsonModal (b : bool)
| PreventDefault
| ResetFileInput                           (* if (fileInputRef.current) fileInputRef.current.value = '' *)
| CreateCanvas (width height : N)          (* createElement('canvas'); canvas.width = ...; canvas.height = ... *)
| DrawImage (src : string) (dx dy : Z)     (* ctx.drawImage(img, dx, dy) *)
| DownloadLink (href download : string)    (* createElement('a'); link.href = ...; link.download = ...; link.click() *)
| CopyJson (md : ExifData).                (* navigator.clipboard.writeText(JSON.stringify(metadata, null, 2)) *)

(** Synchronous calls of the platform that return a value. *)
Inductive Query : Type :=
| GetContext2d (width height : N)          (* canvas.getContext('2d'): null or a context *)
| CreateObjectURL (b : Blob)
| DateToLocaleString (t : Z).              (* new Date(t).toLocaleString() *)

Definition qans (q : Query) : Type :=
  match q with
  | GetContext2d _ _ => bool
  | CreateObjectURL _ => string
  | DateToLocaleString _ => string
  end.

Inductive ImageResult : Type :=
| ImgLoad (width height : N)               (* img.onload *)
| ImgError.                                (* img.onerror *)

(** Asynchronous requests: the program goes on when the platform answers. *)
Inductive Request : Type :=
| ExifrParse (file : File.t) (options : list (string * bool))
| ExifrThumbnail (file : File.t)
| ReadAsDataURL (file : File.t)            (* reader.onload; no onerror is registered *)
| LoadImage (src : string)                 (* img.src = src *)
| ToBlob (type : string) (quality : Q).    (* canvas.toBlob(callback, type, quality) *)

Definition rans (r : Request) : Type :=
  match r with
  | ExifrParse _ _ => (Thrown + JsVal)%type
  | ExifrThumbnail _ => (Thrown + option N)%type   (* byteLength of the thumbnail *)
  | ReadAsDataURL _ => string
  | LoadImage _ => ImageResult
  | ToBlob _ _ => option Blob
  end.

(** ** Programs *)

Inductive Prog (R : Type) : Type :=
| Ret (r : R)
| Act (a : Action) (k : Prog R)
| Ask (q : Query) (k : qans q -> Prog R)
| Await (r : Request) (k : rans r -> Prog R)
| Call (child : Prog unit) (k : Prog R)                  (* f(x) for an async f, not awaited *)
| SetTimeout (cb : Prog unit) (ms : N) (k : Prog R).

Arguments Ret {R} r.
Arguments Act {R} a k.
Arguments Ask {R} q k.
Arguments Await {R} r k.
Arguments Call {R} child k.
Arguments SetTimeout {R} cb ms k.

Fixpoint bind {A B : Type} (p : Prog A) (f : A -> Prog B) : Prog B :=
  match p with
  | Ret a => f a
  | Act a k => Act a (bind k f)
  | Ask q k => Ask q (fun x => bind (k x) f)
  | Await r k => Await r (fun x => bind (k x) f)
  | Call child k => Call child (bind k f)
  | SetTimeout cb ms k => SetTimeout cb ms (bind k f)
  end.

Declare Scope prog_scope.
Delimit Scope prog_scope with prog.
Bind Scope prog_scope with Prog.

Notation "x <- p ;; k" := (bind p (fun x => k))
  (at level 100, p at next level, right associativity) : prog_scope.
Notation "p ;; k" := (bind p (fun _ => k))
  (at level 100, right associativity) : prog_scope.

Local Open Scope prog_scope.

Definition act (a : Action) : Prog unit := Act a (Ret tt).
Definition ask (q : Query) : Prog (qans q) := Ask q Ret.
Definition await (r : Request) : Prog (rans r) := Await r Ret.
Definition call {R : Type} (child : Prog R) : Prog unit :=
  Call (bind child (fun _ => Ret tt)) (Ret tt).
Definition setTimeout (cb : Prog unit) (ms : N) : Prog unit :=
  SetTimeout cb ms (Ret tt).

Fixpoint forEach {A : Type} (l : list A) (body : A -> Prog unit) : Prog unit :=
  match l with
  | [] => Ret tt
  | x :: rest => body x ;; forEach rest body
  end.

(** ** Running a program *)

(** What the platform returns to the synchronous queries. *)
Record Platform : Type := {
  context2d : N -> N -> bool;
  objectURL : Blob -> string;
  toLocaleString : Z -> string;
}.

Definition answer (pf : Platform) (q : Query) : qans q :=
  match q return qans q with
  | GetContext2d w h => context2d pf w h
  | CreateObjectURL b => objectURL pf b
  | DateToLocaleString t => toLocaleString pf t
  end.

(** What the platform answers to an asynchronous request while the program
    runs: [None] leaves the program suspended at that request. *)
Definition Oracle : Type := forall r : Request, option (rans r).

Definition no_answer : Oracle := fun _ => None.
Definition answering (ans : forall r : Request, rans r) : Oracle :=
  fun r => Some (ans r).

Definition apply_action (a : Action) (st : AppState) : AppState :=
  match a with
  | SetIsDragging b =>
      {| isDragging := b; isProcessing := isProcessing st;
         processedImage := processedImage st; originalImage := originalImage st;
         originalFileName := originalFileName st; metadata := metadata st;
         history := history st; futureHistory := futureHistory st;
         notification := notification st; showJsonModal := showJsonModal st |}
  | SetIsProcessing b =>
      {| isDragging := isDragging st; isProcessing := b;
         processedImage := processedImage st; originalImage := originalImage st;
         originalFileName := originalFileName st; metadata := metadata st;
         history := history st; futureHistory := futureHistory st;
         notification := notification st; showJsonModal := showJsonModal st |}
  | SetProcessedImage o =>
      {| isDragging := isDragging st; isProcessing := isProcessing st;
         processedImage := o; originalImage := originalImage st;
         originalFileName := originalFileName st; metadata := metadata st;
         history := history st; futureHistory := futureHistory st;
         notification := notification st; showJsonModal := showJsonModal st |}
  | SetOriginalImage o =>
      {| isDragging := isDragging st; isProcessing := isProcessing st;
         processedImage := processedImage st; originalImage := o;
         originalFileName := originalFileName st; metadata := metadata st;
         history := history st; futureHistory := futureHistory st;
         notification := notification st; showJsonModal := showJsonModal st |}
  | SetOriginalFileName n =>
      {| isDragging := isDragging st; isProcessing := isProcessing st;
         processedImage := processedImage st; originalImage := originalImage st;
         originalFileName := n; metadata := metadata st;
         history := history st; futureHistory := futureHistory st;
         notification := notification st; showJsonModal := showJsonModal st |}
  | SetMetadata o =>
      {| isDragging := isDragging st; isProcessing := isProcessing st;
         processedImage := processedImage st; originalImage := originalImage st;
         originalFileName := originalFileName st; metadata := o;
         history := history st; futureHistory := futureHistory st;
         notification := notification st; showJsonModal := showJsonModal st |}
  | SetHistory l =>
      {| isDragging := isDragging st; isProcessing := isProcessing st;
         processedImage := processedImage st; originalImage := originalImage st;
         originalFileName := originalFileName st; metadata := metadata st;
         history := l; futureHistory := futureHistory st;
         notification := notification st; showJsonModal := showJsonModal st |}
  | SetFutureHistory l =>
      {| isDragging := isDragging st; isProcessing := isProcessing st;
         processedImage := processedImage st; originalImage := originalImage st;
         originalFileName := originalFileName st; metadata := metadata st;
         history := history st; futureHistory := l;
         notification := notification st; showJsonModal := showJsonModal st |}
  | SetNotification o =>
      {| isDragging := isDragging st; isProcessing := isProcessing st;
         processedImage := processedImage st; originalImage := originalImage st;
         originalFileName := originalFileName st; metadata := metadata st;
         history := history st; futureHistory := futureHistory st;
         notification := o; showJsonModal := showJsonModal st |}
  | SetShowJsonModal b =>
      {| isDragging := isDragging st; isProcessing := isProcessing st;
         processedImage := processedImage st; originalImage := originalImage st;
         originalFileName := originalFileName st; metadata := metadata st;
         history := history st; futureHistory := futureHistory st;
         notification := notification st; showJsonModal := b |}
  | PreventDefault | ResetFileInput | CreateCanvas _ _ | DrawImage _ _ _
  | DownloadLink _ _ | CopyJson _ => st
  end.

Inductive Event : Type :=
| EAct (a : Action)
| EAsk (q : Query)
| EAwait (r : Request)
| ECall
| ETimeout (ms : N).

(** Work left for the event loop. *)
Inductive Task : Type :=
| TaskTimer (ms : N) (cb : Prog unit)
| TaskAwait (r : Request) (k : rans r -> Prog unit).

Inductive Outcome (R : Type) : Type :=
| Finished (r : R)
| Suspended (r : Request) (k : rans r -> Prog R).

Arguments Finished {R} r.
Arguments Suspended {R} r k.

Record Run (R : Type) : Type := {
  trace : list Event;
  store : AppState;
  spawned : list Task;
  outcome : Outcome R;
}.

Arguments trace {R} _.
Arguments store {R} _.
Arguments spawned {R} _.
Arguments outcome {R} _.

Definition after {R : Type} (evs : list Event) (ts : list Task) (r : Run R) : Run R :=
  {| trace := evs ++ trace r; store := store r;
     spawned := ts ++ spawned r; outcome := outcome r |}.

Definition task_of (o : Outcome unit) : list Task :=
  match o with
  | Finished _ => []
  | Suspended r k => [TaskAwait r k]
  end.

(** [exec pf orc p st]: run [p] on the store [st]. The requests of [p]
    itself are answered by [orc]; an async function that [p] calls without
    awaiting it runs up to its first request and is left as a task, and so
    is the callback of a timer. *)
Fixpoint exec {R : Type} (pf : Platform) (orc : Oracle) (p : Prog R)
    (st : AppState) : Run R :=
  match p with
  | Ret r => {| trace := []; store := st; spawned := []; outcome := Finished r |}
  | Act a k => after [EAct a] [] (exec pf orc k (apply_action a st))
  | Ask q k => after [EAsk q] [] (exec pf orc (k (answer pf q)) st)
  | Await r k =>
      match orc r with
      | Some x => after [EAwait r] [] (exec pf orc (k x) st)
      | None =>
          {| trace := [EAwait r]; store := st; spawned := [];
             outcome := Suspended r k |}
      end
  | Call child k =>
      let r1 := exec pf no_answer child st in
      after (ECall :: trace r1) (spawned r1 ++ task_of (outcome r1))
            (exec pf orc k (store r1))
  | SetTimeout cb ms k =>
      after [ETimeout ms] [TaskTimer ms cb] (exec pf orc k st)
  end.

(** ** The local object of [extractMetadata] and its [try]/[catch]

    The body of [extractMetadata] assigns to the properties of one local
    object, and what it has assigned before an exception is still there in
    the [catch] block and at the [return]: a state and error monad over
    [Prog], the state being that object. *)

Definition Body (A : Type) : Type := ExifData -> Prog (ExifData * (Thrown + A)).

Definition ret_b {A : Type} (a : A) : Body A := fun md => Ret (md, inr a).

Definition bind_b {A B : Type} (m : Body A) (f : A -> Body B) : Body B :=
  fun md =>
    bind (m md) (fun '(md', r) =>
      match r with
      | inl e => Ret (md', inl e)
      | inr a => f a md'
      end).

Definition try_catch {A : Type} (body : Body A) (handler : Thrown -> Body A) : Body A :=
  fun md =>
    bind (body md) (fun '(md', r) =>
      match r with
      | inl e => handler e md'
      | inr a => Ret (md', inr a)
      end).

(** [metadata[key] = v] *)
Definition assign (key : string) (v : JsVal) : Body unit :=
  fun md => Ret (<[key := v]> md, inr tt).

(** [await] of a promise that may reject. *)
Definition await_parse (file : File.t) (options : list (string * bool)) : Body JsVal :=
  fun md => bind (await (ExifrParse file options)) (fun a => Ret (md, a)).

Definition await_thumbnail (file : File.t) : Body (option N) :=
  fun md => bind (await (ExifrThumbnail file)) (fun a => Ret (md, a)).

Definition when_b (c : bool) (m : Body unit) : Body unit :=
  if c then m else ret_b tt.

Declare Scope body_scope.
Delimit Scope body_scope with body.
Bind Scope body_scope with Body.

Notation "x <- p ;; k" := (bind_b p (fun x => k))
  (at level 100, p at next level, right associativity) : body_scope.
Notation "p ;; k" := (bind_b p (fun _ => k))
  (at level 100, right associativity) : body_scope.

(** ** The component's functions *)

Definition string_of_N (n : N) : string := NilZero.string_of_uint (N.to_uint n).

(** [(size / 1024).toFixed(2)]: the quotient is exact for a size below
    2^53, and [toFixed] rounds it to the nearest hundredth, a tie upwards. *)
Definition toFixed2_div1024 (size : N) : string :=
  let n := ((size * 200 + 1024) / 2048)%N in
  let frac := (n mod 100)%N in
  string_of_N (n / 100) +:+ "." +:+
  (if (frac <? 10)%N then "0" else "") +:+ string_of_N frac.

Definition fileInfo (file : File.t) (lastModified : string) : JsVal :=
  VObj [ ("File Name", VStr (File.name file));
         ("File Size", VStr (toFixed2_div1024 (File.size file) +:+ " KB"));
         ("File Type", VStr (File.type file));
         ("Last Modified", VStr lastModified) ].

Definition parseOptions : list (string * bool) :=
  [ ("tiff", true); ("exif", true); ("gps", true); ("iptc", true);
    ("icc", true); ("jfif", true); ("ihdr", true); ("xmp", true);
    ("ifd0", true); ("ifd1", true); ("interop", true); ("makerNote", true);
    ("userComment", true); ("translateKeys", true); ("translateValues", true);
    ("reviveValues", true); ("sanitize", false); ("mergeOutput", false) ].

(** [if (allMetadata.seg) metadata[key] = allMetadata.seg] *)
Definition copySegment (allMetadata : JsVal) (seg key : string) : Body unit :=
  when_b (truthy (get_prop allMetadata seg)) (assign key (get_prop allMetadata seg)).

Definition extractMetadata (file : File.t) : Prog (Thrown + ExifData) :=
  lastModified <- ask (DateToLocaleString (File.lastModified file)) ;;
  let metadata : ExifData := {[ "File Info" := fileInfo file lastModified ]} in
  bind
    (try_catch
       (allMetadata <- await_parse file parseOptions ;;
        when_b (truthy allMetadata)
          (copySegment allMetadata "ifd0" "IFD0" ;;
           copySegment allMetadata "ifd1" "IFD1" ;;
           copySegment allMetadata "exif" "EXIF" ;;
           copySegment allMetadata "gps" "GPS" ;;
           copySegment allMetadata "iptc" "IPTC" ;;
           copySegment allMetadata "icc" "ICC Profile" ;;
           copySegment allMetadata "jfif" "JFIF" ;;
           copySegment allMetadata "ihdr" "PNG IHDR" ;;
           copySegment allMetadata "xmp" "XMP" ;;
           copySegment allMetadata "tiff" "TIFF" ;;
           copySegment allMetadata "interop" "Interoperability" ;;
           copySegment allMetadata "makerNote" "Maker Note") ;;
        thumbnail <- await_thumbnail file ;;
        match thumbnail with
        | Some byteLength =>
            assign "Embedded Thumbnail"
              (VObj [ ("Has Thumbnail", VBool true);
                      ("Size", VStr (string_of_N byteLength +:+ " bytes")) ])
        | None => ret_b tt
        end)%body
       (fun error => assign "Extraction Error" (VStr (thrown_String error)))
       metadata)
    (fun '(metadata, r) =>
       match r with
       | inl e => Ret (inl e)            (* an exception leaves the function *)
       | inr _ => Ret (inr metadata)     (* return metadata *)
       end).

Definition showNotification (message : string) : Prog unit :=
  act (SetNotification (Some message)) ;;
  setTimeout (act (SetNotification None)) 3000.

Definition handleImageFile (file : File.t) : Prog (Thrown + unit) :=
  act (SetIsProcessing true) ;;
  act (SetProcessedImage None) ;;
  act (SetOriginalFileName (File.name file)) ;;
  r <- extractMetadata file ;;
  match r with
  | inl e => Ret (inl e)
  | inr exifData =>
      act (SetMetadata (Some exifData)) ;;
      imageUrl <- await (ReadAsDataURL file) ;;
      act (SetOriginalImage (Some imageUrl)) ;;
      act (SetIsProcessing false) ;;
      Ret (inr tt)
  end.

Definition saveToHistory (s : AppState) : Prog unit :=
  act (SetHistory (history s ++ [snapshot s])) ;;
  act (SetFutureHistory []).

Definition handleReset : Prog unit :=
  act (SetProcessedImage None) ;;
  act (SetOriginalImage None) ;;
  act (SetOriginalFileName "") ;;
  act (SetMetadata None) ;;
  act ResetFileInput.

Definition handleCleanMetadata (s : AppState) : Prog unit :=
  match originalImage s with
  | None => Ret tt
  | Some src =>
      if String.eqb src "" then Ret tt else
      saveToHistory s ;;
      act (SetIsProcessing true) ;;
      img <- await (LoadImage src) ;;
      match img with
      | ImgLoad width height =>
          act (CreateCanvas width height) ;;
          ctx <- ask (GetContext2d width height) ;;
          if negb ctx then Ret tt else
          act (DrawImage src 0 0) ;;
          blob <- await (ToBlob "image/jpeg" (92 # 100)) ;;
          match blob with
          | Some b =>
              url <- ask (CreateObjectURL b) ;;
              act (SetProcessedImage (Some url)) ;;
              act (SetIsProcessing false) ;;
              showNotification "Metadata removed successfully"
          | None => Ret tt
          end
      | ImgError =>
          act (SetIsProcessing false) ;;
          showNotification "Error processing image"
      end
  end.

Definition handleDownload (s : AppState) : Prog unit :=
  match processedImage s with
  | None => Ret tt
  | Some href =>
      if String.eqb href "" then Ret tt else
      let fileName := replace_first extensionRegex "" (originalFileName s) +:+ "_clean.jpg" in
      act (DownloadLink href fileName)
  end.

Definition handleDownloadOriginal (s : AppState) : Prog unit :=
  match originalImage s with
  | None => Ret tt
  | Some href =>
      if String.eqb href "" then Ret tt else
      act (DownloadLink href (originalFileName s))
  end.

(** [Array.prototype.pop] and [shift] on a copy of the array. *)
Definition array_pop {A : Type} (l : list A) : option A * list A :=
  (last l, removelast l).

Definition array_shift {A : Type} (l : list A) : option A * list A :=
  (head l, tail l).

Definition handleUndo (s : AppState) : Prog unit :=
  if (length (history s) =? 0)%nat then Ret tt else
  let '(previousState, newHistory) := array_pop (history s) in
  act (SetFutureHistory (snapshot s :: futureHistory s)) ;;
  match previousState with
  | Some previousState =>
      act (SetOriginalImage (HistoryState.originalImage previousState)) ;;
      act (SetOriginalFileName (HistoryState.originalFileName previousState)) ;;
      act (SetMetadata (HistoryState.metadata previousState)) ;;
      act (SetProcessedImage (HistoryState.processedImage previousState)) ;;
      act (SetHistory newHistory)
  | None => Ret tt
  end.

Definition handleRedo (s : AppState) : Prog unit :=
  if (length (futureHistory s) =? 0)%nat then Ret tt else
  let '(nextState, newFutureHistory) := array_shift (futureHistory s) in
  act (SetHistory (history s ++ [snapshot s])) ;;
  match nextState with
  | Some nextState =>
      act (SetOriginalImage (HistoryState.originalImage nextState)) ;;
      act (SetOriginalFileName (HistoryState.originalFileName nextState)) ;;
      act (SetMetadata (HistoryState.metadata nextState)) ;;
      act (SetProcessedImage (HistoryState.processedImage nextState)) ;;
      act (SetFutureHistory newFutureHistory)
  | None => Ret tt
  end.

(** ** Events of the page *)

Record KeyboardEvent : Type := { ctrlKey : bool; metaKey : bool; key : string }.

(** A [DataTransferItem] of a paste. *)
Record DataTransferItem : Type := { item_type : string; getAsFile : option File.t }.

(** [originalImage || processedImage] *)
Definition loaded (s : AppState) : bool :=
  truthy_str (originalImage s) || truthy_str (processedImage s).

(** [t.indexOf(sub) !== -1] *)
Definition includes (sub t : string) : bool :=
  match String.index 0 sub t with
  | Some _ => true
  | None => false
  end.

(** [saveToHistory(); handleReset(); showNotification(...);
    setTimeout(() => handleImageFile(file), 0)] *)
Definition replaceImage (s : AppState) (file : File.t) : Prog unit :=
  saveToHistory s ;;
  handleReset ;;
  showNotification "Image replaced! Use Ctrl+Z to undo" ;;
  setTimeout (call (handleImageFile file)) 0.

Definition handlePaste (s : AppState) (items : option (list DataTransferItem)) : Prog unit :=
  match items with
  | None => Ret tt
  | Some items =>
      forEach items (fun item =>
        if includes "image" (item_type item) then
          match getAsFile item with
          | Some file =>
              if loaded s then replaceImage s file
              else call (handleImageFile file)
          | None => Ret tt
          end
        else Ret tt)
  end.

Definition handleKeyDown (s : AppState) (e : KeyboardEvent) : Prog unit :=
  (if (ctrlKey e || metaKey e) && String.eqb (key e) "z" then
     act PreventDefault ;; handleUndo s
   else Ret tt) ;;
  (if (ctrlKey e || metaKey e) && String.eqb (key e) "y" then
     act PreventDefault ;; handleRedo s
   else Ret tt) ;;
  (if (ctrlKey e || metaKey e) && String.eqb (key e) "d" then
     act PreventDefault ;;
     if loaded s then
       saveToHistory s ;; handleReset ;; showNotification "Image deleted"
     else Ret tt
   else Ret tt).

Definition handleDragOver : Prog unit :=
  act PreventDefault ;; act (SetIsDragging true).

Definition handleDragLeave : Prog unit :=
  act PreventDefault ;; act (SetIsDragging false).

(** [onDrop] of the drop zone. *)
Definition handleDrop (s : AppState) (files : list File.t) : Prog unit :=
  act PreventDefault ;;
  act (SetIsDragging false) ;;
  match files with
  | file0 :: _ =>
      if String.prefix "image/" (File.type file0) then
        if loaded s then
          handleReset ;; setTimeout (call (handleImageFile file0)) 0
        else call (handleImageFile file0)
      else Ret tt
  | [] => Ret tt
  end.

Definition handleFileSelect (files : option (list File.t)) : Prog unit :=
  match files with
  | Some (file0 :: _) => call (handleImageFile file0)
  | _ => Ret tt
  end.

(** The handlers written inline on the outermost [div]. *)
Definition rootDragOver : Prog unit :=
  act PreventDefault ;; act (SetIsDragging true).

Definition rootDragLeave : Prog unit := act (SetIsDragging false).

Definition rootDrop (s : AppState) (files : list File.t) : Prog unit :=
  act PreventDefault ;;
  act (SetIsDragging false) ;;
  match files with
  | file0 :: _ =>
      if String.prefix "image/" (File.type file0) then
        if loaded s then replaceImage s file0
        else call (handleImageFile file0)
      else Ret tt
  | [] => Ret tt
  end.

Definition copyJson (s : AppState) : Prog unit :=
  match metadata s with
  | Some md => act (CopyJson md) ;; showNotification "Metadata copied to clipboard"
  | None => Ret tt
  end.

(** What the user can do to the page. An event on the drop zone bubbles to
    the outermost [div], whose handler of the same event runs after it. *)
Inductive UserEvent : Type :=
| Paste (items : option (list DataTransferItem))
| KeyDown (e : KeyboardEvent)
| DragOverPage
| DragLeavePage
| DropOnPage (files : list File.t)
| DragOverZone
| DragLeaveZone
| DropOnZone (files : list File.t)
| SelectFile (files : option (list File.t))
| ClickReset                 (* the X buttons and Process Another *)
| ClickViewJson
| ClickCloseJson
| ClickCopyJson
| ClickDownloadOriginal
| ClickClean                 (* Remove All Metadata *)
| ClickDownload.             (* Download Clean Image *)

Definition dispatch (s : AppState) (ev : UserEvent) : Prog unit :=
  match ev with
  | Paste items => handlePaste s items
  | KeyDown e => handleKeyDown s e
  | DragOverPage => rootDragOver
  | DragLeavePage => rootDragLeave
  | DropOnPage files => rootDrop s files
  | DragOverZone => handleDragOver ;; rootDragOver
  | DragLeaveZone => handleDragLeave ;; rootDragLeave
  | DropOnZone files => handleDrop s files ;; rootDrop s files
  | SelectFile files => handleFileSelect files
  | ClickReset => handleReset
  | ClickViewJson => act (SetShowJsonModal true)
  | ClickCloseJson => act (SetShowJsonModal false)
  | ClickCopyJson => copyJson s
  | ClickDownloadOriginal => handleDownloadOriginal s
  | ClickClean => handleCleanMetadata s
  | ClickDownload => handleDownload s
  end.

(** The conditions under which the JSX renders the element that carries the
    handler. *)
Definition zoneShown (s : AppState) : bool :=
  negb (truthy_str (originalImage s)) && negb (truthy_str (processedImage s))
  && negb (isProcessing s).

Definition loadedPanelShown (s : AppState) : bool :=
  truthy_str (originalImage s) && negb (truthy_str (processedImage s)).

Definition cleanedPanelShown (s : AppState) : bool :=
  truthy_str (processedImage s) && negb (isProcessing s).

Definition modalShown (s : AppState) : bool :=
  showJsonModal s && bool_decide (is_Some (metadata s)).

Definition enabled (s : AppState) (ev : UserEvent) : bool :=
  match ev with
  | Paste _ | KeyDown _ | DragOverPage | DragLeavePage | DropOnPage _ => true
  | DragOverZone | DragLeaveZone | DropOnZone _ | SelectFile _ => zoneShown s
  | ClickReset => loadedPanelShown s || cleanedPanelShown s
  | ClickViewJson => loadedPanelShown s && bool_decide (is_Some (metadata s))
  | ClickCloseJson | ClickCopyJson => modalShown s
  | ClickDownloadOriginal => loadedPanelShown s
  | ClickClean => loadedPanelShown s && negb (isProcessing s)
  | ClickDownload => cleanedPanelShown s
  end.

(** ** The event loop *)

(** [current] holds the cells as the latest render shows them; [listener]
    is the render whose [handlePaste] and [handleKeyDown] are registered on
    the document. *)
Record Config : Type := {
  current : AppState;
  listener : AppState;
  pending : list Task;
}.

Definition initialConfig : Config :=
  {| current := initialState; listener := initialState; pending := [] |}.

Definition sets_history (e : Event) : bool :=
  match e with
  | EAct (SetHistory _) => true
  | _ => false
  end.

(** The dependencies [[originalImage, processedImage, history]] of the
    effect, compared as React compares them (by [Object.is]) between the
    render before a run and the render after it: the two images are strings
    or [null] and differ when their values do; [history] is an array and
    differs when [setHistory] has been called, which the component always
    does with an array that it has just built. *)
Definition deps_changed (st : AppState) (r : Run unit) : bool :=
  negb (bool_decide (originalImage (store r) = originalImage st)) ||
  negb (bool_decide (processedImage (store r) = processedImage st)) ||
  existsb sets_history (trace r).

(** Run [p] to its end or its first request on the current store and render
    the result; [rest] are the tasks that stay. The effect registers the
    listeners of the new render when a dependency has changed, and leaves
    those in place otherwise. *)
Definition deliver (pf : Platform) (c : Config) (rest : list Task) (p : Prog unit) : Config :=
  let r := exec pf no_answer p (current c) in
  {| current := store r;
     listener := if deps_changed (current c) r then store r else listener c;
     pending := rest ++ spawned r ++ task_of (outcome r) |}.

(** The render whose handler an event reaches: the registered listener for
    the events of the document, the latest render for the events of an
    element. *)
Definition handling (c : Config) (ev : UserEvent) : AppState :=
  match ev with
  | Paste _ | KeyDown _ => listener c
  | _ => current c
  end.

Inductive step (c : Config) : Config -> Prop :=
| step_event (pf : Platform) (ev : UserEvent) :
    enabled (current c) ev = true ->
    step c (deliver pf c (pending c) (dispatch (handling c ev) ev))
| step_timer (pf : Platform) (l1 l2 : list Task) (ms : N) (cb : Prog unit) :
    pending c = l1 ++ TaskTimer ms cb :: l2 ->
    step c (deliver pf c (l1 ++ l2) cb)
| step_answer (pf : Platform) (l1 l2 : list Task) (r : Request)
    (k : rans r -> Prog unit) (x : rans r) :
    pending c = l1 ++ TaskAwait r k :: l2 ->
    step c (deliver pf c (l1 ++ l2) (k x)).

Inductive reachable : Config -> Prop :=
| reachable_initial : reachable initialConfig
| reachable_step (c c' : Config) : reachable c -> step c c' -> reachable c'.

(** ** Sample values

    Concrete inputs for the closed instances of the theorems. *)

Definition samplePlatform : Platform :=
  {| context2d := fun _ _ => true;
     objectURL := fun b => "blob:" +:+ string_of_N (blob_size b);
     toLocaleString := fun t => "t" +:+ string_of_N (Z.to_N t) |}.

Definition sampleSnapshot : HistoryState.t :=
  {| HistoryState.originalImage := Some "data:image/png;base64,AAAA";
     HistoryState.originalFileName := "old.png";
     HistoryState.metadata := None;
     HistoryState.processedImage := None |}.

Definition loadedState : AppState :=
  {| isDragging := false; isProcessing := false; processedImage := None;
     originalImage := Some "data:image/jpeg;base64,BBBB";
     originalFileName := "photo.jpeg"; metadata := None;
     history := [sampleSnapshot]; futureHistory := [sampleSnapshot];
     notification := None; showJsonModal := false |}.


Definition sampleFile : File.t :=
  {| File.name := "photo.jpeg"; File.size := 1536; File.type := "image/jpeg";
     File.lastModified := 1700000000000 |}.

Definition sampleBlob : Blob := {| blob_type := "image/jpeg"; blob_size := 7 |}.

(** A platform on which the parser throws. *)
Definition throwingAnswers (r : Request) : rans r :=
  match r return rans r with
  | ExifrParse _ _ => inl {| thrown_String := "Error: Unknown file format" |}
  | ExifrThumbnail _ => inr None
  | ReadAsDataURL _ => "data:image/jpeg;base64,BBBB"
  | LoadImage _ => ImgLoad 2 2
  | ToBlob _ _ => Some sampleBlob
  end.

(** A platform on which every request succeeds. *)
Definition sampleAnswers (r : Request) : rans r :=
  match r return rans r with
  | ExifrParse _ _ => inr (VObj [("ifd0", VObj [("Make", VStr "ACME")])])
  | ExifrThumbnail _ => inr (Some 120%N)
  | ReadAsDataURL _ => "data:image/jpeg;base64,BBBB"
  | LoadImage _ => ImgLoad 2 2
  | ToBlob _ _ => Some sampleBlob
  end.

Definition cleanedState : AppState :=
  {| isDragging := false; isProcessing := false; processedImage := Some "blob:7";
     originalImage := Some "data:image/png;base64,AAAA";
     originalFileName := "holiday.2024.png"; metadata := None;
     history := [sampleSnapshot]; futureHistory := [];
     notification := None; showJsonModal := false |}.

Definition pastedState : AppState :=
  {| isDragging := false; isProcessing := false; processedImage := Some "blob:7";
     originalImage := Some "data:image/png;base64,AAAA";
     originalFileName := "image"; metadata := None;
     history := []; futureHistory := [];
     notification := None; showJsonModal := false |}.

Definition ctrlD : KeyboardEvent := {| ctrlKey := true; metaKey := false; key := "d" |}.

(** ** Predicates used in the statements *)

(** A block of [extractMetadata] that only assigns: it ends normally and
    leaves the 'File Info' property as it was. *)
Definition quiet (m : Body unit) : Prop :=
  forall md : ExifData, exists md' : ExifData,
    m md = Ret (md', inr tt) /\ md' !! "File Info" = md !! "File Info".

(** The extension of a file name: at least one character after the final
    dot, none of them a dot or a slash. *)
Fixpoint all_chars (P : ascii -> bool) (s : string) : bool :=
  match s with
  | EmptyString => true
  | String c s' => P c && all_chars P s'
  end.

Definition is_extension (ext : string) : bool :=
  negb (String.eqb ext "") &&
  all_chars (fun c => negb (Ascii.eqb c "." || Ascii.eqb c "/")) ext.

(** Some suffix of the name is a dot followed by an extension. *)
Fixpoint has_extension (s : string) : bool :=
  match s with
  | EmptyString => false
  | String c s' => (Ascii.eqb c "." && is_extension s') || has_extension s'
  end.

(** The exports that a run has requested: the type and the quality of each
    [canvas.toBlob]. *)
Definition exports (tr : list Event) : list (string * Q) :=
  omap (fun e =>
          match e with
          | EAwait (ToBlob type quality) => Some (type, quality)
          | _ => None
          end) tr.

(** ** Actions that change the loaded image *)

(** An item of a paste that [handlePaste] takes up. *)
Definition pastes_file (item : DataTransferItem) : bool :=
  includes "image" (item_type item) && bool_decide (is_Some (getAsFile item)).

Definition drops_image (files : list File.t) : bool :=
  match files with
  | file0 :: _ => String.prefix "image/" (File.type file0)
  | [] => false
  end.

Definition is_delete_key (e : KeyboardEvent) : bool :=
  (ctrlKey e || metaKey e) && String.eqb (key e) "d".

(** The three kinds of action that change the image in the state: cleaning
    its metadata, replacing it while one is loaded, deleting it. *)
Inductive MutatingAction (s : AppState) : UserEvent -> Prop :=
| mutating_clean :
    truthy_str (originalImage s) = true -> MutatingAction s ClickClean
| mutating_replace_paste (items : list DataTransferItem) :
    loaded s = true -> existsb pastes_file items = true ->
    MutatingAction s (Paste (Some items))
| mutating_replace_drop (files : list File.t) :
    loaded s = true -> drops_image files = true ->
    MutatingAction s (DropOnPage files)
| mutating_delete_key (e : KeyboardEvent) :
    loaded s = true -> is_delete_key e = true -> MutatingAction s (KeyDown e)
| mutating_delete_button :
    loaded s = true -> MutatingAction s ClickReset.

(** Those of them whose handler calls [saveToHistory]. *)
Inductive SavingAction (s : AppState) : UserEvent -> Prop :=
| saving_clean :
    truthy_str (originalImage s) = true -> SavingAction s ClickClean
| saving_replace_paste (items : list DataTransferItem) :
    loaded s = true -> existsb pastes_file items = true ->
    SavingAction s (Paste (Some items))
| saving_replace_drop (files : list File.t) :
    loaded s = true -> drops_image files = true ->
    SavingAction s (DropOnPage files)
| saving_delete_key (e : KeyboardEvent) :
    loaded s = true -> is_delete_key e = true -> SavingAction s (KeyDown e).

(** A setter of one of the four fields of a snapshot. *)
Definition changes_fields (e : Event) : bool :=
  match e with
  | EAct (SetOriginalImage _) | EAct (SetOriginalFileName _)
  | EAct (SetMetadata _) | EAct (SetProcessedImage _) => true
  | _ => false
  end.

(** The snapshot of the state before the action is appended to the past
    stack, and no field of the state is set before that. *)
Definition pushes_snapshot (s : AppState) (r : Run unit) : Prop :=
  history (store r) = history s ++ [snapshot s] /\
  exists pre post,
    trace r = pre ++ EAct (SetHistory (history s ++ [snapshot s])) :: post /\
    forallb (fun e => negb (changes_fields e)) pre = true.

(** ** What a program may put on the two stacks *)

Definition action_safe (P : HistoryState.t -> Prop) (a : Action) : Prop :=
  match a with
  | SetHistory l | SetFutureHistory l => Forall P l
  | _ => True
  end.

(** Every list that [p] stores as the past or the future stack, in
    whatever branch, callee or callback, is made of records that satisfy
    [P]. *)
Fixpoint stack_safe (P : HistoryState.t -> Prop) {R : Type} (p : Prog R) : Prop :=
  match p with
  | Ret _ => True
  | Act a k => action_safe P a /\ stack_safe P k
  | Ask q k => forall x, stack_safe P (k x)
  | Await r k => forall x, stack_safe P (k x)
  | Call child k => stack_safe P child /\ stack_safe P k
  | SetTimeout cb _ k => stack_safe P cb /\ stack_safe P k
  end.

Definition task_safe (P : HistoryState.t -> Prop) (t : Task) : Prop :=
  match t with
  | TaskTimer _ cb => stack_safe P cb
  | TaskAwait r k => forall x, stack_safe P (k x)
  end.

Definition outcome_safe (P : HistoryState.t -> Prop) {R : Type} (o : Outcome R) : Prop :=
  match o with
  | Finished _ => True
  | Suspended r k => forall x, stack_safe P (k x)
  end.

Definition stacks_ok (P : HistoryState.t -> Prop) (st : AppState) : Prop :=
  Forall P (history st) /\ Forall P (futureHistory st).

(** The record of the four fields of a state that the page has been in. *)
Definition snapshot_of_reachable (h : HistoryState.t) : Prop :=
  exists c : Config,
    reachable c /\
    h = {| HistoryState.originalImage := originalImage (current c);
           HistoryState.originalFileName := originalFileName (current c);
           HistoryState.metadata := metadata (current c);
           HistoryState.processedImage := processedImage (current c) |}.

Definition body_safe (P : HistoryState.t -> Prop) {A : Type} (m : Body A) : Prop :=
  forall md, stack_safe P (m md).

(** ** A sample run of the page

    A file is selected, the parser throws, the reader delivers the data
    URL, and the user presses Ctrl+D. *)

(** The platform answers the oldest pending request. *)
Definition answer_first (pf : Platform) (x : forall r : Request, rans r) (c : Config) : Config :=
  match pending c with
  | TaskAwait r k :: rest => deliver pf c rest (k (x r))
  | _ => c
  end.

(** The timer that was set last fires. *)
Definition fire_last (pf : Platform) (c : Config) : Config :=
  match last (pending c) with
  | Some (TaskTimer _ cb) => deliver pf c (removelast (pending c)) cb
  | _ => c
  end.

(** The user does [ev]: the handler that runs is the registered listener
    for a paste or a key, that of the latest render otherwise. *)
Definition user_event (pf : Platform) (ev : UserEvent) (c : Config) : Config :=
  deliver pf c (pending c) (dispatch (handling c ev) ev).

Definition config_selected : Config :=
  user_event samplePlatform (SelectFile (Some [sampleFile])) initialConfig.

Definition config_extracted : Config :=
  answer_first samplePlatform throwingAnswers config_selected.

Definition config_loaded : Config :=
  answer_first samplePlatform throwingAnswers config_extracted.

Definition config_deleted : Config :=
  user_event samplePlatform (KeyDown ctrlD) config_loaded.

(** ** The keys of undo and redo *)

Definition is_undo_key (e : KeyboardEvent) : bool :=
  (ctrlKey e || metaKey e) && String.eqb (key e) "z".

Definition is_redo_key (e : KeyboardEvent) : bool :=
  (ctrlKey e || metaKey e) && String.eqb (key e) "y".

Definition ctrlZ : KeyboardEvent := {| ctrlKey := true; metaKey := false; key := "z" |}.

Definition cmdY : KeyboardEvent := {| ctrlKey := false; metaKey := true; key := "y" |}.

(** ** What the listeners of the document read *)

(** The render [l] has the images and the stacks of the store [st]. *)
Definition reads_current (l st : AppState) : Prop :=
  originalImage l = originalImage st /\ processedImage l = processedImage st /\
  history l = history st /\ futureHistory l = futureHistory st.

(** The cells as [handlePaste] and [handleKeyDown] find them: those of the
    latest render, but the file name and the metadata of the render in
    which the two were registered. *)
Definition listened (c : Config) : AppState :=
  {| isDragging := isDragging (current c); isProcessing := isProcessing (current c);
     processedImage := processedImage (current c);
     originalImage := originalImage (current c);
     originalFileName := originalFileName (listener c);
     metadata := metadata (listener c);
     history := history (current c); futureHistory := futureHistory (current c);
     notification := notification (current c);
     showJsonModal := showJsonModal (current c) |}.

(** The page as the listeners find it, with the listeners of that
    render. *)
Definition caught_up (c : Config) : Config :=
  {| current := listened c; listener := listened c; pending := pending c |}.

(** The listeners in place have the file name and the metadata of the
    latest render. *)
Definition up_to_date (c : Config) : Prop :=
  originalFileName (listener c) = originalFileName (current c) /\
  metadata (listener c) = metadata (current c).

(** ** A second sample run

    With the first file loaded, the user pastes a second one; the timer of
    the replacement starts its load, which sets the new file name and waits
    for the parser; the user presses Ctrl+Z, then Ctrl+Y. *)

Definition secondFile : File.t :=
  {| File.name := "second.png"; File.size := 2048; File.type := "image/png";
     File.lastModified := 1700000000001 |}.

Definition secondItem : DataTransferItem :=
  {| item_type := "image/png"; getAsFile := Some secondFile |}.

Definition config_pasted : Config :=
  user_event samplePlatform (Paste (Some [secondItem])) config_loaded.

Definition config_reloading : Config := fire_last samplePlatform config_pasted.

Definition config_undone : Config :=
  user_event samplePlatform (KeyDown ctrlZ) config_reloading.

Definition config_redone : Config :=
  user_event samplePlatform (KeyDown cmdY) config_undone.

(** ** A third sample run

    While the first file waits for the parser, a second one is pasted and
    its load starts too. The parser answers for the first file, the reader
    delivers the first file, and then the parser answers for the second
    file; the user presses Ctrl+D. *)

(** The platform answers the newest pending request. *)
Definition answer_last (pf : Platform) (x : forall r : Request, rans r) (c : Config) : Config :=
  match last (pending c) with
  | Some (TaskAwait r k) => deliver pf c (removelast (pending c)) (k (x r))
  | _ => c
  end.

Definition config_two_loads : Config :=
  user_event samplePlatform (Paste (Some [secondItem])) config_selected.

Definition config_first_parsed : Config :=
  answer_first samplePlatform throwingAnswers config_two_loads.

Definition config_first_read : Config :=
  answer_last samplePlatform throwingAnswers config_first_parsed.

Definition config_second_parsed : Config :=
  answer_first samplePlatform throwingAnswers config_first_read.

Definition config_stale_deleted : Config :=
  user_event samplePlatform (KeyDown ctrlD) config_second_parsed.

(** ** What a program and the tasks it leaves may do *)

(** Every effect without a result that [p] can perform, in whatever branch,
    callee or callback, satisfies [A]. *)
Fixpoint acts_in (A : Action -> Prop) {R : Type} (p : Prog R) : Prop :=
  match p with
  | Ret _ => True
  | Act a k => A a /\ acts_in A k
  | Ask q k => forall x, acts_in A (k x)
  | Await r k => forall x, acts_in A (k x)
  | Call child k => acts_in A child /\ acts_in A k
  | SetTimeout cb _ k => acts_in A cb /\ acts_in A k
  end.

(** The same for what [p] leaves to the event loop when it runs up to its
    first request: the rest of [p] after that request, the async functions
    it has called and the callbacks of its timers. *)
Fixpoint spawns_in (A : Action -> Prop) {R : Type} (p : Prog R) : Prop :=
  match p with
  | Ret _ => True
  | Act a k => spawns_in A k
  | Ask q k => forall x, spawns_in A (k x)
  | Await r k => forall x, acts_in A (k x)
  | Call child k => acts_in A child /\ spawns_in A k
  | SetTimeout cb _ k => acts_in A cb /\ spawns_in A k
  end.

(** [p] ends without waiting for the platform. *)
Fixpoint synchronous {R : Type} (p : Prog R) : Prop :=
  match p with
  | Ret _ => True
  | Act a k => synchronous k
  | Ask q k => forall x, synchronous (k x)
  | Await r k => False
  | Call child k => synchronous k
  | SetTimeout cb _ k => synchronous k
  end.

Definition task_in (A : Action -> Prop) (t : Task) : Prop :=
  match t with
  | TaskTimer _ cb => acts_in A cb
  | TaskAwait r k => forall x, acts_in A (k x)
  end.

Definition outcome_in (A : Action -> Prop) {R : Type} (o : Outcome R) : Prop :=
  match o with
  | Finished _ => True
  | Suspended r k => forall x, acts_in A (k x)
  end.

Definition body_acts_in (A : Action -> Prop) {X : Type} (m : Body X) : Prop :=
  forall md, acts_in A (m md).

(** The effects that leave the two stacks alone. *)
Definition keeps_stacks (a : Action) : Prop :=
  match a with
  | SetHistory _ | SetFutureHistory _ => False
  | _ => True
  end.

(** The setters that [handleImageFile] calls. *)
Definition load_setter (a : Action) : Prop :=
  match a with
  | SetIsProcessing _ | SetProcessedImage _ | SetOriginalFileName _
  | SetMetadata _ | SetOriginalImage _ => True
  | _ => False
  end.

Definition stacks (st : AppState) : list HistoryState.t * list HistoryState.t :=
  (history st, futureHistory st).

Definition textFile : File.t :=
  {| File.name := "notes.txt"; File.size := 12; File.type := "text/plain";
     File.lastModified := 1700000000000 |}.

Definition textItem : DataTransferItem :=
  {| item_type := "text/plain"; getAsFile := None |}.

Definition imageItem : DataTransferItem :=
  {| item_type := "image/png"; getAsFile := Some sampleFile |}.

(** A platform whose canvas has no 2d context. *)
Definition noContextPlatform : Platform :=
  {| context2d := fun _ _ => false;
     objectURL := objectURL samplePlatform;
     toLocaleString := toLocaleString samplePlatform |}.

(** A platform on which the image does not load. *)
Definition brokenImageAnswers (r : Request) : rans r :=
  match r return rans r with
  | LoadImage _ => ImgError
  | ExifrParse f o => sampleAnswers (ExifrParse f o)
  | ExifrThumbnail f => sampleAnswers (ExifrThumbnail f)
  | ReadAsDataURL f => sampleAnswers (ReadAsDataURL f)
  | ToBlob t q => sampleAnswers (ToBlob t q)
  end.

(** A platform on which [toBlob] delivers [null]. *)
Definition nullBlobAnswers (r : Request) : rans r :=
  match r return rans r with
  | ToBlob _ _ => None
  | ExifrParse f o => sampleAnswers (ExifrParse f o)
  | ExifrThumbnail f => sampleAnswers (ExifrThumbnail f)
  | ReadAsDataURL f => sampleAnswers (ReadAsDataURL f)
  | LoadImage s => sampleAnswers (LoadImage s)
  end.

(** The reader never delivers. *)
Definition silentReader : Oracle :=
  fun r =>
    match r return option (rans r) with
    | ReadAsDataURL _ => None
    | r' => Some (sampleAnswers r')
    end.

(** The spinner of the page: [isProcessing && !originalImage]. *)
Definition spinnerShown (s : AppState) : bool :=
  isProcessing s && negb (truthy_str (originalImage s)).

(** The segments of the parser's output that [extractMetadata] copies, and
    the keys it copies them to. *)
Definition segmentKeys : list (string * string) :=
  [ ("ifd0", "IFD0"); ("ifd1", "IFD1"); ("exif", "EXIF"); ("gps", "GPS");
    ("iptc", "IPTC"); ("icc", "ICC Profile"); ("jfif", "JFIF");
    ("ihdr", "PNG IHDR"); ("xmp", "XMP"); ("tiff", "TIFF");
    ("interop", "Interoperability"); ("makerNote", "Maker Note") ].

(** The object after the copies of the segments in [table], in order. *)
Fixpoint copySegments (a : JsVal) (table : list (string * string)) (md : ExifData) : ExifData :=
  match table with
  | [] => md
  | (seg, key) :: rest =>
      copySegments a rest
        (if truthy (get_prop a seg) then <[key := get_prop a seg]> md else md)
  end.

(** ** Notifications and their timers *)

(** The callback [() => setNotification(null)]. *)
Definition is_clear (cb : Prog unit) : bool :=
  match cb with
  | Act (SetNotification None) (Ret _) => true
  | _ => false
  end.

(** [owes b p]: [p] never waits, calls or ends while a notification that it
    has shown has no timer yet; [b] tells whether [p] starts in this
    position. The same holds for its callees and callbacks. *)
Fixpoint owes (b : bool) {R : Type} (p : Prog R) : Prop :=
  match p with
  | Ret _ => b = false
  | Act a k =>
      owes (match a with
            | SetNotification (Some _) => true
            | SetNotification None => false
            | _ => b
            end) k
  | Ask q k => forall x, owes b (k x)
  | Await r k => b = false /\ forall x, owes false (k x)
  | Call child k => b = false /\ owes false child /\ owes false k
  | SetTimeout cb _ k => owes false cb /\ owes (if is_clear cb then false else b) k
  end.

Definition clearing (t : Task) : Prop :=
  match t with
  | TaskTimer _ cb => is_clear cb = true
  | TaskAwait _ _ => False
  end.

Definition owes_task (t : Task) : Prop :=
  match t with
  | TaskTimer _ cb => owes false cb
  | TaskAwait r k => forall x, owes false (k x)
  end.

Definition outcome_owes {R : Type} (o : Outcome R) : Prop :=
  match o with
  | Finished _ => True
  | Suspended r k => forall x, owes false (k x)
  end.

(** A notification that is shown has a pending timer that removes it. *)
Definition notif_inv (st : AppState) (ts : list Task) : Prop :=
  notification st <> None -> Exists clearing ts.

(** The effects that show no notification. *)
Definition shows_nothing (a : Action) : Prop :=
  match a with
  | SetNotification (Some _) => False
  | _ => True
  end.

(** Both images are present while the page is processing. *)
Definition blankState : AppState :=
  {| isDragging := false; isProcessing := true; processedImage := Some "blob:7";
     originalImage := Some "data:image/png;base64,AAAA";
     originalFileName := "old.png"; metadata := None;
     history := []; futureHistory := [sampleSnapshot];
     notification := None; showJsonModal := false |}.
(** * Properties *)

(** ** Examples *)

Example replace_examples :
  map (replace_first extensionRegex "")
      ["photo.jpeg"; "x.tar.gz"; "noext"; "file."; ".bashrc"; "a..b"] =
  ["photo"; "x.tar"; "noext"; "file."; ""; "a."].
Proof. reflexivity. Qed.

Example toFixed2_examples :
  map toFixed2_div1024 [0; 128; 1024; 1536; 123456]%N =
  ["0.00"; "0.13"; "1.00"; "1.50"; "120.56"].
Proof. reflexivity. Qed.

Example includes_examples :
  map (includes "image") ["image/png"; "text/plain"; ""] = [true; false; false].
Proof. reflexivity. Qed.

(** ** Running composed programs *)

Lemma after_after {R : Type} (e1 e2 : list Event) (t1 t2 : list Task) (r : Run R) :
  after e1 t1 (after e2 t2 r) = after (e1 ++ e2) (t1 ++ t2) r.
Proof.
  unfold after; simpl. by rewrite !app_assoc.
Qed.

Lemma after_nil {R : Type} (r : Run R) : after [] [] r = r.
Proof. by destruct r. Qed.

(** [bind] runs its first program and, when that one finishes, the second
    one on the store it has left. *)
Lemma exec_bind {A B : Type} (pf : Platform) (orc : Oracle)
    (p : Prog A) (f : A -> Prog B) (st : AppState) :
  exec pf orc (bind p f) st =
  match outcome (exec pf orc p st) with
  | Finished a =>
      after (trace (exec pf orc p st)) (spawned (exec pf orc p st))
            (exec pf orc (f a) (store (exec pf orc p st)))
  | Suspended q k =>
      {| trace := trace (exec pf orc p st); store := store (exec pf orc p st);
         spawned := spawned (exec pf orc p st);
         outcome := Suspended q (fun x => bind (k x) f) |}
  end.
Proof.
  revert B f st.
  induction p as [A a | A a k IH | A q k IH | A r k IH | A child _ k IH | A cb _ ms k IH];
    intros B f st; simpl.
  - by rewrite after_nil.
  - rewrite IH. by destruct (outcome (exec pf orc k (apply_action a st))); simpl;
      rewrite ?after_after.
  - rewrite IH. by destruct (outcome (exec pf orc (k (answer pf q)) st)); simpl;
      rewrite ?after_after.
  - destruct (orc r) as [x|]; simpl; [|done].
    rewrite IH. by destruct (outcome (exec pf orc (k x) st)); simpl;
      rewrite ?after_after.
  - rewrite IH.
    by destruct (outcome (exec pf orc k (store (exec pf no_answer child st)))); simpl;
      rewrite ?after_after.
  - rewrite IH. by destruct (outcome (exec pf orc k st)); simpl;
      rewrite ?after_after.
Qed.

(** What a run leaves in the trace, to the event loop and as its outcome
    does not depend on the store it runs on: a handler reads the cells of
    its render, never the store. *)
Lemma exec_store_irrelevant {X : Type} (pf : Platform) (orc : Oracle) (p : Prog X)
    (st1 st2 : AppState) :
  trace (exec pf orc p st1) = trace (exec pf orc p st2) /\
  spawned (exec pf orc p st1) = spawned (exec pf orc p st2) /\
  outcome (exec pf orc p st1) = outcome (exec pf orc p st2).
Proof.
  revert orc st1 st2.
  induction p as [X a | X a k IH | X q k IH | X r k IH | X child IHc k IH | X cb _ ms k IH];
    intros orc st1 st2; simpl.
  - done.
  - destruct (IH orc (apply_action a st1) (apply_action a st2)) as (-> & -> & ->). done.
  - destruct (IH (answer pf q) orc st1 st2) as (-> & -> & ->). done.
  - destruct (orc r) as [x|]; simpl; [|done].
    destruct (IH x orc st1 st2) as (-> & -> & ->). done.
  - destruct (IHc no_answer st1 st2) as (-> & -> & ->).
    destruct (IH orc (store (exec pf no_answer child st1))
                (store (exec pf no_answer child st2))) as (-> & -> & ->).
    done.
  - destruct (IH orc st1 st2) as (-> & -> & ->). done.
Qed.

(** ** Undo and redo *)

Lemma array_pop_snoc {A : Type} (l : list A) (x : A) :
  array_pop (l ++ [x]) = (Some x, l).
Proof.
  unfold array_pop. by rewrite last_snoc, removelast_last.
Qed.

Lemma length_snoc_eqb {A : Type} (l : list A) (x : A) :
  (length (l ++ [x]) =? 0)%nat = false.
Proof.
  rewrite length_app; simpl. apply Nat.eqb_neq. lia.
Qed.

Lemma snapshot_eta (p : HistoryState.t) :
  {| HistoryState.originalImage := HistoryState.originalImage p;
     HistoryState.originalFileName := HistoryState.originalFileName p;
     HistoryState.metadata := HistoryState.metadata p;
     HistoryState.processedImage := HistoryState.processedImage p |} = p.
Proof. by destruct p. Qed.

Lemma exec_handleUndo (pf : Platform) (orc : Oracle) (s st : AppState)
    (h : list HistoryState.t) (p : HistoryState.t) :
  history s = h ++ [p] ->
  store (exec pf orc (handleUndo s) st) =
  {| isDragging := isDragging st; isProcessing := isProcessing st;
     processedImage := HistoryState.processedImage p;
     originalImage := HistoryState.originalImage p;
     originalFileName := HistoryState.originalFileName p;
     metadata := HistoryState.metadata p;
     history := h; futureHistory := snapshot s :: futureHistory s;
     notification := notification st; showJsonModal := showJsonModal st |}.
Proof.
  intros Hh. unfold handleUndo.
  rewrite Hh, length_snoc_eqb, array_pop_snoc. reflexivity.
Qed.

Lemma exec_handleRedo (pf : Platform) (orc : Oracle) (s st : AppState)
    (n : HistoryState.t) (f : list HistoryState.t) :
  futureHistory s = n :: f ->
  store (exec pf orc (handleRedo s) st) =
  {| isDragging := isDragging st; isProcessing := isProcessing st;
     processedImage := HistoryState.processedImage n;
     originalImage := HistoryState.originalImage n;
     originalFileName := HistoryState.originalFileName n;
     metadata := HistoryState.metadata n;
     history := history s ++ [snapshot s]; futureHistory := f;
     notification := notification st; showJsonModal := showJsonModal st |}.
Proof.
  intros Hf. unfold handleRedo. rewrite Hf. reflexivity.
Qed.

(** C9. [handleUndo] with an empty past stack and [handleRedo] with an empty
    future stack do nothing at all: no effect is performed, and the store
    (the four fields, both stacks and every other cell) is left as it is. *)
Theorem handleUndo_handleRedo_empty (pf : Platform) (orc : Oracle) (s st : AppState) :
  (history s = [] ->
     exec pf orc (handleUndo s) st =
     {| trace := []; store := st; spawned := []; outcome := Finished tt |}) /\
  (futureHistory s = [] ->
     exec pf orc (handleRedo s) st =
     {| trace := []; store := st; spawned := []; outcome := Finished tt |}).
Proof.
  split; intros H.
  - unfold handleUndo. by rewrite H.
  - unfold handleRedo. by rewrite H.
Qed.

Lemma handleUndo_handleRedo_empty_witness :
  exec samplePlatform no_answer (handleUndo initialState) initialState =
    {| trace := []; store := initialState; spawned := []; outcome := Finished tt |} /\
  exec samplePlatform no_answer (handleRedo initialState) initialState =
    {| trace := []; store := initialState; spawned := []; outcome := Finished tt |}.
Proof.
  split.
  - exact (proj1 (handleUndo_handleRedo_empty samplePlatform no_answer
                    initialState initialState) eq_refl).
  - exact (proj2 (handleUndo_handleRedo_empty samplePlatform no_answer
                    initialState initialState) eq_refl).
Defined.

(** ** Metadata extraction *)

Lemma quiet_ret : quiet (ret_b tt).
Proof. intros md. by exists md. Qed.

Lemma quiet_assign (key : string) (v : JsVal) :
  key <> "File Info" -> quiet (assign key v).
Proof.
  intros Hne md. exists (<[key := v]> md). split; [done|].
  by rewrite lookup_insert_ne.
Qed.

Lemma quiet_when (c : bool) (m : Body unit) : quiet m -> quiet (when_b c m).
Proof. destruct c; simpl; [done|]. intros _. apply quiet_ret. Qed.

Lemma quiet_seq (m1 m2 : Body unit) :
  quiet m1 -> quiet m2 -> quiet (bind_b m1 (fun _ => m2)).
Proof.
  intros H1 H2 md.
  destruct (H1 md) as [md1 [E1 K1]]. destruct (H2 md1) as [md2 [E2 K2]].
  exists md2. unfold bind_b. rewrite E1. simpl. split; [done|]. congruence.
Qed.

Lemma quiet_copySegment (a : JsVal) (seg key : string) :
  key <> "File Info" -> quiet (copySegment a seg key).
Proof. intros Hne. apply quiet_when, quiet_assign, Hne. Qed.

(** What one run of [extractMetadata] does, by what the parser answers. *)
Lemma exec_extractMetadata (pf : Platform) (orc : Oracle) (file : File.t) (st : AppState) :
  let r := exec pf orc (extractMetadata file) st in
  let info := fileInfo file (toLocaleString pf (File.lastModified file)) in
  let d := EAsk (DateToLocaleString (File.lastModified file)) in
  let pr := EAwait (ExifrParse file parseOptions) in
  let th := EAwait (ExifrThumbnail file) in
  store r = st /\ spawned r = [] /\
  match orc (ExifrParse file parseOptions) with
  | None => trace r = [d; pr] /\ exists q k, outcome r = Suspended q k
  | Some (inl e) =>
      trace r = [d; pr] /\
      outcome r =
        Finished (inr (<["Extraction Error" := VStr (thrown_String e)]> {[ "File Info" := info ]}))
  | Some (inr a) =>
      trace r = [d; pr; th] /\
      match orc (ExifrThumbnail file) with
      | None => exists q k, outcome r = Suspended q k
      | Some t =>
          exists md : ExifData,
            outcome r = Finished (inr md) /\
            md !! "File Info" = Some info /\
            forall e, t = inl e ->
              md !! "Extraction Error" = Some (VStr (thrown_String e))
      end
  end.
Proof.
  intros r info d pr th.
  assert (Hr : exec pf orc (extractMetadata file) st = r) by reflexivity.
  clearbody r. revert Hr.
  unfold extractMetadata.
  cbn [bind ask]. cbn [exec answer].
  fold info. set (md0 := {[ _ := _ ]}).
  assert (K0 : md0 !! "File Info" = Some info) by apply lookup_singleton_eq.
  unfold try_catch. unfold bind_b at 1. unfold await_parse, await. cbn [bind exec].
  destruct (orc (ExifrParse file parseOptions)) as [[e|a]|]; cbn [bind exec].
  - unfold assign. cbn. by intros <-.
  - unfold bind_b at 1.
    match goal with
    | |- context [when_b ?c ?m md0] => assert (Hq : quiet (when_b c m))
    end.
    { apply quiet_when.
      repeat (apply quiet_seq; [by apply quiet_copySegment|]).
      by apply quiet_copySegment. }
    destruct (Hq md0) as [md1 [E1 K1]]. rewrite E1. cbn [bind].
    unfold bind_b at 1, await_thumbnail, await. cbn [bind exec].
    destruct (orc (ExifrThumbnail file)) as [[e|[n|]]|]; cbn [bind exec].
    + unfold assign. cbn. intros <-. cbn. do 3 (split; [done|]). eexists. split; [done|]. split.
      * rewrite lookup_insert_ne by done. congruence.
      * intros e' [= <-]. apply lookup_insert_eq.
    + unfold assign. cbn. intros <-. cbn. do 3 (split; [done|]). eexists. split; [done|]. split.
      * rewrite lookup_insert_ne by done. congruence.
      * intros e' [=].
    + unfold ret_b. cbn. intros <-. cbn. do 3 (split; [done|]). eexists. split; [done|]. split.
      * congruence.
      * intros e' [=].
    + cbn. intros <-. cbn. do 3 (split; [done|]).
      exists (ExifrThumbnail file). eexists. reflexivity.
  - cbn. intros <-. cbn. do 3 (split; [done|]).
    exists (ExifrParse file parseOptions). eexists. reflexivity.
Qed.

Lemma extractMetadata_shape (pf : Platform) (orc : Oracle) (file : File.t) (st : AppState) :
  let r := exec pf orc (extractMetadata file) st in
  store r = st /\ spawned r = [] /\
  (exists tail,
     trace r = EAsk (DateToLocaleString (File.lastModified file))
               :: EAwait (ExifrParse file parseOptions) :: tail /\
     (tail = [] \/ tail = [EAwait (ExifrThumbnail file)])) /\
  ((exists q k, outcome r = Suspended q k) \/
   (exists md : ExifData,
      outcome r = Finished (inr md) /\
      md !! "File Info" = Some (fileInfo file (toLocaleString pf (File.lastModified file))))).
Proof.
  intros r. destruct (exec_extractMetadata pf orc file st) as (Hs & Hsp & H).
  fold r in Hs, Hsp, H. split; [done|]. split; [done|].
  destruct (orc (ExifrParse file parseOptions)) as [[e|a]|].
  - destruct H as [Ht Ho]. split; [eauto|]. right. eexists. split; [exact Ho|].
    rewrite lookup_insert_ne by done. apply lookup_singleton_eq.
  - destruct H as [Ht Ho]. split; [eauto|].
    destruct (orc (ExifrThumbnail file)); [right|by left].
    destruct Ho as (md & Ho & Hi & _). eauto.
  - destruct H as [Ht Ho]. split; [eauto|]. by left.
Qed.

(** C6. [extractMetadata] never ends with a thrown value, however far the
    platform lets it run; and when the platform settles its promises,
    whatever it answers, [extractMetadata] returns an object. The object has
    the 'File Info' section made of the file's name, size, type and
    last-modified time; when [exifr.parse] throws, or [exifr.thumbnail]
    after it, the object has the string of the error under
    'Extraction Error'. *)
Theorem extractMetadata_returns (pf : Platform) (file : File.t) (st : AppState) :
  (forall (orc : Oracle) (e : Thrown),
     outcome (exec pf orc (extractMetadata file) st) <> Finished (inl e)) /\
  (forall ans : forall r : Request, rans r,
   exists md : ExifData,
    outcome (exec pf (answering ans) (extractMetadata file) st) = Finished (inr md) /\
    md !! "File Info" =
      Some (VObj [ ("File Name", VStr (File.name file));
                   ("File Size", VStr (toFixed2_div1024 (File.size file) +:+ " KB"));
                   ("File Type", VStr (File.type file));
                   ("Last Modified", VStr (toLocaleString pf (File.lastModified file))) ]) /\
    (forall e, ans (ExifrParse file parseOptions) = inl e ->
       md !! "Extraction Error" = Some (VStr (thrown_String e))) /\
    (forall a e, ans (ExifrParse file parseOptions) = inr a ->
       ans (ExifrThumbnail file) = inl e ->
       md !! "Extraction Error" = Some (VStr (thrown_String e)))).
Proof.
  split.
  - intros orc e.
    destruct (extractMetadata_shape pf orc file st) as (_ & _ & _ & [(q & k & H)|(md & H & _)]);
      by rewrite H.
  - intros ans.
    destruct (exec_extractMetadata pf (answering ans) file st) as (_ & _ & H).
    unfold answering in H.
    destruct (ans (ExifrParse file parseOptions)) as [e|a].
    + destruct H as [_ H]. eexists. split; [exact H|]. split; [|split].
      * rewrite lookup_insert_ne by done. apply lookup_singleton_eq.
      * intros e' [= <-]. apply lookup_insert_eq.
      * intros a e' [=].
    + destruct H as [_ (md & Ho & Hi & He)]. exists md. split; [exact Ho|].
      split; [exact Hi|]. split.
      * intros e [=].
      * intros a' e _ Ht. by apply He.
Qed.

Lemma extractMetadata_returns_witness :
  exists md : ExifData,
    outcome (exec samplePlatform (answering throwingAnswers)
               (extractMetadata sampleFile) initialState) = Finished (inr md) /\
    md !! "File Info" =
      Some (VObj [ ("File Name", VStr "photo.jpeg");
                   ("File Size", VStr "1.50 KB");
                   ("File Type", VStr "image/jpeg");
                   ("Last Modified", VStr "t1700000000000") ]) /\
    md !! "Extraction Error" = Some (VStr "Error: Unknown file format").
Proof.
  destruct (proj2 (extractMetadata_returns samplePlatform sampleFile initialState)
              throwingAnswers)
    as (md & Ho & Hi & He & _).
  exists md. split; [exact Ho|]. split; [exact Hi|].
  apply (He {| thrown_String := "Error: Unknown file format" |}). reflexivity.
Defined.

(** ** The order of the pipeline *)

(** Find the place of an event in a trace that is known. *)
Ltac find_event H :=
  repeat match type of H with
  | _ :: _ = ?pre ++ _ :: _ =>
      destruct pre as [|? pre]; simpl in H;
      [ try discriminate H | injection H as <- H ]
  | [] = ?pre ++ _ :: _ => by destruct pre
  end.

Ltac sublist_greedy :=
  repeat first [ apply sublist_nil | apply sublist_skip | apply sublist_cons ].

(** The whole run of [extractMetadata] and of [handleImageFile] when the
    platform answers every request. *)
Lemma extractMetadata_run (pf : Platform) (ans : forall r : Request, rans r)
    (file : File.t) (st : AppState) :
  exists (md : ExifData) (tr : list Event),
    exec pf (answering ans) (extractMetadata file) st =
      {| trace := tr; store := st; spawned := []; outcome := Finished (inr md) |} /\
    EAwait (ExifrParse file parseOptions) ∈ tr /\
    md !! "File Info" = Some (fileInfo file (toLocaleString pf (File.lastModified file))).
Proof.
  destruct (exec_extractMetadata pf (answering ans) file st) as (Hs & Hsp & H).
  destruct (exec pf (answering ans) (extractMetadata file) st) as [tr st' sp o].
  simpl in *. subst st' sp. unfold answering in H.
  destruct (ans (ExifrParse file parseOptions)) as [e|a].
  - destruct H as [-> ->]. eexists _, _. split; [reflexivity|].
    split; [set_solver|].
    rewrite lookup_insert_ne by done. apply lookup_singleton_eq.
  - destruct H as [-> (md & -> & Hi & _)]. eexists _, _. split; [reflexivity|].
    split; [set_solver|done].
Qed.

Lemma handleImageFile_run (pf : Platform) (ans : forall r : Request, rans r)
    (file : File.t) (st : AppState) :
  exists (md : ExifData) (tr : list Event),
    outcome (exec pf (answering ans) (extractMetadata file) st) = Finished (inr md) /\
    trace (exec pf (answering ans) (extractMetadata file) st) = tr /\
    EAwait (ExifrParse file parseOptions) ∈ tr /\
    md !! "File Info" = Some (fileInfo file (toLocaleString pf (File.lastModified file))) /\
    exec pf (answering ans) (handleImageFile file) st =
      {| trace :=
           [EAct (SetIsProcessing true); EAct (SetProcessedImage None);
            EAct (SetOriginalFileName (File.name file))] ++ tr ++
           [EAct (SetMetadata (Some md)); EAwait (ReadAsDataURL file);
            EAct (SetOriginalImage (Some (ans (ReadAsDataURL file))));
            EAct (SetIsProcessing false)];
         store :=
           {| isDragging := isDragging st; isProcessing := false; processedImage := None;
              originalImage := Some (ans (ReadAsDataURL file));
              originalFileName := File.name file; metadata := Some md;
              history := history st; futureHistory := futureHistory st;
              notification := notification st; showJsonModal := showJsonModal st |};
         spawned := []; outcome := Finished (inr tt) |}.
Proof.
  destruct (extractMetadata_run pf ans file st) as (md & tr & E & Hin & Hi).
  exists md, tr. rewrite E. split; [done|]. split; [done|]. split; [done|].
  split; [done|].
  unfold handleImageFile. cbn [bind act]. cbn [exec].
  rewrite exec_bind.
  match goal with |- context [exec pf (answering ans) (extractMetadata file) ?s] =>
    destruct (extractMetadata_run pf ans file s) as (md' & tr' & E' & _);
    destruct (exec_store_irrelevant pf (answering ans) (extractMetadata file) s st)
      as (Ht & _ & Ho);
    rewrite E, E' in Ht, Ho; simpl in Ht, Ho; injection Ho as ->; subst tr';
    rewrite E'
  end.
  reflexivity.
Qed.

Lemma handleImageFile_order (pf : Platform) (orc : Oracle) (st : AppState)
    (file : File.t) (pre post : list Event) (o : option string) :
  trace (exec pf orc (handleImageFile file) st) = pre ++ EAct (SetOriginalImage o) :: post ->
  exists (md : ExifData) (url : string),
    outcome (exec pf orc (extractMetadata file) st) = Finished (inr md) /\
    orc (ReadAsDataURL file) = Some url /\ o = Some url /\
    [EAwait (ExifrParse file parseOptions); EAct (SetMetadata (Some md));
     EAwait (ReadAsDataURL file)] `sublist_of` pre.
Proof.
  unfold handleImageFile. cbn [bind act]. cbn [exec].
  rewrite exec_bind.
  match goal with |- context [exec pf orc (extractMetadata file) ?s] =>
    destruct (extractMetadata_shape pf orc file s)
      as (Hs & Hsp & (tail & Ht & Htail) & Ho);
    destruct (exec_store_irrelevant pf orc (extractMetadata file) s st) as (_ & _ & Hst);
    set (r := exec pf orc (extractMetadata file) s) in *
  end.
  clearbody r.
  destruct Ho as [(q & k & Ho)|(md & Ho & Hi)]; rewrite Ho, Ht; cbn.
  - intros H. destruct Htail as [-> | ->]; find_event H.
  - rewrite Ho in Hst. unfold await; cbn.
    destruct (orc (ReadAsDataURL file)) as [url|]; cbn; intros H.
    + exists md, url. split; [done|]. split; [done|].
      destruct Htail as [-> | ->]; find_event H; injection H as <- _;
        (split; [done|]); sublist_greedy.
    + destruct Htail as [-> | ->]; find_event H.
Qed.

Lemma handleCleanMetadata_run (pf : Platform) (orc : Oracle) (s st : AppState)
    (src : string) (w h : N) (b : Blob) :
  originalImage s = Some src -> src <> "" ->
  orc (LoadImage src) = Some (ImgLoad w h) -> context2d pf w h = true ->
  orc (ToBlob "image/jpeg" (92 # 100)) = Some (Some b) ->
  trace (exec pf orc (handleCleanMetadata s) st) =
    [EAct (SetHistory (history s ++ [snapshot s])); EAct (SetFutureHistory []);
     EAct (SetIsProcessing true); EAwait (LoadImage src); EAct (CreateCanvas w h);
     EAsk (GetContext2d w h); EAct (DrawImage src 0 0);
     EAwait (ToBlob "image/jpeg" (92 # 100)); EAsk (CreateObjectURL b);
     EAct (SetProcessedImage (Some (objectURL pf b))); EAct (SetIsProcessing false);
     EAct (SetNotification (Some "Metadata removed successfully")); ETimeout 3000].
Proof.
  intros Ho Hne Hl Hc Hb. unfold handleCleanMetadata. rewrite Ho.
  apply String.eqb_neq in Hne. rewrite Hne.
  unfold saveToHistory, showNotification, setTimeout, await, ask.
  cbn [bind act]. cbn [exec]. rewrite Hl. cbn. rewrite Hc. cbn. rewrite Hb. done.
Qed.

Lemma handleCleanMetadata_order (pf : Platform) (orc : Oracle) (s st : AppState)
    (pre post : list Event) (url : string) :
  trace (exec pf orc (handleCleanMetadata s) st) =
    pre ++ EAct (SetProcessedImage (Some url)) :: post ->
  exists src b,
    originalImage s = Some src /\
    orc (ToBlob "image/jpeg" (92 # 100)) = Some (Some b) /\
    url = objectURL pf b /\
    [EAwait (LoadImage src); EAct (DrawImage src 0 0);
     EAwait (ToBlob "image/jpeg" (92 # 100)); EAsk (CreateObjectURL b)]
      `sublist_of` pre.
Proof.
  unfold handleCleanMetadata.
  destruct (originalImage s) as [src|]; [|cbn; intros H; find_event H].
  destruct (String.eqb src ""); [cbn; intros H; find_event H|].
  unfold saveToHistory, showNotification, setTimeout, await, ask.
  cbn [bind act]. cbn [exec].
  destruct (orc (LoadImage src)) as [[w h|]|]; cbn.
  2,3: intros H; find_event H.
  destruct (context2d pf w h); cbn; [|intros H; find_event H].
  destruct (orc (ToBlob "image/jpeg" (92 # 100))) as [[b|]|] eqn:Eb; cbn;
    intros H; find_event H.
  injection H as <- _.
  exists src, b. split; [done|]. split; [done|]. split; [done|]. sublist_greedy.
Qed.

(** C7. The pipeline, step by step. When the platform answers every
    request, the run of [handleImageFile] is: the three setters of the
    start, the whole run of [extractMetadata] (which calls the parser),
    [setMetadata] with the object that [extractMetadata] returned, the
    request to the reader, [setOriginalImage] with the data URL that the
    reader delivered, and [setIsProcessing(false)]. In any run, complete or
    not, wherever the original image is stored, what is stored is what the
    reader delivered, and the parser has been called, the object returned by
    [extractMetadata] has been stored and the file has been handed to the
    reader before, in this order. When the image loads, the canvas has a 2d
    context and [toBlob] delivers a blob, the run of [handleCleanMetadata]
    is: the snapshot, the image load, the canvas, [drawImage], [toBlob],
    [createObjectURL] of the blob delivered, and only then
    [setProcessedImage] with that URL. In any run, wherever a processed
    image is stored, it is the object URL of the blob that [toBlob]
    delivered, after the load, the draw and the export, in this order. *)
Theorem pipeline_order (pf : Platform) (st : AppState) :
  (forall (ans : forall r : Request, rans r) (file : File.t),
     exists (md : ExifData) (tr : list Event),
       outcome (exec pf (answering ans) (extractMetadata file) st) = Finished (inr md) /\
       trace (exec pf (answering ans) (extractMetadata file) st) = tr /\
       EAwait (ExifrParse file parseOptions) ∈ tr /\
       trace (exec pf (answering ans) (handleImageFile file) st) =
         [EAct (SetIsProcessing true); EAct (SetProcessedImage None);
          EAct (SetOriginalFileName (File.name file))] ++ tr ++
         [EAct (SetMetadata (Some md)); EAwait (ReadAsDataURL file);
          EAct (SetOriginalImage (Some (ans (ReadAsDataURL file))));
          EAct (SetIsProcessing false)]) /\
  (forall (orc : Oracle) file pre post o,
     trace (exec pf orc (handleImageFile file) st) =
       pre ++ EAct (SetOriginalImage o) :: post ->
     exists (md : ExifData) (url : string),
       outcome (exec pf orc (extractMetadata file) st) = Finished (inr md) /\
       orc (ReadAsDataURL file) = Some url /\ o = Some url /\
       [EAwait (ExifrParse file parseOptions); EAct (SetMetadata (Some md));
        EAwait (ReadAsDataURL file)] `sublist_of` pre) /\
  (forall (orc : Oracle) s src w h b,
     originalImage s = Some src -> src <> "" ->
     orc (LoadImage src) = Some (ImgLoad w h) -> context2d pf w h = true ->
     orc (ToBlob "image/jpeg" (92 # 100)) = Some (Some b) ->
     trace (exec pf orc (handleCleanMetadata s) st) =
       [EAct (SetHistory (history s ++ [snapshot s])); EAct (SetFutureHistory []);
        EAct (SetIsProcessing true); EAwait (LoadImage src); EAct (CreateCanvas w h);
        EAsk (GetContext2d w h); EAct (DrawImage src 0 0);
        EAwait (ToBlob "image/jpeg" (92 # 100)); EAsk (CreateObjectURL b);
        EAct (SetProcessedImage (Some (objectURL pf b))); EAct (SetIsProcessing false);
        EAct (SetNotification (Some "Metadata removed successfully")); ETimeout 3000]) /\
  (forall (orc : Oracle) s pre post url,
     trace (exec pf orc (handleCleanMetadata s) st) =
       pre ++ EAct (SetProcessedImage (Some url)) :: post ->
     exists src b,
       originalImage s = Some src /\
       orc (ToBlob "image/jpeg" (92 # 100)) = Some (Some b) /\
       url = objectURL pf b /\
       [EAwait (LoadImage src); EAct (DrawImage src 0 0);
        EAwait (ToBlob "image/jpeg" (92 # 100)); EAsk (CreateObjectURL b)]
         `sublist_of` pre).
Proof.
  split_and!.
  - intros ans file.
    destruct (handleImageFile_run pf ans file st) as (md & tr & Ho & Ht & Hin & _ & E).
    exists md, tr. by rewrite E.
  - intros orc file pre post o. apply handleImageFile_order.
  - intros orc s src w h b. apply handleCleanMetadata_run.
  - intros orc s pre post url. apply handleCleanMetadata_order.
Qed.

Lemma pipeline_order_witness :
  trace (exec samplePlatform (answering sampleAnswers) (handleCleanMetadata loadedState)
           initialState) =
    [EAct (SetHistory [sampleSnapshot; snapshot loadedState]); EAct (SetFutureHistory []);
     EAct (SetIsProcessing true); EAwait (LoadImage "data:image/jpeg;base64,BBBB");
     EAct (CreateCanvas 2 2); EAsk (GetContext2d 2 2);
     EAct (DrawImage "data:image/jpeg;base64,BBBB" 0 0);
     EAwait (ToBlob "image/jpeg" (92 # 100)); EAsk (CreateObjectURL sampleBlob);
     EAct (SetProcessedImage (Some "blob:7")); EAct (SetIsProcessing false);
     EAct (SetNotification (Some "Metadata removed successfully")); ETimeout 3000] /\
  (exists (md : ExifData) (url : string),
     outcome (exec samplePlatform (answering throwingAnswers) (extractMetadata sampleFile)
                initialState) = Finished (inr md) /\
     answering throwingAnswers (ReadAsDataURL sampleFile) = Some url /\
     Some "data:image/jpeg;base64,BBBB" = Some url /\
     [EAwait (ExifrParse sampleFile parseOptions); EAct (SetMetadata (Some md));
      EAwait (ReadAsDataURL sampleFile)]
       `sublist_of`
     [EAct (SetIsProcessing true); EAct (SetProcessedImage None);
      EAct (SetOriginalFileName "photo.jpeg");
      EAsk (DateToLocaleString 1700000000000);
      EAwait (ExifrParse sampleFile parseOptions);
      EAct (SetMetadata
              (Some (<["Extraction Error" := VStr "Error: Unknown file format"]>
                       {[ "File Info" := fileInfo sampleFile "t1700000000000" ]})));
      EAwait (ReadAsDataURL sampleFile)]) /\
  (exists src b,
     originalImage loadedState = Some src /\
     answering sampleAnswers (ToBlob "image/jpeg" (92 # 100)) = Some (Some b) /\
     "blob:7" = objectURL samplePlatform b /\
     [EAwait (LoadImage src); EAct (DrawImage src 0 0);
      EAwait (ToBlob "image/jpeg" (92 # 100)); EAsk (CreateObjectURL b)]
       `sublist_of`
     [EAct (SetHistory [sampleSnapshot; snapshot loadedState]);
      EAct (SetFutureHistory []); EAct (SetIsProcessing true);
      EAwait (LoadImage "data:image/jpeg;base64,BBBB"); EAct (CreateCanvas 2 2);
      EAsk (GetContext2d 2 2); EAct (DrawImage "data:image/jpeg;base64,BBBB" 0 0);
      EAwait (ToBlob "image/jpeg" (92 # 100)); EAsk (CreateObjectURL sampleBlob)]).
Proof.
  split_and!.
  - apply (proj1 (proj2 (proj2 (pipeline_order samplePlatform initialState)))
             (answering sampleAnswers) loadedState "data:image/jpeg;base64,BBBB"
             2%N 2%N sampleBlob);
      [reflexivity|discriminate|reflexivity|reflexivity|reflexivity].
  - apply (proj1 (proj2 (pipeline_order samplePlatform initialState))
             (answering throwingAnswers) sampleFile _ [EAct (SetIsProcessing false)]
             (Some "data:image/jpeg;base64,BBBB")).
    reflexivity.
  - apply (proj2 (proj2 (proj2 (pipeline_order samplePlatform initialState)))
             (answering sampleAnswers) loadedState _
             [EAct (SetIsProcessing false);
              EAct (SetNotification (Some "Metadata removed successfully"));
              ETimeout 3000]
             "blob:7").
    reflexivity.
Defined.

(** ** The export format and the download name *)

(** The characters that [[^/.]] accepts are those of an extension. *)
Lemma class_ok_extension (c : ascii) :
  class_ok (NoneOf ["/"%char; "."%char]) c =
  negb (Ascii.eqb c "." || Ascii.eqb c "/").
Proof.
  simpl. by destruct (Ascii.eqb c "."), (Ascii.eqb c "/").
Qed.

(** [[^/.]+$] matches exactly the extensions, up to the end. *)
Lemma match_plus_extension (s : string) :
  match_plus (NoneOf ["/"%char; "."%char]) (match_here [EndAnchor]) s =
  if is_extension s then Some "" else None.
Proof.
  induction s as [|c s IH]; [done|].
  cbn [match_plus]. rewrite IH, class_ok_extension.
  unfold is_extension. cbn [String.eqb all_chars negb andb].
  destruct (negb (Ascii.eqb c "." || Ascii.eqb c "/")); [|done].
  destruct s as [|c' s']; [done|].
  cbn [String.eqb negb andb match_here]. 
  by destruct (all_chars _ (String c' s')).
Qed.

Lemma match_here_extensionRegex (s : string) :
  match_here extensionRegex s =
  match s with
  | String c ext => if Ascii.eqb c "." && is_extension ext then Some "" else None
  | EmptyString => None
  end.
Proof.
  destruct s as [|c ext]; [done|].
  unfold extensionRegex. cbn [match_here class_ok].
  destruct (Ascii.eqb c "."); [|done].
  by rewrite match_plus_extension.
Qed.

Lemma is_extension_with_dot (a b : string) : is_extension (a +:+ "." +:+ b) = false.
Proof.
  unfold is_extension. apply andb_false_iff. right.
  induction a as [|c a IH]; [done|].
  simpl. rewrite IH. apply andb_false_r.
Qed.

Lemma replace_extension (stem ext : string) :
  is_extension ext = true ->
  replace_first extensionRegex "" (stem +:+ "." +:+ ext) = stem.
Proof.
  intros Hext. induction stem as [|c stem IH].
  - change ("" +:+ "." +:+ ext) with (String "." ext).
    cbn [replace_first].
    rewrite match_here_extensionRegex. simpl. by rewrite Hext.
  - change (String c stem +:+ "." +:+ ext) with (String c (stem +:+ "." +:+ ext)).
    cbn [replace_first].
    rewrite match_here_extensionRegex, is_extension_with_dot, andb_false_r.
    by rewrite IH.
Qed.

Lemma replace_no_extension (s : string) :
  has_extension s = false -> replace_first extensionRegex "" s = s.
Proof.
  induction s as [|c s IH]; [done|].
  cbn [has_extension]. intros H. apply orb_false_iff in H as [Hc Hs].
  cbn [replace_first]. rewrite match_here_extensionRegex, Hc.
  by rewrite IH.
Qed.

Ltac in_trace H :=
  repeat (apply elem_of_cons in H as [H|H]; [try discriminate H|]);
  try (by apply elem_of_nil in H).

Lemma handleCleanMetadata_toBlob (pf : Platform) (orc : Oracle) (s st : AppState)
    (ty : string) (q : Q) :
  EAwait (ToBlob ty q) ∈ trace (exec pf orc (handleCleanMetadata s) st) ->
  ty = "image/jpeg" /\ q = (92 # 100)%Q.
Proof.
  unfold handleCleanMetadata.
  destruct (originalImage s) as [src|]; [|cbn; intros H; in_trace H].
  destruct (String.eqb src ""); [cbn; intros H; in_trace H|].
  unfold saveToHistory, showNotification, setTimeout, await, ask.
  cbn [bind act]. cbn [exec].
  destruct (orc (LoadImage src)) as [[w h|]|]; cbn.
  2,3: intros H; in_trace H.
  destruct (context2d pf w h); cbn; [|intros H; in_trace H].
  destruct (orc (ToBlob "image/jpeg" (92 # 100))) as [[b|]|]; cbn;
    intros H; in_trace H; by injection H as -> ->.
Qed.

Lemma exec_handleDownload (pf : Platform) (orc : Oracle) (s st : AppState) (href : string) :
  processedImage s = Some href -> href <> "" ->
  exec pf orc (handleDownload s) st =
  {| trace := [EAct (DownloadLink href
                       (replace_first extensionRegex "" (originalFileName s) +:+ "_clean.jpg"))];
     store := st; spawned := []; outcome := Finished tt |}.
Proof.
  intros Hp Hne. unfold handleDownload. rewrite Hp.
  apply String.eqb_neq in Hne. by rewrite Hne.
Qed.

Lemma handleCleanMetadata_exports (pf : Platform) (orc : Oracle) (s st : AppState)
    (src : string) (w h : N) :
  originalImage s = Some src -> src <> "" ->
  orc (LoadImage src) = Some (ImgLoad w h) -> context2d pf w h = true ->
  exports (trace (exec pf orc (handleCleanMetadata s) st)) = [("image/jpeg", (92 # 100)%Q)].
Proof.
  intros Ho Hne Hl Hc. unfold handleCleanMetadata. rewrite Ho.
  apply String.eqb_neq in Hne. rewrite Hne.
  unfold saveToHistory, showNotification, setTimeout, await, ask.
  cbn [bind act]. cbn [exec]. rewrite Hl. cbn. rewrite Hc. cbn.
  by destruct (orc (ToBlob "image/jpeg" (92 # 100))) as [[b|]|].
Qed.

(** C10. Whatever image is loaded (its data URL may be of any format) and
    whatever the platform answers afterwards, once the image has loaded and
    the canvas has a 2d context, [handleCleanMetadata] requests exactly one
    export, [toBlob] with the type 'image/jpeg' and the quality 0.92; and
    no run of it requests any other export. [handleDownload], with a
    processed image [href], clicks a link to it whose download name is the
    original file name without its final dot-extension (a dot and at least
    one character, none of them a dot or a slash), or the whole name when it
    does not end in one, followed by '_clean.jpg'. *)
Theorem clean_export_format_and_name (pf : Platform) (orc : Oracle) (s st : AppState) :
  (forall src w h,
     originalImage s = Some src -> src <> "" ->
     orc (LoadImage src) = Some (ImgLoad w h) -> context2d pf w h = true ->
     exports (trace (exec pf orc (handleCleanMetadata s) st)) =
       [("image/jpeg", (92 # 100)%Q)]) /\
  (forall ty q,
     EAwait (ToBlob ty q) ∈ trace (exec pf orc (handleCleanMetadata s) st) ->
     ty = "image/jpeg" /\ q = (92 # 100)%Q) /\
  (forall href, processedImage s = Some href -> href <> "" ->
     (forall stem ext,
        originalFileName s = stem +:+ "." +:+ ext -> is_extension ext = true ->
        exec pf orc (handleDownload s) st =
        {| trace := [EAct (DownloadLink href (stem +:+ "_clean.jpg"))];
           store := st; spawned := []; outcome := Finished tt |}) /\
     (has_extension (originalFileName s) = false ->
        exec pf orc (handleDownload s) st =
        {| trace := [EAct (DownloadLink href (originalFileName s +:+ "_clean.jpg"))];
           store := st; spawned := []; outcome := Finished tt |})).
Proof.
  split_and!.
  - intros src w h. apply handleCleanMetadata_exports.
  - intros ty q. apply handleCleanMetadata_toBlob.
  - intros href Hp Hne. rewrite (exec_handleDownload pf orc s st href Hp Hne). split.
    + intros stem ext Hn Hext. by rewrite Hn, replace_extension.
    + intros Hd. by rewrite replace_no_extension.
Qed.

Lemma clean_export_format_and_name_witness :
  originalImage cleanedState = Some "data:image/png;base64,AAAA" /\
  exports (trace (exec samplePlatform (answering sampleAnswers)
                    (handleCleanMetadata cleanedState) cleanedState)) =
    [("image/jpeg", (92 # 100)%Q)] /\
  exec samplePlatform no_answer (handleDownload cleanedState) cleanedState =
    {| trace := [EAct (DownloadLink "blob:7" "holiday.2024_clean.jpg")];
       store := cleanedState; spawned := []; outcome := Finished tt |} /\
  exec samplePlatform no_answer (handleDownload pastedState) pastedState =
    {| trace := [EAct (DownloadLink "blob:7" "image_clean.jpg")];
       store := pastedState; spawned := []; outcome := Finished tt |}.
Proof.
  split_and!.
  - reflexivity.
  - apply (proj1 (clean_export_format_and_name samplePlatform (answering sampleAnswers)
                    cleanedState cleanedState)
             "data:image/png;base64,AAAA" 2%N 2%N);
      [reflexivity|discriminate|reflexivity|reflexivity].
  - apply (proj1 (proj2 (proj2 (clean_export_format_and_name samplePlatform no_answer
                                  cleanedState cleanedState))
                    "blob:7" eq_refl ltac:(discriminate))
             "holiday.2024" "png"); reflexivity.
  - apply (proj2 (proj2 (proj2 (clean_export_format_and_name samplePlatform no_answer
                                  pastedState pastedState))
                    "blob:7" eq_refl ltac:(discriminate))).
    reflexivity.
Defined.

(** ** Snapshots pushed by the actions *)

Lemma exec_replaceImage (pf : Platform) (orc : Oracle) (s st : AppState) (file : File.t) :
  exists post ts st',
    exec pf orc (replaceImage s file) st =
    {| trace := EAct (SetHistory (history s ++ [snapshot s])) :: post;
       store := st'; spawned := ts; outcome := Finished tt |} /\
    history st' = history s ++ [snapshot s] /\ futureHistory st' = [].
Proof.
  unfold replaceImage, saveToHistory, handleReset, showNotification, setTimeout.
  cbn [bind act]. cbn [exec].
  do 3 eexists. cbn. split; [reflexivity|]. done.
Qed.

Lemma exec_paste_items (pf : Platform) (orc : Oracle) (s : AppState)
    (items : list DataTransferItem) (st : AppState) :
  loaded s = true ->
  let r := exec pf orc
    (forEach items (fun item =>
       if includes "image" (item_type item) then
         match getAsFile item with
         | Some file =>
             if loaded s then replaceImage s file
             else call (handleImageFile file)
         | None => Ret tt
         end
       else Ret tt)) st in
  outcome r = Finished tt /\
  if existsb pastes_file items then
    history (store r) = history s ++ [snapshot s] /\
    futureHistory (store r) = [] /\
    exists post, trace r = EAct (SetHistory (history s ++ [snapshot s])) :: post
  else
    trace r = [] /\ store r = st.
Proof.
  intros Hl. cbv zeta. rewrite Hl. revert st.
  induction items as [|item items IH]; intros st; [done|].
  cbn [forEach existsb]. rewrite exec_bind.
  unfold pastes_file at 1.
  destruct (includes "image" (item_type item)); cbn [andb orb].
  - destruct (getAsFile item) as [file|]; cbn [orb].
    + rewrite bool_decide_true by eauto. cbn [orb].
      destruct (exec_replaceImage pf orc s st file) as (post & ts & st' & E & Hh & Hf).
      rewrite E. cbn [outcome trace store spawned after app].
      destruct (IH st') as [Ho IH'].
      split; [done|].
      destruct (existsb pastes_file items).
      * destruct IH' as (IH1 & IH2 & _). eauto.
      * destruct IH' as [_ ->]. eauto.
    + rewrite bool_decide_false by (by intros [? ?]).
      cbn [exec outcome trace store spawned orb]. rewrite after_nil. apply IH.
  - cbn [exec outcome trace store spawned orb]. rewrite after_nil. apply IH.
Qed.

(** What an action that calls [saveToHistory] does to the two stacks. *)
Lemma saving_action_effect (pf : Platform) (orc : Oracle) (s st : AppState) (ev : UserEvent) :
  SavingAction s ev ->
  pushes_snapshot s (exec pf orc (dispatch s ev) st) /\
  futureHistory (store (exec pf orc (dispatch s ev) st)) = [].
Proof.
  unfold pushes_snapshot.
  intros [Ho | items Hl Hi | files Hl Hf | e Hl Hk].
  - cbn [dispatch]. unfold handleCleanMetadata.
    destruct (originalImage s) as [src|]; [|done].
    cbn in Ho. apply negb_true_iff in Ho. rewrite Ho.
    unfold saveToHistory, showNotification, setTimeout, await, ask.
    cbn [bind act]. cbn [exec].
    destruct (orc (LoadImage src)) as [[w h|]|]; cbn.
    2,3: by (split; [split; [done|eexists [], _; split; [reflexivity|done]]|done]).
    destruct (context2d pf w h); cbn.
    2: by (split; [split; [done|eexists [], _; split; [reflexivity|done]]|done]).
    destruct (orc (ToBlob "image/jpeg" (92 # 100))) as [[b|]|]; cbn;
      by (split; [split; [done|eexists [], _; split; [reflexivity|done]]|done]).
  - cbn [dispatch handlePaste].
    destruct (exec_paste_items pf orc s items st Hl) as [_ H].
    rewrite Hi in H. destruct H as (H1 & H2 & post & H3).
    split; [split; [done|]|done]. by exists [], post.
  - cbn [dispatch]. unfold rootDrop.
    destruct files as [|file0 files]; [done|]. cbn in Hf. rewrite Hf, Hl.
    cbn [bind act]. cbn [exec].
    match goal with
    | |- context [exec pf orc (replaceImage s file0) ?st0] =>
        destruct (exec_replaceImage pf orc s st0 file0)
          as (post & ts & st' & E & Hh & Hf');
        rewrite E
    end.
    cbn. split; [split; [done|]|done].
    by exists [EAct PreventDefault; EAct (SetIsDragging false)], post.
  - cbn [dispatch]. unfold handleKeyDown.
    unfold is_delete_key in Hk. apply andb_true_iff in Hk as [Hc Hd].
    apply String.eqb_eq in Hd. rewrite Hd, Hc, Hl.
    unfold saveToHistory, handleReset, showNotification, setTimeout.
    cbn. split; [split; [done|]|done].
    eexists [EAct PreventDefault], _. split; [reflexivity|done].
Qed.

Lemma exec_handleReset (pf : Platform) (orc : Oracle) (st : AppState) :
  store (exec pf orc handleReset st) =
  {| isDragging := isDragging st; isProcessing := isProcessing st;
     processedImage := None; originalImage := None; originalFileName := "";
     metadata := None; history := history st; futureHistory := futureHistory st;
     notification := notification st; showJsonModal := showJsonModal st |}.
Proof. reflexivity. Qed.

(** C2 as stated does not hold: the X button (and Process Another)
    of a page with an image loaded runs [handleReset] alone, which deletes
    the loaded image and leaves the past stack as it was. *)
Lemma reset_button_pushes_nothing :
  enabled loadedState ClickReset = true /\
  MutatingAction loadedState ClickReset /\
  let r := exec samplePlatform no_answer (dispatch loadedState ClickReset) loadedState in
  originalImage loadedState = Some "data:image/jpeg;base64,BBBB" /\
  originalImage (store r) = None /\
  history (store r) = history loadedState /\
  ~ pushes_snapshot loadedState r.
Proof.
  split; [reflexivity|]. split; [by constructor|].
  cbv zeta. split; [reflexivity|]. split; [reflexivity|]. split; [reflexivity|].
  intros [H _]. discriminate H.
Qed.

(** ** The drop zone *)

(** The drop zone is on the page only while no image is loaded: its
    [handleDrop] is never run by a render in which [loaded] holds. *)
Lemma zoneShown_not_loaded (s : AppState) : zoneShown s = true -> loaded s = false.
Proof.
  unfold zoneShown, loaded.
  destruct (truthy_str (originalImage s)), (truthy_str (processedImage s)); naive_solver.
Qed.

(** [handleDrop] itself never touches the past stack. *)
Lemma handleDrop_keeps_history (pf : Platform) (orc : Oracle) (s st : AppState)
    (files : list File.t) :
  history (store (exec pf orc (handleDrop s files) st)) = history st.
Proof.
  unfold handleDrop. destruct files as [|file0 files]; [done|].
  destruct (String.prefix "image/" (File.type file0)); [|done].
  by destruct (loaded s).
Qed.

(** C8. [saveToHistory] empties the future stack, on whatever store it
    runs; and after every action that changes the loaded image and pushes
    the snapshot onto the past stack, the future stack is empty. *)
Theorem saveToHistory_clears_future (pf : Platform) (orc : Oracle) (s : AppState) :
  (forall st, futureHistory (store (exec pf orc (saveToHistory s) st)) = []) /\
  (forall ev,
     MutatingAction s ev ->
     pushes_snapshot s (exec pf orc (dispatch s ev) s) ->
     futureHistory (store (exec pf orc (dispatch s ev) s)) = []).
Proof.
  split; [done|].
  intros ev Hm Hp.
  destruct Hm as [Ho | items Hl Hi | files Hl Hf | e Hl Hk | Hl].
  - by apply (saving_action_effect pf orc s s), saving_clean.
  - by apply (saving_action_effect pf orc s s), saving_replace_paste.
  - by apply (saving_action_effect pf orc s s), saving_replace_drop.
  - by apply (saving_action_effect pf orc s s), saving_delete_key.
  - destruct Hp as [Hp _]. cbn [dispatch] in Hp. rewrite exec_handleReset in Hp.
    cbn in Hp. apply (f_equal length) in Hp. rewrite length_app in Hp.
    cbn in Hp. lia.
Qed.

Lemma saveToHistory_clears_future_witness :
  futureHistory loadedState = [sampleSnapshot] /\
  futureHistory (store (exec samplePlatform no_answer (saveToHistory loadedState)
                          loadedState)) = [] /\
  futureHistory (store (exec samplePlatform no_answer
                          (dispatch loadedState (KeyDown ctrlD)) loadedState)) = [].
Proof.
  split; [reflexivity|]. split.
  - apply (proj1 (saveToHistory_clears_future samplePlatform no_answer loadedState)).
  - apply (proj2 (saveToHistory_clears_future samplePlatform no_answer loadedState)).
    + apply mutating_delete_key; reflexivity.
    + split; [reflexivity|].
      exists [EAct PreventDefault]. eexists. split; reflexivity.
Defined.

(** ** The records on the two stacks *)

Section StackSafe.
Variable P : HistoryState.t -> Prop.

Lemma stack_safe_bind {A B : Type} (p : Prog A) (f : A -> Prog B) :
  stack_safe P p -> (forall a, stack_safe P (f a)) -> stack_safe P (bind p f).
Proof.
  revert B f.
  induction p as [A a | A a k IH | A q k IH | A r k IH | A child _ k IH | A cb _ ms k IH];
    intros B f Hp Hf; simpl in Hp |- *.
  - apply Hf.
  - destruct Hp as [Ha Hk]. split; [done|]. by apply IH.
  - intros x. by apply IH.
  - intros x. by apply IH.
  - destruct Hp as [Hc Hk]. split; [done|]. by apply IH.
  - destruct Hp as [Hc Hk]. split; [done|]. by apply IH.
Qed.

Lemma apply_action_safe (a : Action) (st : AppState) :
  action_safe P a -> stacks_ok P st -> stacks_ok P (apply_action a st).
Proof.
  unfold stacks_ok. intros Ha [Hh Hf]. by destruct a.
Qed.

Lemma task_of_safe (o : Outcome unit) :
  outcome_safe P o -> Forall (task_safe P) (task_of o).
Proof.
  destruct o; simpl; [constructor|]. intros H. by repeat constructor.
Qed.

(** A safe program leaves safe stacks, safe tasks and a safe rest. *)
Lemma exec_safe {R : Type} (pf : Platform) (orc : Oracle) (p : Prog R) (st : AppState) :
  stack_safe P p -> stacks_ok P st ->
  stacks_ok P (store (exec pf orc p st)) /\
  Forall (task_safe P) (spawned (exec pf orc p st)) /\
  outcome_safe P (outcome (exec pf orc p st)).
Proof.
  revert orc st.
  induction p as [A a | A a k IH | A q k IH | A r k IH | A child IHc k IH | A cb _ ms k IH];
    intros orc st Hp Hst; simpl in Hp |- *.
  - done.
  - destruct Hp as [Ha Hk]. apply IH; [done|]. by apply apply_action_safe.
  - by apply IH.
  - destruct (orc r) as [x|]; simpl; [by apply IH|]. done.
  - destruct Hp as [Hc Hk].
    destruct (IHc no_answer st Hc Hst) as (H1 & H2 & H3).
    destruct (IH orc _ Hk H1) as (H4 & H5 & H6).
    split; [done|]. split; [|done].
    rewrite !Forall_app. split_and!; [done| |done]. by apply task_of_safe.
  - destruct Hp as [Hc Hk].
    destruct (IH orc st Hk Hst) as (H4 & H5 & H6).
    split; [done|]. split; [|done]. by constructor.
Qed.

(** The handlers *)

Lemma safe_handleReset : stack_safe P handleReset.
Proof. by simpl. Qed.

Lemma safe_showNotification (m : string) : stack_safe P (showNotification m).
Proof. by simpl. Qed.

Lemma safe_saveToHistory (s : AppState) :
  stacks_ok P s -> P (snapshot s) -> stack_safe P (saveToHistory s).
Proof.
  intros [Hh Hf] Hs. simpl. split_and!; [|done..].
  apply Forall_app. split; [done|]. by constructor.
Qed.

Lemma safe_handleUndo (s : AppState) :
  stacks_ok P s -> P (snapshot s) -> stack_safe P (handleUndo s).
Proof.
  intros [Hh Hf] Hs. unfold handleUndo.
  destruct (history s) as [|h0 l] eqn:E using rev_ind; [done|].
  clear IHl. rewrite length_snoc_eqb, array_pop_snoc.
  apply Forall_app in Hh as [Hl _].
  simpl. split_and!; try done. by constructor.
Qed.

Lemma safe_handleRedo (s : AppState) :
  stacks_ok P s -> P (snapshot s) -> stack_safe P (handleRedo s).
Proof.
  intros [Hh Hf] Hs. unfold handleRedo.
  destruct (futureHistory s) as [|n f]; [done|].
  apply Forall_cons in Hf as [_ Hf].
  simpl. split_and!; try done.
  apply Forall_app. split; [done|]. by constructor.
Qed.

Lemma body_safe_ret {A : Type} (a : A) : body_safe P (ret_b a).
Proof. by intros md. Qed.

Lemma body_safe_assign (key : string) (v : JsVal) : body_safe P (assign key v).
Proof. by intros md. Qed.

Lemma body_safe_bind {A B : Type} (m : Body A) (f : A -> Body B) :
  body_safe P m -> (forall a, body_safe P (f a)) -> body_safe P (bind_b m f).
Proof.
  intros Hm Hf md. unfold bind_b. apply stack_safe_bind; [apply Hm|].
  intros [md' [e|a]]; [done|apply Hf].
Qed.

Lemma body_safe_try_catch {A : Type} (m : Body A) (h : Thrown -> Body A) :
  body_safe P m -> (forall e, body_safe P (h e)) -> body_safe P (try_catch m h).
Proof.
  intros Hm Hh md. unfold try_catch. apply stack_safe_bind; [apply Hm|].
  intros [md' [e|a]]; [apply Hh|done].
Qed.

Lemma body_safe_when (c : bool) (m : Body unit) : body_safe P m -> body_safe P (when_b c m).
Proof. destruct c; [done|]. intros _. apply body_safe_ret. Qed.

Lemma body_safe_copySegment (a : JsVal) (seg key : string) :
  body_safe P (copySegment a seg key).
Proof. apply body_safe_when, body_safe_assign. Qed.

Lemma safe_extractMetadata (file : File.t) : stack_safe P (extractMetadata file).
Proof.
  unfold extractMetadata. cbn [bind ask stack_safe]. intros lastModified.
  apply stack_safe_bind; [|by intros [md [e|u]]].
  apply body_safe_try_catch; [|intros e; apply body_safe_assign].
  apply body_safe_bind; [by intros md x|]. intros allMetadata.
  apply body_safe_bind.
  { apply body_safe_when.
    repeat (apply body_safe_bind; [apply body_safe_copySegment|intros _]).
    apply body_safe_copySegment. }
  intros _. apply body_safe_bind; [by intros md x|].
  intros [n|]; [apply body_safe_assign|apply body_safe_ret].
Qed.

Lemma safe_handleImageFile (file : File.t) : stack_safe P (handleImageFile file).
Proof.
  unfold handleImageFile. cbn [bind act stack_safe action_safe].
  split_and!; try done.
  apply stack_safe_bind; [apply safe_extractMetadata|].
  by intros [e|md].
Qed.

Lemma safe_call_handleImageFile (file : File.t) :
  stack_safe P (call (handleImageFile file)).
Proof.
  unfold call. cbn [stack_safe]. split; [|done].
  apply stack_safe_bind; [apply safe_handleImageFile|done].
Qed.

Lemma safe_replaceImage (s : AppState) (file : File.t) :
  stacks_ok P s -> P (snapshot s) -> stack_safe P (replaceImage s file).
Proof.
  intros Hs Hp. unfold replaceImage.
  apply stack_safe_bind; [by apply safe_saveToHistory|intros _].
  apply stack_safe_bind; [apply safe_handleReset|intros _].
  apply stack_safe_bind; [apply safe_showNotification|intros _].
  unfold setTimeout. cbn [stack_safe]. split; [|done].
  apply safe_call_handleImageFile.
Qed.

Lemma safe_forEach {A : Type} (l : list A) (body : A -> Prog unit) :
  (forall x, stack_safe P (body x)) -> stack_safe P (forEach l body).
Proof.
  intros Hb. induction l as [|x l IH]; [done|].
  cbn [forEach]. by apply stack_safe_bind.
Qed.

Lemma safe_handleCleanMetadata (s : AppState) :
  stacks_ok P s -> P (snapshot s) -> stack_safe P (handleCleanMetadata s).
Proof.
  intros Hs Hp. unfold handleCleanMetadata.
  destruct (originalImage s) as [src|]; [|done].
  destruct (String.eqb src ""); [done|].
  apply stack_safe_bind; [by apply safe_saveToHistory|intros _].
  cbn [bind act await ask stack_safe action_safe]. split; [done|].
  intros [w h|]; cbn [stack_safe action_safe]; [|done].
  split; [done|]. intros [|]; cbn [negb stack_safe action_safe bind]; [|done].
  split; [done|]. by intros [b|].
Qed.

Lemma safe_dispatch (s : AppState) (ev : UserEvent) :
  stacks_ok P s -> P (snapshot s) -> stack_safe P (dispatch s ev).
Proof.
  intros Hs Hp. destruct ev; cbn [dispatch].
  - unfold handlePaste. destruct items as [items|]; [|done].
    apply safe_forEach. intros item.
    destruct (includes "image" (item_type item)); [|done].
    destruct (getAsFile item) as [file|]; [|done].
    destruct (loaded s); [by apply safe_replaceImage|apply safe_call_handleImageFile].
  - unfold handleKeyDown.
    apply stack_safe_bind.
    { destruct (_ && _); [|done]. cbn [bind act stack_safe action_safe].
      split; [done|]. by apply safe_handleUndo. }
    intros _. apply stack_safe_bind.
    { destruct (_ && _); [|done]. cbn [bind act stack_safe action_safe].
      split; [done|]. by apply safe_handleRedo. }
    intros _. destruct (_ && _); [|done].
    cbn [bind act stack_safe action_safe]. split; [done|].
    destruct (loaded s); [|done].
    apply stack_safe_bind; [by apply safe_saveToHistory|intros _].
    apply stack_safe_bind; [apply safe_handleReset|intros _].
    apply safe_showNotification.
  - done.
  - done.
  - unfold rootDrop. cbn [bind act stack_safe action_safe]. split_and!; try done.
    destruct files as [|file0 files]; [done|].
    destruct (String.prefix _ _); [|done].
    destruct (loaded s); [by apply safe_replaceImage|apply safe_call_handleImageFile].
  - done.
  - done.
  - apply stack_safe_bind.
    + unfold handleDrop. cbn [bind act stack_safe action_safe]. split_and!; try done.
      destruct files as [|file0 files]; [done|].
      destruct (String.prefix _ _); [|done].
      destruct (loaded s); [|apply safe_call_handleImageFile].
      apply stack_safe_bind; [apply safe_handleReset|intros _].
      unfold setTimeout. cbn [stack_safe]. split; [|done].
      apply safe_call_handleImageFile.
    + intros _. unfold rootDrop. cbn [bind act stack_safe action_safe].
      split_and!; try done.
      destruct files as [|file0 files]; [done|].
      destruct (String.prefix _ _); [|done].
      destruct (loaded s); [by apply safe_replaceImage|apply safe_call_handleImageFile].
  - unfold handleFileSelect. destruct files as [[|file0 files]|]; try done.
    apply safe_call_handleImageFile.
  - apply safe_handleReset.
  - done.
  - done.
  - unfold copyJson. by destruct (metadata s).
  - unfold handleDownloadOriginal. destruct (originalImage s) as [href|]; [|done].
    by destruct (String.eqb href "").
  - by apply safe_handleCleanMetadata.
  - unfold handleDownload. destruct (processedImage s) as [href|]; [|done].
    by destruct (String.eqb href "").
Qed.
End StackSafe.

Lemma handling_cases (c : Config) (ev : UserEvent) :
  handling c ev = listener c \/ handling c ev = current c.
Proof. destruct ev; cbn [handling]; auto. Qed.

(** The records on the stacks of the page and of the registered listeners,
    and the record that a listener would push, are made of the four cells
    of a state that the page has been in. *)
Lemma reachable_invariant (c : Config) :
  reachable c ->
  stacks_ok snapshot_of_reachable (current c) /\
  stacks_ok snapshot_of_reachable (listener c) /\
  snapshot_of_reachable (snapshot (listener c)) /\
  Forall (task_safe snapshot_of_reachable) (pending c).
Proof.
  induction 1 as [|c c' Hc (Hst & Hl & Hsl & Hts) Hstep].
  - split_and!; try (split; constructor); try constructor.
    exists initialConfig. split; [constructor|done].
  - assert (Hsnap : snapshot_of_reachable (snapshot (current c))) by by exists c.
    assert (Hsnap' : snapshot_of_reachable (snapshot (current c'))).
    { exists c'. split; [by eapply reachable_step|done]. }
    destruct Hstep as [pf ev _ | pf l1 l2 ms cb E | pf l1 l2 r k x E];
      unfold deliver in *; simpl in *.
    + destruct (exec_safe snapshot_of_reachable pf no_answer
                  (dispatch (handling c ev) ev) (current c)) as (H1 & H2 & H3);
        [by destruct (handling_cases c ev) as [-> | ->]; apply safe_dispatch|done|].
      split_and!; [done|by destruct (deps_changed _ _)..|].
      rewrite !Forall_app. split_and!; [done..|].
      by apply task_of_safe.
    + rewrite E in Hts. apply Forall_app in Hts as [Hl1 Hl2].
      apply Forall_cons in Hl2 as [Hcb Hl2].
      destruct (exec_safe snapshot_of_reachable pf no_answer cb (current c))
        as (H1 & H2 & H3); [done..|].
      split_and!; [done|by destruct (deps_changed _ _)..|].
      rewrite !Forall_app. split_and!; [done..|].
      by apply task_of_safe.
    + rewrite E in Hts. apply Forall_app in Hts as [Hl1 Hl2].
      apply Forall_cons in Hl2 as [Hk Hl2].
      destruct (exec_safe snapshot_of_reachable pf no_answer (k x) (current c))
        as (H1 & H2 & H3); [apply Hk|done|].
      split_and!; [done|by destruct (deps_changed _ _)..|].
      rewrite !Forall_app. split_and!; [done..|].
      by apply task_of_safe.
Qed.

(** C5. In every state that the page can reach, every record on the past
    stack or on the future stack is a record of exactly the four fields
    [originalImage] (the data URL), [originalFileName], [metadata] and
    [processedImage], with the values that these four cells had in a state
    that the page has been in. *)
Theorem snapshots_have_four_fields (c : Config) (h : HistoryState.t) :
  reachable c ->
  h ∈ history (current c) ++ futureHistory (current c) ->
  exists c' : Config,
    reachable c' /\
    h = {| HistoryState.originalImage := originalImage (current c');
           HistoryState.originalFileName := originalFileName (current c');
           HistoryState.metadata := metadata (current c');
           HistoryState.processedImage := processedImage (current c') |}.
Proof.
  intros Hc Hin. destruct (reachable_invariant c Hc) as [[Hh Hf] _].
  apply elem_of_app in Hin as [Hin|Hin].
  - exact (proj1 (Forall_forall _ _) Hh h Hin).
  - exact (proj1 (Forall_forall _ _) Hf h Hin).
Qed.

Lemma step_user_event (pf : Platform) (ev : UserEvent) (c : Config) :
  enabled (current c) ev = true -> step c (user_event pf ev c).
Proof. apply step_event. Qed.

Lemma step_answer_first (pf : Platform) (x : forall r : Request, rans r) (c : Config) :
  (exists r k rest, pending c = TaskAwait r k :: rest) ->
  step c (answer_first pf x c).
Proof.
  intros (r & k & rest & E). unfold answer_first. rewrite E.
  by apply (step_answer c pf [] rest r k (x r)).
Qed.

Lemma reachable_config_deleted : reachable config_deleted.
Proof.
  apply (reachable_step config_loaded).
  - apply (reachable_step config_extracted).
    + apply (reachable_step config_selected).
      * apply (reachable_step initialConfig); [constructor|].
        by apply step_user_event.
      * apply step_answer_first. do 3 eexists. reflexivity.
    + apply step_answer_first. do 3 eexists. reflexivity.
  - by apply step_user_event.
Qed.

Lemma snapshots_have_four_fields_witness :
  exists c' : Config,
    reachable c' /\
    snapshot (current config_loaded) =
      {| HistoryState.originalImage := originalImage (current c');
         HistoryState.originalFileName := originalFileName (current c');
         HistoryState.metadata := metadata (current c');
         HistoryState.processedImage := processedImage (current c') |}.
Proof.
  apply (snapshots_have_four_fields config_deleted (snapshot (current config_loaded))).
  - apply reachable_config_deleted.
  - apply elem_of_app. left. apply list_elem_of_here.
Defined.

(** * Further properties of the component *)

(** ** The keyboard *)

Lemma handleUndo_finishes (pf : Platform) (orc : Oracle) (s st : AppState) :
  spawned (exec pf orc (handleUndo s) st) = [] /\
  outcome (exec pf orc (handleUndo s) st) = Finished tt.
Proof.
  unfold handleUndo.
  destruct (decide (history s = [])) as [E|E]; [by rewrite E|].
  destruct (exists_last E) as [h [p Hh]].
  by rewrite Hh, length_snoc_eqb, array_pop_snoc.
Qed.

Lemma handleRedo_finishes (pf : Platform) (orc : Oracle) (s st : AppState) :
  spawned (exec pf orc (handleRedo s) st) = [] /\
  outcome (exec pf orc (handleRedo s) st) = Finished tt.
Proof.
  unfold handleRedo. by destruct (futureHistory s).
Qed.

Lemma exec_keydown_undo (pf : Platform) (orc : Oracle) (s st : AppState) (e : KeyboardEvent) :
  is_undo_key e = true ->
  store (exec pf orc (handleKeyDown s e) st) = store (exec pf orc (handleUndo s) st).
Proof.
  unfold is_undo_key. intros H. apply andb_true_iff in H as [Hc Hk].
  apply String.eqb_eq in Hk. unfold handleKeyDown. rewrite Hk, Hc.
  change ("z" =? "z")%string with true. change ("z" =? "y")%string with false.
  change ("z" =? "d")%string with false. cbn [andb bind act]. cbn [exec].
  rewrite exec_bind.
  destruct (handleUndo_finishes pf orc s (apply_action PreventDefault st)) as [_ ->].
  reflexivity.
Qed.

Lemma exec_keydown_redo (pf : Platform) (orc : Oracle) (s st : AppState) (e : KeyboardEvent) :
  is_redo_key e = true ->
  store (exec pf orc (handleKeyDown s e) st) = store (exec pf orc (handleRedo s) st).
Proof.
  unfold is_redo_key. intros H. apply andb_true_iff in H as [Hc Hk].
  apply String.eqb_eq in Hk. unfold handleKeyDown. rewrite Hk, Hc.
  change ("y" =? "z")%string with false. change ("y" =? "y")%string with true.
  change ("y" =? "d")%string with false. cbn [andb bind act]. cbn [exec].
  rewrite exec_bind.
  destruct (handleRedo_finishes pf orc s (apply_action PreventDefault st)) as [_ ->].
  reflexivity.
Qed.

(** X5. Ctrl+Y (or Cmd+Y) right after an action that saved a snapshot
    changes nothing: what could be redone before the action is gone. *)
Theorem redo_after_saving_action (pf : Platform) (orc : Oracle) (s : AppState)
    (ev : UserEvent) (e : KeyboardEvent) :
  SavingAction s ev -> is_redo_key e = true ->
  let s1 := store (exec pf orc (dispatch s ev) s) in
  store (exec pf orc (dispatch s1 (KeyDown e)) s1) = s1.
Proof.
  intros Hev He s1.
  destruct (saving_action_effect pf orc s s ev Hev) as [_ Hf].
  fold s1 in Hf. cbn [dispatch].
  rewrite (exec_keydown_redo pf orc s1 s1 e He).
  unfold handleRedo. by rewrite Hf.
Qed.

Lemma redo_after_saving_action_witness :
  futureHistory loadedState = [sampleSnapshot] /\
  let s1 := store (exec samplePlatform no_answer (dispatch loadedState (KeyDown ctrlD))
                     loadedState) in
  store (exec samplePlatform no_answer (dispatch s1 (KeyDown cmdY)) s1) = s1.
Proof.
  split; [reflexivity|].
  apply (redo_after_saving_action samplePlatform no_answer loadedState (KeyDown ctrlD) cmdY).
  - apply saving_delete_key; reflexivity.
  - reflexivity.
Defined.

(** X6. [handleKeyDown] does nothing at all, not even [preventDefault],
    unless Ctrl or Cmd is held and the key is 'z', 'y' or 'd'. *)
Theorem handleKeyDown_other_keys (pf : Platform) (orc : Oracle) (s st : AppState)
    (e : KeyboardEvent) :
  (ctrlKey e || metaKey e = false) \/ (key e <> "z" /\ key e <> "y" /\ key e <> "d") ->
  exec pf orc (handleKeyDown s e) st =
  {| trace := []; store := st; spawned := []; outcome := Finished tt |}.
Proof.
  unfold handleKeyDown. intros [H | (Hz & Hy & Hd)].
  - by rewrite H.
  - apply String.eqb_neq in Hz, Hy, Hd. rewrite Hz, Hy, Hd.
    by rewrite !andb_false_r.
Qed.

Lemma handleKeyDown_other_keys_witness :
  exec samplePlatform no_answer
    (handleKeyDown loadedState {| ctrlKey := false; metaKey := false; key := "z" |})
    loadedState =
  {| trace := []; store := loadedState; spawned := []; outcome := Finished tt |} /\
  exec samplePlatform no_answer
    (handleKeyDown loadedState {| ctrlKey := true; metaKey := false; key := "Z" |})
    loadedState =
  {| trace := []; store := loadedState; spawned := []; outcome := Finished tt |}.
Proof.
  split.
  - apply (handleKeyDown_other_keys samplePlatform no_answer loadedState loadedState).
    left. reflexivity.
  - apply (handleKeyDown_other_keys samplePlatform no_answer loadedState loadedState).
    right. repeat split; discriminate.
Defined.

(** ** What programs and their tasks never do *)

Section ActsIn.
Variable A : Action -> Prop.

Lemma acts_in_bind {X Y : Type} (p : Prog X) (f : X -> Prog Y) :
  acts_in A p -> (forall a, acts_in A (f a)) -> acts_in A (bind p f).
Proof.
  revert Y f.
  induction p as [X a | X a k IH | X q k IH | X r k IH | X child _ k IH | X cb _ ms k IH];
    intros Y f Hp Hf; simpl in Hp |- *.
  - apply Hf.
  - destruct Hp as [Ha Hk]. split; [done|]. by apply IH.
  - intros x. by apply IH.
  - intros x. by apply IH.
  - destruct Hp as [Hc Hk]. split; [done|]. by apply IH.
  - destruct Hp as [Hc Hk]. split; [done|]. by apply IH.
Qed.

Lemma acts_in_spawns_in {X : Type} (p : Prog X) : acts_in A p -> spawns_in A p.
Proof.
  induction p as [X a | X a k IH | X q k IH | X r k IH | X child _ k IH | X cb _ ms k IH];
    simpl.
  - done.
  - intros [_ Hk]. by apply IH.
  - intros Hk x. by apply IH.
  - done.
  - intros [Hc Hk]. split; [done|]. by apply IH.
  - intros [Hc Hk]. split; [done|]. by apply IH.
Qed.

Lemma synchronous_bind {X Y : Type} (p : Prog X) (f : X -> Prog Y) :
  synchronous p -> (forall a, synchronous (f a)) -> synchronous (bind p f).
Proof.
  revert Y f.
  induction p as [X a | X a k IH | X q k IH | X r k IH | X child _ k IH | X cb _ ms k IH];
    intros Y f Hp Hf; simpl in Hp |- *.
  - apply Hf.
  - by apply IH.
  - intros x. by apply IH.
  - done.
  - by apply IH.
  - by apply IH.
Qed.

Lemma spawns_in_bind {X Y : Type} (p : Prog X) (f : X -> Prog Y) :
  synchronous p -> spawns_in A p -> (forall a, spawns_in A (f a)) ->
  spawns_in A (bind p f).
Proof.
  revert Y f.
  induction p as [X a | X a k IH | X q k IH | X r k IH | X child _ k IH | X cb _ ms k IH];
    intros Y f Hs Hp Hf; simpl in Hs, Hp |- *.
  - apply Hf.
  - by apply IH.
  - intros x. by apply IH.
  - done.
  - destruct Hp as [Hc Hk]. split; [done|]. by apply IH.
  - destruct Hp as [Hc Hk]. split; [done|]. by apply IH.
Qed.

Lemma task_of_in (o : Outcome unit) : outcome_in A o -> Forall (task_in A) (task_of o).
Proof.
  destruct o; simpl; [constructor|]. intros H. by repeat constructor.
Qed.

(** A program whose effects are all in [A] leaves tasks whose effects are
    all in [A], and keeps what the effects in [A] keep. *)
Lemma exec_acts_in {X V : Type} (f : AppState -> V) (pf : Platform) (orc : Oracle)
    (p : Prog X) (st : AppState) :
  (forall a st', A a -> f (apply_action a st') = f st') ->
  acts_in A p ->
  f (store (exec pf orc p st)) = f st /\
  Forall (task_in A) (spawned (exec pf orc p st)) /\
  outcome_in A (outcome (exec pf orc p st)).
Proof.
  intros Hf. revert orc st.
  induction p as [X a | X a k IH | X q k IH | X r k IH | X child IHc k IH | X cb _ ms k IH];
    intros orc st Hp; simpl in Hp |- *.
  - done.
  - destruct Hp as [Ha Hk]. destruct (IH orc (apply_action a st) Hk) as (H1 & H2 & H3).
    split; [|done]. rewrite H1. by apply Hf.
  - by apply IH.
  - destruct (orc r) as [x|]; simpl; [by apply IH|]. done.
  - destruct Hp as [Hc Hk].
    destruct (IHc no_answer st Hc) as (H1 & H2 & H3).
    destruct (IH orc (store (exec pf no_answer child st)) Hk) as (H4 & H5 & H6).
    split; [congruence|]. split; [|done].
    rewrite !Forall_app. split_and!; [done| |done]. by apply task_of_in.
  - destruct Hp as [Hc Hk]. destruct (IH orc st Hk) as (H4 & H5 & H6).
    split; [done|]. split; [|done]. by constructor.
Qed.

(** What a handler leaves to the event loop. *)
Lemma exec_spawns_in {X : Type} (pf : Platform) (p : Prog X) (st : AppState) :
  spawns_in A p ->
  Forall (task_in A) (spawned (exec pf no_answer p st)) /\
  outcome_in A (outcome (exec pf no_answer p st)).
Proof.
  revert st.
  induction p as [X a | X a k IH | X q k IH | X r k IH | X child _ k IH | X cb _ ms k IH];
    intros st Hp; simpl in Hp |- *.
  - done.
  - by apply IH.
  - by apply IH.
  - done.
  - destruct Hp as [Hc Hk].
    destruct (exec_acts_in (fun _ => tt) pf no_answer child st) as (_ & H2 & H3); [done..|].
    destruct (IH (store (exec pf no_answer child st)) Hk) as (H5 & H6).
    split; [|done]. rewrite !Forall_app. split_and!; [done| |done]. by apply task_of_in.
  - destruct Hp as [Hc Hk]. destruct (IH st Hk) as (H5 & H6).
    split; [|done]. by constructor.
Qed.

Lemma body_acts_in_ret {X : Type} (a : X) : body_acts_in A (ret_b a).
Proof. by intros md. Qed.

Lemma body_acts_in_assign (key : string) (v : JsVal) : body_acts_in A (assign key v).
Proof. by intros md. Qed.

Lemma body_acts_in_bind {X Y : Type} (m : Body X) (f : X -> Body Y) :
  body_acts_in A m -> (forall a, body_acts_in A (f a)) -> body_acts_in A (bind_b m f).
Proof.
  intros Hm Hf md. unfold bind_b. apply acts_in_bind; [apply Hm|].
  intros [md' [e|a]]; [done|apply Hf].
Qed.

Lemma body_acts_in_try_catch {X : Type} (m : Body X) (h : Thrown -> Body X) :
  body_acts_in A m -> (forall e, body_acts_in A (h e)) -> body_acts_in A (try_catch m h).
Proof.
  intros Hm Hh md. unfold try_catch. apply acts_in_bind; [apply Hm|].
  intros [md' [e|a]]; [apply Hh|done].
Qed.

Lemma body_acts_in_copySegment (a : JsVal) (seg key : string) :
  body_acts_in A (copySegment a seg key).
Proof.
  unfold copySegment, when_b.
  destruct (truthy _); [apply body_acts_in_assign|apply body_acts_in_ret].
Qed.

(** [extractMetadata] performs no effect on the page at all. *)
Lemma acts_in_extractMetadata (file : File.t) : acts_in A (extractMetadata file).
Proof.
  unfold extractMetadata. cbn [bind ask acts_in]. intros lastModified.
  apply acts_in_bind; [|by intros [md [e|u]]].
  apply body_acts_in_try_catch; [|intros e; apply body_acts_in_assign].
  apply body_acts_in_bind; [by intros md x|]. intros allMetadata.
  apply body_acts_in_bind.
  { unfold when_b. destruct (truthy allMetadata); [|apply body_acts_in_ret].
    repeat (apply body_acts_in_bind; [apply body_acts_in_copySegment|intros _]).
    apply body_acts_in_copySegment. }
  intros _. apply body_acts_in_bind; [by intros md x|].
  intros [n|]; [apply body_acts_in_assign|apply body_acts_in_ret].
Qed.
End ActsIn.

Lemma acts_in_handleImageFile (file : File.t) : acts_in load_setter (handleImageFile file).
Proof.
  unfold handleImageFile. cbn [bind act acts_in load_setter].
  split_and!; try done.
  apply acts_in_bind; [apply acts_in_extractMetadata|].
  by intros [e|md].
Qed.

Lemma acts_in_mono (A B : Action -> Prop) {X : Type} (p : Prog X) :
  (forall a, A a -> B a) -> acts_in A p -> acts_in B p.
Proof.
  intros HAB.
  induction p as [X a | X a k IH | X q k IH | X r k IH | X child IHc k IH | X cb IHc ms k IH];
    simpl; try done.
  - intros [Ha Hk]. split; [by apply HAB|by apply IH].
  - intros Hk x. by apply IH.
  - intros Hk x. by apply IH.
  - intros [Hc Hk]. split; [by apply IHc|by apply IH].
  - intros [Hc Hk]. split; [by apply IHc|by apply IH].
Qed.

Lemma load_setter_keeps_stacks (a : Action) : load_setter a -> keeps_stacks a.
Proof. by destruct a. Qed.

Lemma keeps_stacks_apply (a : Action) (st : AppState) :
  keeps_stacks a -> stacks (apply_action a st) = stacks st.
Proof. by destruct a. Qed.

Lemma acts_in_call_handleImageFile (file : File.t) :
  acts_in keeps_stacks (call (handleImageFile file)).
Proof.
  unfold call. cbn [acts_in]. split; [|done].
  apply acts_in_bind; [|done].
  apply (acts_in_mono load_setter); [apply load_setter_keeps_stacks|].
  apply acts_in_handleImageFile.
Qed.

(** *** The tasks that the handlers leave *)

Lemma synchronous_saveToHistory (s : AppState) : synchronous (saveToHistory s).
Proof. by simpl. Qed.

Lemma synchronous_replaceImage (s : AppState) (file : File.t) :
  synchronous (replaceImage s file).
Proof. by simpl. Qed.

Lemma spawns_in_replaceImage (s : AppState) (file : File.t) :
  spawns_in keeps_stacks (replaceImage s file).
Proof.
  unfold replaceImage, saveToHistory, handleReset, showNotification, setTimeout.
  cbn [bind act spawns_in acts_in keeps_stacks]. split_and!; try done.
  apply acts_in_call_handleImageFile.
Qed.

Lemma spawns_in_call_handleImageFile (file : File.t) :
  spawns_in keeps_stacks (call (handleImageFile file)).
Proof. apply acts_in_spawns_in, acts_in_call_handleImageFile. Qed.

Lemma synchronous_handleUndo (s : AppState) :
  synchronous (handleUndo s) /\ spawns_in keeps_stacks (handleUndo s).
Proof.
  unfold handleUndo.
  destruct (decide (history s = [])) as [E|E]; [by rewrite E|].
  destruct (exists_last E) as [h [p Hh]].
  by rewrite Hh, length_snoc_eqb, array_pop_snoc.
Qed.

Lemma synchronous_handleRedo (s : AppState) :
  synchronous (handleRedo s) /\ spawns_in keeps_stacks (handleRedo s).
Proof. unfold handleRedo. by destruct (futureHistory s). Qed.

Lemma spawns_in_rootDrop (s : AppState) (files : list File.t) :
  spawns_in keeps_stacks (rootDrop s files).
Proof.
  unfold rootDrop. cbn [bind act spawns_in].
  destruct files as [|file0 files]; [done|].
  destruct (String.prefix _ _); [|done].
  destruct (loaded s); [apply spawns_in_replaceImage|apply spawns_in_call_handleImageFile].
Qed.

Lemma synchronous_handleDrop (s : AppState) (files : list File.t) :
  synchronous (handleDrop s files) /\ spawns_in keeps_stacks (handleDrop s files).
Proof.
  unfold handleDrop. cbn [bind act spawns_in synchronous].
  destruct files as [|file0 files]; [done|].
  destruct (String.prefix _ _); [|done].
  destruct (loaded s).
  - unfold handleReset, setTimeout. cbn [bind act spawns_in synchronous].
    split; [done|]. split; [|done]. apply acts_in_call_handleImageFile.
  - split; [done|]. apply spawns_in_call_handleImageFile.
Qed.

Lemma spawns_in_forEach {X : Type} (l : list X) (body : X -> Prog unit) :
  (forall x, synchronous (body x) /\ spawns_in keeps_stacks (body x)) ->
  spawns_in keeps_stacks (forEach l body).
Proof.
  intros Hb. induction l as [|x l IH]; [done|].
  cbn [forEach]. apply spawns_in_bind; [apply Hb|apply Hb|done].
Qed.

Lemma spawns_in_handleCleanMetadata (s : AppState) :
  spawns_in keeps_stacks (handleCleanMetadata s).
Proof.
  unfold handleCleanMetadata.
  destruct (originalImage s) as [src|]; [|done].
  destruct (String.eqb src ""); [done|].
  unfold saveToHistory, showNotification, setTimeout, await, ask.
  cbn [bind act spawns_in acts_in].
  intros [w h|]; cbn [acts_in keeps_stacks]; [|done].
  split; [done|]. intros [|]; cbn [negb acts_in keeps_stacks]; [|done].
  split; [done|]. by intros [b|].
Qed.

(** Whatever the event, what its handlers leave to the event loop never
    sets a stack. *)
Lemma spawns_in_dispatch (s : AppState) (ev : UserEvent) :
  spawns_in keeps_stacks (dispatch s ev).
Proof.
  destruct ev; cbn [dispatch]; try done.
  - unfold handlePaste. destruct items as [items|]; [|done].
    apply spawns_in_forEach. intros item.
    destruct (includes "image" (item_type item)); [|done].
    destruct (getAsFile item) as [file|]; [|done].
    destruct (loaded s).
    + split; [apply synchronous_replaceImage|apply spawns_in_replaceImage].
    + split; [done|apply spawns_in_call_handleImageFile].
  - unfold handleKeyDown.
    apply spawns_in_bind.
    { destruct (_ && _); [|done]. apply (synchronous_handleUndo s). }
    { destruct (_ && _); [|done]. apply (synchronous_handleUndo s). }
    intros _. apply spawns_in_bind.
    { destruct (_ && _); [|done]. apply (synchronous_handleRedo s). }
    { destruct (_ && _); [|done]. apply (synchronous_handleRedo s). }
    intros _. destruct (_ && _); [|done].
    by destruct (loaded s).
  - apply spawns_in_rootDrop.
  - apply spawns_in_bind; [apply synchronous_handleDrop..|].
    intros _. apply spawns_in_rootDrop.
  - unfold handleFileSelect. destruct files as [[|file0 files]|]; try done.
    apply spawns_in_call_handleImageFile.
  - unfold copyJson. by destruct (metadata s).
  - unfold handleDownloadOriginal. destruct (originalImage s) as [href|]; [|done].
    by destruct (String.eqb href "").
  - apply spawns_in_handleCleanMetadata.
  - unfold handleDownload. destruct (processedImage s) as [href|]; [|done].
    by destruct (String.eqb href "").
Qed.

Lemma reachable_pending (c : Config) :
  reachable c -> Forall (task_in keeps_stacks) (pending c).
Proof.
  induction 1 as [|c c' Hc Hts Hstep]; [constructor|].
  destruct Hstep as [pf ev _ | pf l1 l2 ms cb E | pf l1 l2 r k x E]; unfold deliver; simpl.
  - destruct (exec_spawns_in keeps_stacks pf (dispatch (handling c ev) ev) (current c))
      as [H1 H2]; [apply spawns_in_dispatch|].
    rewrite !Forall_app. split_and!; [done..|]. by apply task_of_in.
  - rewrite E in Hts. apply Forall_app in Hts as [Hl1 Hl2].
    apply Forall_cons in Hl2 as [Hcb Hl2].
    destruct (exec_acts_in keeps_stacks stacks pf no_answer cb (current c))
      as (_ & H1 & H2); [apply keeps_stacks_apply|done|].
    rewrite !Forall_app. split_and!; [done..|]. by apply task_of_in.
  - rewrite E in Hts. apply Forall_app in Hts as [Hl1 Hl2].
    apply Forall_cons in Hl2 as [Hk Hl2].
    destruct (exec_acts_in keeps_stacks stacks pf no_answer (k x) (current c))
      as (_ & H1 & H2); [apply keeps_stacks_apply|apply Hk|].
    rewrite !Forall_app. split_and!; [done..|]. by apply task_of_in.
Qed.

(** X7. Only the user changes the undo/redo history: in every state that
    the page can reach, a timer that fires and an answer of the platform to
    a pending request (the parser, the file reader, the image, the canvas)
    leave the past stack and the future stack as they are. *)
Theorem stacks_change_only_by_user_events (c : Config) :
  reachable c ->
  (forall pf l1 l2 ms cb,
     pending c = l1 ++ TaskTimer ms cb :: l2 ->
     stacks (current (deliver pf c (l1 ++ l2) cb)) = stacks (current c)) /\
  (forall pf l1 l2 r k x,
     pending c = l1 ++ TaskAwait r k :: l2 ->
     stacks (current (deliver pf c (l1 ++ l2) (k x))) = stacks (current c)).
Proof.
  intros Hc. pose proof (reachable_pending c Hc) as Hts. split.
  - intros pf l1 l2 ms cb E. rewrite E in Hts.
    apply Forall_app in Hts as [_ Hl2]. apply Forall_cons in Hl2 as [Hcb _].
    unfold deliver; simpl.
    by apply (exec_acts_in keeps_stacks stacks pf no_answer cb (current c));
      [apply keeps_stacks_apply|].
  - intros pf l1 l2 r k x E. rewrite E in Hts.
    apply Forall_app in Hts as [_ Hl2]. apply Forall_cons in Hl2 as [Hk _].
    unfold deliver; simpl.
    by apply (exec_acts_in keeps_stacks stacks pf no_answer (k x) (current c));
      [apply keeps_stacks_apply|apply Hk].
Qed.

Lemma reachable_config_selected : reachable config_selected.
Proof.
  apply (reachable_step initialConfig); [constructor|]. by apply step_user_event.
Qed.

Lemma stacks_change_only_by_user_events_witness :
  stacks (current (deliver samplePlatform config_deleted [] (act (SetNotification None)))) =
    stacks (current config_deleted) /\
  stacks (current (answer_first samplePlatform throwingAnswers config_selected)) =
    stacks (current config_selected).
Proof.
  split.
  - exact (proj1 (stacks_change_only_by_user_events config_deleted reachable_config_deleted)
             samplePlatform [] [] 3000%N (act (SetNotification None)) eq_refl).
  - exact (proj2 (stacks_change_only_by_user_events config_selected reachable_config_selected)
             samplePlatform [] [] _ _ (throwingAnswers _) eq_refl).
Defined.

(** ** Paste, drop and Ctrl+D at their edges *)

Lemma acts_in_forEach (A : Action -> Prop) {X : Type} (l : list X) (body : X -> Prog unit) :
  (forall x, acts_in A (body x)) -> acts_in A (forEach l body).
Proof.
  intros Hb. induction l as [|x l IH]; [done|].
  cbn [forEach]. by apply acts_in_bind.
Qed.

Lemma acts_in_handlePaste_unloaded (s : AppState) (items : option (list DataTransferItem)) :
  loaded s = false -> acts_in keeps_stacks (handlePaste s items).
Proof.
  intros Hl. unfold handlePaste. destruct items as [items|]; [|done].
  apply acts_in_forEach. intros item. rewrite Hl.
  destruct (includes "image" (item_type item)); [|done].
  destruct (getAsFile item) as [file|]; [|done].
  apply acts_in_call_handleImageFile.
Qed.

Lemma acts_in_rootDrop_unloaded (s : AppState) (files : list File.t) :
  loaded s = false -> acts_in keeps_stacks (rootDrop s files).
Proof.
  intros Hl. unfold rootDrop. cbn [bind act acts_in keeps_stacks].
  split_and!; try done. rewrite Hl.
  destruct files as [|file0 files]; [done|].
  destruct (String.prefix _ _); [|done].
  apply acts_in_call_handleImageFile.
Qed.

(** X8. While no image is loaded, nothing is saved for undo: Ctrl+D only
    prevents the browser's default and changes no state, and a paste or a
    drop on the page, whatever it carries, leaves both stacks as they are
    (so the first image that is loaded cannot be undone). *)
Theorem unloaded_page_saves_nothing (pf : Platform) (orc : Oracle) (s st : AppState) :
  loaded s = false ->
  (forall e, is_delete_key e = true ->
     exec pf orc (handleKeyDown s e) st =
     {| trace := [EAct PreventDefault]; store := st; spawned := [];
        outcome := Finished tt |}) /\
  (forall items, stacks (store (exec pf orc (handlePaste s items) st)) = stacks st) /\
  (forall files, stacks (store (exec pf orc (rootDrop s files) st)) = stacks st).
Proof.
  intros Hl. split; [|split].
  - intros e He. unfold is_delete_key in He. apply andb_true_iff in He as [Hc Hk].
    apply String.eqb_eq in Hk. unfold handleKeyDown. by rewrite Hk, Hc, Hl.
  - intros items.
    by apply (exec_acts_in keeps_stacks stacks pf orc (handlePaste s items) st);
      [apply keeps_stacks_apply|apply acts_in_handlePaste_unloaded].
  - intros files.
    by apply (exec_acts_in keeps_stacks stacks pf orc (rootDrop s files) st);
      [apply keeps_stacks_apply|apply acts_in_rootDrop_unloaded].
Qed.

Lemma unloaded_page_saves_nothing_witness :
  exec samplePlatform no_answer (handleKeyDown initialState ctrlD) initialState =
    {| trace := [EAct PreventDefault]; store := initialState; spawned := [];
       outcome := Finished tt |} /\
  stacks (store (exec samplePlatform no_answer
                   (handlePaste initialState (Some [imageItem])) initialState)) =
    stacks initialState /\
  stacks (store (exec samplePlatform no_answer
                   (rootDrop initialState [sampleFile]) initialState)) =
    stacks initialState.
Proof.
  destruct (unloaded_page_saves_nothing samplePlatform no_answer initialState initialState
              eq_refl) as (H1 & H2 & H3).
  split; [|split].
  - apply H1. reflexivity.
  - apply H2.
  - apply H3.
Defined.

(** X9. A drop is judged by its first file alone: when no file is dropped,
    or the type of the first one does not start with 'image/', both drop
    handlers only prevent the default and set [isDragging] to false; no
    file is read, whatever files follow the first. *)
Theorem drop_without_leading_image (pf : Platform) (orc : Oracle) (s st : AppState)
    (files : list File.t) :
  drops_image files = false ->
  exec pf orc (rootDrop s files) st =
    {| trace := [EAct PreventDefault; EAct (SetIsDragging false)];
       store := apply_action (SetIsDragging false) st;
       spawned := []; outcome := Finished tt |} /\
  exec pf orc (handleDrop s files) st =
    {| trace := [EAct PreventDefault; EAct (SetIsDragging false)];
       store := apply_action (SetIsDragging false) st;
       spawned := []; outcome := Finished tt |}.
Proof.
  intros Hd. unfold rootDrop, handleDrop.
  destruct files as [|file0 files]; [done|].
  simpl in Hd. by rewrite Hd.
Qed.

Lemma drop_without_leading_image_witness :
  exec samplePlatform no_answer (rootDrop loadedState [textFile; sampleFile]) loadedState =
    {| trace := [EAct PreventDefault; EAct (SetIsDragging false)];
       store := apply_action (SetIsDragging false) loadedState;
       spawned := []; outcome := Finished tt |} /\
  exec samplePlatform no_answer (handleDrop loadedState [textFile; sampleFile]) loadedState =
    {| trace := [EAct PreventDefault; EAct (SetIsDragging false)];
       store := apply_action (SetIsDragging false) loadedState;
       spawned := []; outcome := Finished tt |}.
Proof.
  apply (drop_without_leading_image samplePlatform no_answer loadedState loadedState
           [textFile; sampleFile]).
  reflexivity.
Defined.

Lemma exec_paste_nothing (pf : Platform) (orc : Oracle) (s : AppState)
    (items : list DataTransferItem) (st : AppState) :
  existsb pastes_file items = false ->
  exec pf orc
    (forEach items (fun item =>
       if includes "image" (item_type item) then
         match getAsFile item with
         | Some file =>
             if loaded s then replaceImage s file
             else call (handleImageFile file)
         | None => Ret tt
         end
       else Ret tt)) st =
  {| trace := []; store := st; spawned := []; outcome := Finished tt |}.
Proof.
  induction items as [|item items IH]; [done|].
  cbn [existsb forEach]. intros H. apply orb_false_iff in H as [Hi Hr].
  rewrite exec_bind. unfold pastes_file in Hi.
  destruct (includes "image" (item_type item)).
  - destruct (getAsFile item) as [file|].
    + rewrite bool_decide_true in Hi by eauto. done.
    + cbn [exec outcome trace store spawned]. rewrite after_nil. by apply IH.
  - cbn [exec outcome trace store spawned]. rewrite after_nil. by apply IH.
Qed.

(** X10. A paste without clipboard items, or in which no item has both
    'image' in its type and a file behind it, has no effect at all. *)
Theorem paste_without_image (pf : Platform) (orc : Oracle) (s st : AppState)
    (items : option (list DataTransferItem)) :
  (forall l, items = Some l -> existsb pastes_file l = false) ->
  exec pf orc (handlePaste s items) st =
  {| trace := []; store := st; spawned := []; outcome := Finished tt |}.
Proof.
  intros H. unfold handlePaste. destruct items as [l|]; [|done].
  by apply exec_paste_nothing, H.
Qed.

Lemma paste_without_image_witness :
  exec samplePlatform no_answer
    (handlePaste loadedState
       (Some [textItem; {| item_type := "image/png"; getAsFile := None |}]))
    loadedState =
  {| trace := []; store := loadedState; spawned := []; outcome := Finished tt |}.
Proof.
  apply (paste_without_image samplePlatform no_answer loadedState loadedState).
  intros l [= <-]. reflexivity.
Defined.

(** ** Loading a file *)

(** X11. When the platform answers every request, [handleImageFile] ends
    with the file loaded: the name of the file, the very object that
    [extractMetadata] returns for the file on this platform (with its 'File
    Info'), the data URL that the reader delivered, no processed image and
    [isProcessing] false; the two stacks, the notification and the other
    cells are as before, and nothing is left pending. *)
Theorem handleImageFile_loads (pf : Platform) (ans : forall r : Request, rans r)
    (file : File.t) (st : AppState) :
  let r := exec pf (answering ans) (handleImageFile file) st in
  outcome r = Finished (inr tt) /\ spawned r = [] /\
  exists md : ExifData,
    outcome (exec pf (answering ans) (extractMetadata file) st) = Finished (inr md) /\
    md !! "File Info" = Some (fileInfo file (toLocaleString pf (File.lastModified file))) /\
    store r =
      {| isDragging := isDragging st; isProcessing := false; processedImage := None;
         originalImage := Some (ans (ReadAsDataURL file));
         originalFileName := File.name file; metadata := Some md;
         history := history st; futureHistory := futureHistory st;
         notification := notification st; showJsonModal := showJsonModal st |}.
Proof.
  destruct (handleImageFile_run pf ans file st) as (md & tr & Ho & _ & _ & Hi & E).
  cbv zeta. rewrite E. split; [done|]. split; [done|]. by exists md.
Qed.

(** X12. No [onerror] is registered on the reader: as long as the reader has
    not delivered, and for good if it never does, [handleImageFile] is
    suspended with [isProcessing] true, the name of the new file, no
    processed image and the original image it found. *)
Theorem handleImageFile_waits_for_reader (pf : Platform) (orc : Oracle)
    (file : File.t) (st : AppState) :
  orc (ReadAsDataURL file) = None ->
  let r := exec pf orc (handleImageFile file) st in
  (exists q k, outcome r = Suspended q k) /\
  isProcessing (store r) = true /\
  originalFileName (store r) = File.name file /\
  processedImage (store r) = None /\
  originalImage (store r) = originalImage st.
Proof.
  intros Hr. unfold handleImageFile. cbn [bind act]. cbn [exec].
  rewrite exec_bind.
  match goal with |- context [exec pf orc (extractMetadata file) ?s] =>
    destruct (extractMetadata_shape pf orc file s) as (Hs & Hsp & _ & Ho);
    set (r := exec pf orc (extractMetadata file) s) in *
  end.
  clearbody r.
  destruct Ho as [(q & k & Ho)|(md & Ho & Hi)]; rewrite Ho; cbn.
  - rewrite Hs. split; [|done]. eexists _, _. reflexivity.
  - unfold await. cbn. rewrite Hr, Hs. cbn. split; [|done].
    exists (ReadAsDataURL file). eexists. reflexivity.
Qed.

Lemma handleImageFile_waits_for_reader_witness :
  let r := exec samplePlatform silentReader (handleImageFile sampleFile) loadedState in
  (exists q k, outcome r = Suspended q k) /\
  isProcessing (store r) = true /\
  originalFileName (store r) = "photo.jpeg" /\
  processedImage (store r) = None /\
  originalImage (store r) = originalImage loadedState.
Proof.
  apply (handleImageFile_waits_for_reader samplePlatform silentReader sampleFile loadedState).
  reflexivity.
Defined.

(** ** The ways [handleCleanMetadata] ends *)

(** X13. When the canvas has no 2d context, or [toBlob] delivers [null],
    [handleCleanMetadata] ends there: the snapshot has been pushed,
    [isProcessing] is left true, no notification is shown, no processed
    image is stored and nothing is left pending that would change this. *)
Theorem handleCleanMetadata_gives_up (pf : Platform) (orc : Oracle) (s : AppState)
    (src : string) (w h : N) :
  originalImage s = Some src -> src <> "" ->
  orc (LoadImage src) = Some (ImgLoad w h) ->
  context2d pf w h = false \/
  (context2d pf w h = true /\ orc (ToBlob "image/jpeg" (92 # 100)) = Some None) ->
  let r := exec pf orc (handleCleanMetadata s) s in
  outcome r = Finished tt /\ spawned r = [] /\
  isProcessing (store r) = true /\
  processedImage (store r) = processedImage s /\
  notification (store r) = notification s /\
  history (store r) = history s ++ [snapshot s].
Proof.
  intros Ho Hne Hl Hc. unfold handleCleanMetadata. rewrite Ho.
  apply String.eqb_neq in Hne. rewrite Hne.
  unfold saveToHistory, await, ask. cbn [bind act]. cbn [exec]. rewrite Hl. cbn.
  destruct Hc as [Hc | [Hc Hb]]; rewrite Hc; cbn; [done|].
  rewrite Hb. done.
Qed.

Lemma handleCleanMetadata_gives_up_witness :
  (let r := exec noContextPlatform (answering sampleAnswers)
              (handleCleanMetadata loadedState) loadedState in
   outcome r = Finished tt /\ spawned r = [] /\
   isProcessing (store r) = true /\
   processedImage (store r) = None /\
   notification (store r) = None /\
   history (store r) = [sampleSnapshot; snapshot loadedState]) /\
  (let r := exec samplePlatform (answering nullBlobAnswers)
              (handleCleanMetadata loadedState) loadedState in
   outcome r = Finished tt /\ spawned r = [] /\
   isProcessing (store r) = true /\
   processedImage (store r) = None /\
   notification (store r) = None /\
   history (store r) = [sampleSnapshot; snapshot loadedState]).
Proof.
  split.
  - apply (handleCleanMetadata_gives_up noContextPlatform (answering sampleAnswers)
             loadedState "data:image/jpeg;base64,BBBB" 2 2);
      [reflexivity|discriminate|reflexivity|].
    left. reflexivity.
  - apply (handleCleanMetadata_gives_up samplePlatform (answering nullBlobAnswers)
             loadedState "data:image/jpeg;base64,BBBB" 2 2);
      [reflexivity|discriminate|reflexivity|].
    right. split; reflexivity.
Defined.

(** X14. When the image does not load, [handleCleanMetadata] shows 'Error
    processing image' and sets [isProcessing] to false; the four fields are
    as before, yet their snapshot has been pushed onto the past stack and
    the future stack has been emptied. *)
Theorem handleCleanMetadata_image_error (pf : Platform) (orc : Oracle) (s : AppState)
    (src : string) :
  originalImage s = Some src -> src <> "" ->
  orc (LoadImage src) = Some ImgError ->
  let r := exec pf orc (handleCleanMetadata s) s in
  snapshot (store r) = snapshot s /\
  isProcessing (store r) = false /\
  notification (store r) = Some "Error processing image" /\
  history (store r) = history s ++ [snapshot s] /\
  futureHistory (store r) = [].
Proof.
  intros Ho Hne Hl. unfold handleCleanMetadata. rewrite Ho.
  apply String.eqb_neq in Hne. rewrite Hne.
  unfold saveToHistory, await, ask. cbn [bind act]. cbn [exec]. rewrite Hl.
  done.
Qed.

Lemma handleCleanMetadata_image_error_witness :
  let r := exec samplePlatform (answering brokenImageAnswers)
             (handleCleanMetadata loadedState) loadedState in
  snapshot (store r) = snapshot loadedState /\
  isProcessing (store r) = false /\
  notification (store r) = Some "Error processing image" /\
  history (store r) = [sampleSnapshot; snapshot loadedState] /\
  futureHistory (store r) = [].
Proof.
  apply (handleCleanMetadata_image_error samplePlatform (answering brokenImageAnswers)
           loadedState "data:image/jpeg;base64,BBBB");
    [reflexivity|discriminate|reflexivity].
Defined.

(** X15. When the image loads, the canvas has a 2d context and [toBlob]
    delivers a blob, [handleCleanMetadata] stores the object URL of that
    blob as the processed image, sets [isProcessing] to false and shows
    'Metadata removed successfully'; the original image, the file name and
    the metadata stay as they are. *)
Theorem handleCleanMetadata_success (pf : Platform) (orc : Oracle) (s : AppState)
    (src : string) (w h : N) (b : Blob) :
  originalImage s = Some src -> src <> "" ->
  orc (LoadImage src) = Some (ImgLoad w h) ->
  context2d pf w h = true ->
  orc (ToBlob "image/jpeg" (92 # 100)) = Some (Some b) ->
  let r := exec pf orc (handleCleanMetadata s) s in
  processedImage (store r) = Some (objectURL pf b) /\
  originalImage (store r) = originalImage s /\
  originalFileName (store r) = originalFileName s /\
  metadata (store r) = metadata s /\
  isProcessing (store r) = false /\
  notification (store r) = Some "Metadata removed successfully" /\
  outcome r = Finished tt.
Proof.
  intros Ho Hne Hl Hc Hb. unfold handleCleanMetadata. rewrite Ho.
  apply String.eqb_neq in Hne. rewrite Hne.
  unfold saveToHistory, await, ask. cbn [bind act]. cbn [exec]. rewrite Hl. cbn.
  rewrite Hc. cbn. rewrite Hb. done.
Qed.

Lemma handleCleanMetadata_success_witness :
  let r := exec samplePlatform (answering sampleAnswers)
             (handleCleanMetadata loadedState) loadedState in
  processedImage (store r) = Some "blob:7" /\
  originalImage (store r) = originalImage loadedState /\
  originalFileName (store r) = originalFileName loadedState /\
  metadata (store r) = metadata loadedState /\
  isProcessing (store r) = false /\
  notification (store r) = Some "Metadata removed successfully" /\
  outcome r = Finished tt.
Proof.
  apply (handleCleanMetadata_success samplePlatform (answering sampleAnswers)
           loadedState "data:image/jpeg;base64,BBBB" 2 2 sampleBlob);
    [reflexivity|discriminate|reflexivity|reflexivity|reflexivity].
Defined.

(** ** Downloads *)

(** X16. The two download handlers never change the state and leave
    nothing pending; each does nothing at all when its image is [null] or
    the empty string; 'Download Original' offers the data URL under the
    file name as it is. *)
Theorem downloads_change_nothing (pf : Platform) (orc : Oracle) (s st : AppState) :
  (store (exec pf orc (handleDownload s) st) = st /\
   spawned (exec pf orc (handleDownload s) st) = [] /\
   store (exec pf orc (handleDownloadOriginal s) st) = st /\
   spawned (exec pf orc (handleDownloadOriginal s) st) = []) /\
  (truthy_str (processedImage s) = false ->
   trace (exec pf orc (handleDownload s) st) = []) /\
  (truthy_str (originalImage s) = false ->
   trace (exec pf orc (handleDownloadOriginal s) st) = []) /\
  (forall href, originalImage s = Some href -> href <> "" ->
   trace (exec pf orc (handleDownloadOriginal s) st) =
     [EAct (DownloadLink href (originalFileName s))]).
Proof.
  unfold handleDownload, handleDownloadOriginal, truthy_str. split_and!.
  - destruct (processedImage s) as [href|]; [|done]. by destruct (String.eqb href "").
  - destruct (processedImage s) as [href|]; [|done]. by destruct (String.eqb href "").
  - destruct (originalImage s) as [href|]; [|done]. by destruct (String.eqb href "").
  - destruct (originalImage s) as [href|]; [|done]. by destruct (String.eqb href "").
  - destruct (processedImage s) as [href|]; [|done]. by destruct (String.eqb href "").
  - destruct (originalImage s) as [href|]; [|done]. by destruct (String.eqb href "").
  - intros href -> Hne. apply String.eqb_neq in Hne. by rewrite Hne.
Qed.

Lemma downloads_change_nothing_witness :
  trace (exec samplePlatform no_answer (handleDownload loadedState) loadedState) = [] /\
  trace (exec samplePlatform no_answer (handleDownloadOriginal initialState) initialState) = [] /\
  trace (exec samplePlatform no_answer (handleDownloadOriginal loadedState) loadedState) =
    [EAct (DownloadLink "data:image/jpeg;base64,BBBB" "photo.jpeg")].
Proof.
  destruct (downloads_change_nothing samplePlatform no_answer loadedState loadedState)
    as (_ & H1 & _ & H3).
  destruct (downloads_change_nothing samplePlatform no_answer initialState initialState)
    as (_ & _ & H2 & _).
  split; [|split].
  - apply H1. reflexivity.
  - apply H2. reflexivity.
  - apply H3; [reflexivity|discriminate].
Defined.

Lemma replace_extension_cases (name : string) :
  (has_extension name = false /\ replace_first extensionRegex "" name = name) \/
  (exists ext, name = replace_first extensionRegex "" name +:+ "." +:+ ext /\
               is_extension ext = true).
Proof.
  induction name as [|c name IH].
  - by left.
  - cbn [replace_first has_extension]. rewrite match_here_extensionRegex.
    destruct (Ascii.eqb c "." && is_extension name) eqn:E.
    + right. apply andb_true_iff in E as [Hc He]. apply Ascii.eqb_eq in Hc. subst c.
      by exists name.
    + destruct IH as [[Hn Hr] | (ext & Hn & He)].
      * left. by rewrite Hr, Hn.
      * right. exists ext. split; [|done].
        change (String c (replace_first extensionRegex "" name) +:+ "." +:+ ext)
          with (String c (replace_first extensionRegex "" name +:+ "." +:+ ext)).
        by rewrite <- Hn.
Qed.

(** X17. For every file name, the download name of the cleaned image is
    some [stem] followed by '_clean.jpg', where either [stem] is the whole
    name (and no suffix of the name is a dot followed by an extension), or
    the name is [stem], a dot and an extension: nothing but one final
    dot-extension is ever removed. *)
Theorem download_name_cases (pf : Platform) (orc : Oracle) (s st : AppState) (href : string) :
  processedImage s = Some href -> href <> "" ->
  exists stem,
    trace (exec pf orc (handleDownload s) st) =
      [EAct (DownloadLink href (stem +:+ "_clean.jpg"))] /\
    ((stem = originalFileName s /\ has_extension (originalFileName s) = false) \/
     (exists ext, originalFileName s = stem +:+ "." +:+ ext /\ is_extension ext = true)).
Proof.
  intros Hp Hne. rewrite (exec_handleDownload pf orc s st href Hp Hne).
  exists (replace_first extensionRegex "" (originalFileName s)). split; [done|].
  destruct (replace_extension_cases (originalFileName s)) as [[Hn Hr]|H]; [left|by right].
  done.
Qed.

Lemma download_name_cases_witness :
  exists stem,
    trace (exec samplePlatform no_answer (handleDownload cleanedState) cleanedState) =
      [EAct (DownloadLink "blob:7" (stem +:+ "_clean.jpg"))] /\
    ((stem = "holiday.2024.png" /\ has_extension "holiday.2024.png" = false) \/
     (exists ext, "holiday.2024.png" = stem +:+ "." +:+ ext /\ is_extension ext = true)).
Proof.
  apply (download_name_cases samplePlatform no_answer cleanedState cleanedState "blob:7").
  - reflexivity.
  - discriminate.
Defined.

(** ** Notifications *)

(** X18. The timer of a notification removes whatever notification is
    shown when it fires: when a second notification is shown before the
    timer of the first has fired, that timer removes the second one. *)
Theorem stale_timer_clears_notification (pf : Platform) (orc : Oracle)
    (m1 m2 : string) (st : AppState) :
  let r1 := exec pf orc (showNotification m1) st in
  let r2 := exec pf orc (showNotification m2) (store r1) in
  notification (store r2) = Some m2 /\
  exists cb,
    spawned r1 = [TaskTimer 3000 cb] /\
    notification (store (exec pf orc cb (store r2))) = None.
Proof.
  cbv zeta. split; [done|]. by eexists.
Qed.

(** ** What the page shows *)

(** X19. Of the drop zone, the spinner, the panel of the loaded image and
    the panel of the cleaned image, the page never shows two at a time;
    and it shows none of them exactly when an original image and a
    processed image are both present while [isProcessing] is true. *)
Theorem views_exclusive (s : AppState) :
  (zoneShown s && spinnerShown s = false /\
   zoneShown s && loadedPanelShown s = false /\
   zoneShown s && cleanedPanelShown s = false /\
   spinnerShown s && loadedPanelShown s = false /\
   spinnerShown s && cleanedPanelShown s = false /\
   loadedPanelShown s && cleanedPanelShown s = false) /\
  (zoneShown s || spinnerShown s || loadedPanelShown s || cleanedPanelShown s = false <->
   truthy_str (originalImage s) && truthy_str (processedImage s) && isProcessing s = true).
Proof.
  unfold zoneShown, spinnerShown, loadedPanelShown, cleanedPanelShown.
  destruct (truthy_str (originalImage s)), (truthy_str (processedImage s)),
    (isProcessing s); simpl; split_and!; try done; split; done.
Qed.

(** ** The sections of the metadata object *)

Lemma copySegment_run (a : JsVal) (seg key : string) (md : ExifData) :
  copySegment a seg key md = Ret (copySegments a [(seg, key)] md, inr tt).
Proof.
  unfold copySegment, when_b. simpl. by destruct (truthy (get_prop a seg)).
Qed.

Lemma copySegments_lookup_other (a : JsVal) (table : list (string * string))
    (md : ExifData) (k : string) :
  k ∉ table.*2 -> copySegments a table md !! k = md !! k.
Proof.
  revert md. induction table as [|[seg key] table IH]; intros md Hk; [done|].
  rewrite fmap_cons, not_elem_of_cons in Hk. destruct Hk as [Hne Hk].
  cbn [snd] in Hne. cbn [copySegments]. rewrite (IH _ Hk).
  destruct (truthy (get_prop a seg)); [|done]. by rewrite lookup_insert_ne.
Qed.

Lemma copySegments_lookup (a : JsVal) (table : list (string * string))
    (md : ExifData) (seg key : string) :
  NoDup table.*2 -> (seg, key) ∈ table ->
  copySegments a table md !! key =
  if truthy (get_prop a seg) then Some (get_prop a seg) else md !! key.
Proof.
  revert md. induction table as [|[seg' key'] table IH]; intros md Hnd Hin.
  - by apply elem_of_nil in Hin.
  - rewrite fmap_cons in Hnd. apply NoDup_cons in Hnd as [Hfresh Hnd].
    cbn [snd] in Hfresh. cbn [copySegments].
    apply elem_of_cons in Hin as [[= -> ->] | Hin].
    + rewrite copySegments_lookup_other by done.
      destruct (truthy (get_prop a seg')); [|done]. apply lookup_insert_eq.
    + rewrite (IH _ Hnd Hin).
      destruct (truthy (get_prop a seg)); [done|].
      destruct (truthy (get_prop a seg')); [|done].
      apply lookup_insert_ne. intros ->. apply Hfresh.
      apply list_elem_of_fmap. by exists (seg, key).
Qed.

Lemma segmentKeys_NoDup : NoDup segmentKeys.*2.
Proof. compute_done. Qed.


Lemma run_segments (a : JsVal) (md : ExifData) :
  when_b (truthy a)
    (copySegment a "ifd0" "IFD0" ;;
     copySegment a "ifd1" "IFD1" ;;
     copySegment a "exif" "EXIF" ;;
     copySegment a "gps" "GPS" ;;
     copySegment a "iptc" "IPTC" ;;
     copySegment a "icc" "ICC Profile" ;;
     copySegment a "jfif" "JFIF" ;;
     copySegment a "ihdr" "PNG IHDR" ;;
     copySegment a "xmp" "XMP" ;;
     copySegment a "tiff" "TIFF" ;;
     copySegment a "interop" "Interoperability" ;;
     copySegment a "makerNote" "Maker Note")%body md =
  Ret (if truthy a then copySegments a segmentKeys md else md, inr tt).
Proof.
  unfold when_b. destruct (truthy a); [|done].
  unfold bind_b. repeat (rewrite copySegment_run; cbn [bind]). reflexivity.
Qed.

(** X20. When [exifr.parse] and [exifr.thumbnail] both succeed, the object
    that [extractMetadata] returns has, for each of the twelve segments of
    the parser's output, the segment under its key when the output and the
    segment are truthy and no such key otherwise; it has 'Embedded
    Thumbnail' (with the byte length) exactly when there is a thumbnail, it
    has 'File Info', and it has no 'Extraction Error'. *)
Theorem extractMetadata_sections (pf : Platform) (ans : forall r : Request, rans r)
    (file : File.t) (st : AppState) (allMetadata : JsVal) (thumbnail : option N) :
  ans (ExifrParse file parseOptions) = inr allMetadata ->
  ans (ExifrThumbnail file) = inr thumbnail ->
  exists md : ExifData,
    outcome (exec pf (answering ans) (extractMetadata file) st) = Finished (inr md) /\
    (forall seg key, (seg, key) ∈ segmentKeys ->
       md !! key =
       if truthy allMetadata && truthy (get_prop allMetadata seg)
       then Some (get_prop allMetadata seg) else None) /\
    md !! "Embedded Thumbnail" =
      match thumbnail with
      | Some byteLength =>
          Some (VObj [ ("Has Thumbnail", VBool true);
                       ("Size", VStr (string_of_N byteLength +:+ " bytes")) ])
      | None => None
      end /\
    md !! "File Info" = Some (fileInfo file (toLocaleString pf (File.lastModified file))) /\
    md !! "Extraction Error" = None.
Proof.
  intros Hp Ht.
  unfold extractMetadata. cbn [bind ask]. cbn [exec answer].
  set (md0 := {[ _ := _ ]} : ExifData).
  unfold try_catch. unfold bind_b at 1. unfold await_parse, await. cbn [bind exec].
  unfold answering at 1. rewrite Hp. cbn [bind exec].
  unfold bind_b at 1. rewrite run_segments. cbn [bind].
  unfold bind_b at 1, await_thumbnail, await. cbn [bind exec].
  unfold answering at 1. rewrite Ht. cbn [bind exec].
  set (md1 := if truthy allMetadata then copySegments allMetadata segmentKeys md0 else md0).
  assert (Hseg : forall seg key, (seg, key) ∈ segmentKeys ->
            md1 !! key =
            if truthy allMetadata && truthy (get_prop allMetadata seg)
            then Some (get_prop allMetadata seg) else None).
  { intros seg key Hin. subst md1 md0.
    assert (Hk : key <> "File Info").
    { intros ->. assert (Hfi : "File Info" ∉ segmentKeys.*2) by compute_done.
      apply Hfi, list_elem_of_fmap. by exists (seg, "File Info"). }
    destruct (truthy allMetadata); cbn [andb].
    - rewrite (copySegments_lookup _ _ _ seg key segmentKeys_NoDup Hin).
      destruct (truthy (get_prop allMetadata seg)); [done|].
      by rewrite lookup_singleton_ne.
    - by rewrite lookup_singleton_ne. }
  assert (Hother : forall k, k ∉ segmentKeys.*2 -> md1 !! k = md0 !! k).
  { intros k Hk. subst md1. destruct (truthy allMetadata); [|done].
    by apply copySegments_lookup_other. }
  assert (Hnot : forall k seg, (seg, k) ∈ segmentKeys -> k <> "Embedded Thumbnail").
  { intros k seg Hin ->.
    assert (Hth : "Embedded Thumbnail" ∉ segmentKeys.*2) by compute_done.
    apply Hth, list_elem_of_fmap. by exists (seg, "Embedded Thumbnail"). }
  destruct thumbnail as [n|]; unfold assign, ret_b; cbn.
  - eexists. split; [reflexivity|]. split_and!.
    + intros seg key Hin. rewrite lookup_insert_ne by (intros <-; by eapply Hnot).
      by apply Hseg.
    + apply lookup_insert_eq.
    + rewrite lookup_insert_ne by done. rewrite Hother by compute_done.
      apply lookup_singleton_eq.
    + rewrite lookup_insert_ne by done. rewrite Hother by compute_done.
      by apply lookup_singleton_ne.
  - eexists. split; [reflexivity|]. split_and!.
    + done.
    + rewrite Hother by compute_done. by apply lookup_singleton_ne.
    + rewrite Hother by compute_done. apply lookup_singleton_eq.
    + rewrite Hother by compute_done. by apply lookup_singleton_ne.
Qed.

Lemma extractMetadata_sections_witness :
  exists md : ExifData,
    outcome (exec samplePlatform (answering sampleAnswers) (extractMetadata sampleFile)
               initialState) = Finished (inr md) /\
    md !! "IFD0" = Some (VObj [("Make", VStr "ACME")]) /\
    md !! "GPS" = None /\
    md !! "Embedded Thumbnail" =
      Some (VObj [ ("Has Thumbnail", VBool true); ("Size", VStr "120 bytes") ]) /\
    md !! "Extraction Error" = None.
Proof.
  destruct (extractMetadata_sections samplePlatform sampleAnswers sampleFile initialState
              (VObj [("ifd0", VObj [("Make", VStr "ACME")])]) (Some 120%N)
              eq_refl eq_refl)
    as (md & Ho & Hseg & Hth & _ & Herr).
  exists md. split; [exact Ho|]. split_and!.
  - apply (Hseg "ifd0" "IFD0"). compute_done.
  - apply (Hseg "gps" "GPS"). compute_done.
  - exact Hth.
  - exact Herr.
Defined.

(** ** Work in flight *)

Lemma extractMetadata_resumes (pf : Platform) (file : File.t) (st : AppState) :
  exists k,
    exec pf no_answer (extractMetadata file) st =
    {| trace := [EAsk (DateToLocaleString (File.lastModified file));
                 EAwait (ExifrParse file parseOptions)];
       store := st; spawned := [];
       outcome := Suspended (ExifrParse file parseOptions) k |} /\
    forall (ans : forall r : Request, rans r) x st',
    exists (md : ExifData) (tr : list Event),
      md !! "File Info" = Some (fileInfo file (toLocaleString pf (File.lastModified file))) /\
      exec pf (answering ans) (k x) st' =
      {| trace := tr; store := st'; spawned := []; outcome := Finished (inr md) |}.
Proof.
  unfold extractMetadata. cbn [bind ask]. cbn [exec answer].
  set (md0 := {[ _ := _ ]} : ExifData).
  assert (K0 : md0 !! "File Info" =
               Some (fileInfo file (toLocaleString pf (File.lastModified file))))
    by apply lookup_singleton_eq.
  unfold try_catch. unfold bind_b at 1. unfold await_parse, await. cbn [bind exec].
  unfold no_answer at 1. cbn [after trace store spawned outcome app].
  eexists. split; [reflexivity|].
  intros ans [e|a] st'; cbn [bind exec].
  - unfold assign. cbn. eexists _, _. split; [|reflexivity].
    rewrite lookup_insert_ne by done. exact K0.
  - unfold bind_b at 1.
    match goal with
    | |- context [when_b ?c ?m md0] => assert (Hq : quiet (when_b c m))
    end.
    { apply quiet_when.
      repeat (apply quiet_seq; [by apply quiet_copySegment|]).
      by apply quiet_copySegment. }
    destruct (Hq md0) as [md1 [E1 K1]]. rewrite E1. cbn [bind].
    unfold bind_b at 1, await_thumbnail, await. cbn [bind exec].
    unfold answering at 1.
    destruct (ans (ExifrThumbnail file)) as [e|[n|]]; cbn [bind exec].
    + unfold assign. cbn. eexists _, _. split; [|reflexivity].
      rewrite lookup_insert_ne by done. congruence.
    + unfold assign. cbn. eexists _, _. split; [|reflexivity].
      rewrite lookup_insert_ne by done. congruence.
    + unfold ret_b. cbn. eexists _, _. split; [|reflexivity]. congruence.
Qed.

Lemma handleImageFile_resumes (pf : Platform) (file : File.t) (st : AppState) :
  exists k,
    outcome (exec pf no_answer (handleImageFile file) st) =
      Suspended (ExifrParse file parseOptions) k /\
    spawned (exec pf no_answer (handleImageFile file) st) = [] /\
    store (exec pf no_answer (handleImageFile file) st) =
      apply_action (SetOriginalFileName (File.name file))
        (apply_action (SetProcessedImage None) (apply_action (SetIsProcessing true) st)) /\
    forall (ans : forall r : Request, rans r) x st',
    exists md : ExifData,
      md !! "File Info" = Some (fileInfo file (toLocaleString pf (File.lastModified file))) /\
      store (exec pf (answering ans) (k x) st') =
        apply_action (SetIsProcessing false)
          (apply_action (SetOriginalImage (Some (ans (ReadAsDataURL file))))
             (apply_action (SetMetadata (Some md)) st')).
Proof.
  unfold handleImageFile. cbn [bind act]. cbn [exec].
  match goal with |- context [exec pf no_answer (bind (extractMetadata file) ?g) ?s] =>
    destruct (extractMetadata_resumes pf file s) as (k & E & Hk);
    rewrite (exec_bind pf no_answer (extractMetadata file) g s), E
  end.
  cbn. eexists. split; [reflexivity|]. split; [done|]. split; [done|].
  intros ans x st'. destruct (Hk ans x st') as (md & tr & Hi & E').
  exists md. split; [exact Hi|].
  rewrite exec_bind, E'. reflexivity.
Qed.

(** X21. A drop of an image file on the drop zone is handled twice, by
    [handleDrop] of the zone and by the drop handler of the page around it:
    [handleImageFile] is started twice for the same file, which leaves two
    requests to the parser pending; the stacks are not touched. *)
Theorem drop_on_zone_starts_two_loads (pf : Platform) (s : AppState)
    (file0 : File.t) (files : list File.t) :
  zoneShown s = true -> String.prefix "image/" (File.type file0) = true ->
  let r := exec pf no_answer (dispatch s (DropOnZone (file0 :: files))) s in
  (exists k1 k2,
     spawned r = [TaskAwait (ExifrParse file0 parseOptions) k1;
                  TaskAwait (ExifrParse file0 parseOptions) k2]) /\
  stacks (store r) = stacks s /\
  isProcessing (store r) = true.
Proof.
  intros Hz Hp. apply zoneShown_not_loaded in Hz.
  cbn [dispatch]. unfold handleDrop, rootDrop. rewrite Hp, Hz.
  unfold call. cbn [bind act]. cbn [exec].
  repeat match goal with
  | |- context [exec pf no_answer (bind (handleImageFile file0) ?g) ?st0] =>
      let k := fresh "k" in
      let Ho := fresh "Ho" in
      let Hsp := fresh "Hsp" in
      let Hs := fresh "Hs" in
      destruct (handleImageFile_resumes pf file0 st0) as (k & Ho & Hsp & Hs & _);
      rewrite (exec_bind pf no_answer (handleImageFile file0) g st0), Ho, Hsp, Hs
  end.
  cbn. split; [by eexists _, _|]. done.
Qed.

Lemma drop_on_zone_starts_two_loads_witness :
  let r := exec samplePlatform no_answer (dispatch initialState (DropOnZone [sampleFile]))
             initialState in
  (exists k1 k2,
     spawned r = [TaskAwait (ExifrParse sampleFile parseOptions) k1;
                  TaskAwait (ExifrParse sampleFile parseOptions) k2]) /\
  stacks (store r) = stacks initialState /\
  isProcessing (store r) = true.
Proof.
  apply (drop_on_zone_starts_two_loads samplePlatform initialState sampleFile []);
    reflexivity.
Defined.

(** X22. A clean that waits for its image is not cancelled by what happens
    meanwhile: whatever the state has become when the image arrives (after
    a reset, an undo or another file), if the canvas has a 2d context and
    [toBlob] delivers a blob, the object URL of the blob is stored as the
    processed image. *)
Theorem clean_in_flight_is_not_cancelled (pf : Platform) (s : AppState) (src : string) :
  originalImage s = Some src -> src <> "" ->
  exists k,
    outcome (exec pf no_answer (handleCleanMetadata s) s) = Suspended (LoadImage src) k /\
    forall (orc : Oracle) (st' : AppState) (w h : N) (b : Blob),
      context2d pf w h = true ->
      orc (ToBlob "image/jpeg" (92 # 100)) = Some (Some b) ->
      processedImage (store (exec pf orc (k (ImgLoad w h)) st')) = Some (objectURL pf b).
Proof.
  intros Ho Hne. unfold handleCleanMetadata. rewrite Ho.
  apply String.eqb_neq in Hne. rewrite Hne.
  unfold saveToHistory, await, ask. cbn [bind act]. cbn [exec].
  unfold no_answer at 1. cbn [after trace store spawned outcome app].
  eexists. split; [reflexivity|].
  intros orc st' w h b Hc Hb. cbn. rewrite Hc. cbn. rewrite Hb. done.
Qed.

Lemma clean_in_flight_is_not_cancelled_witness :
  exists k,
    outcome (exec samplePlatform no_answer (handleCleanMetadata loadedState) loadedState) =
      Suspended (LoadImage "data:image/jpeg;base64,BBBB") k /\
    let afterReset :=
      store (exec samplePlatform no_answer handleReset
               (store (exec samplePlatform no_answer (handleCleanMetadata loadedState)
                         loadedState))) in
    originalImage afterReset = None /\
    processedImage (store (exec samplePlatform (answering sampleAnswers)
                             (k (ImgLoad 2 2)) afterReset)) = Some "blob:7".
Proof.
  destruct (clean_in_flight_is_not_cancelled samplePlatform loadedState
              "data:image/jpeg;base64,BBBB" eq_refl ltac:(discriminate))
    as (k & Ho & Hk).
  exists k. split; [exact Ho|]. split; [reflexivity|].
  apply (Hk (answering sampleAnswers) _ 2%N 2%N sampleBlob); reflexivity.
Defined.

(** X23. Loads are not cancelled either, and a load sets the file name only
    when it starts: when a file [A] is started, then a file [B] is started
    and loaded completely, and only then the parser and the reader answer
    for [A], the page ends with the name of [B] and the data URL of [A]. *)
Theorem overtaken_load_mixes_files (pf : Platform) (ans : forall r : Request, rans r)
    (fileA fileB : File.t) (st : AppState) :
  exists kA,
    outcome (exec pf no_answer (handleImageFile fileA) st) =
      Suspended (ExifrParse fileA parseOptions) kA /\
    let stA := store (exec pf no_answer (handleImageFile fileA) st) in
    let stB := store (exec pf (answering ans) (handleImageFile fileB) stA) in
    let stEnd := store (exec pf (answering ans)
                          (kA (ans (ExifrParse fileA parseOptions))) stB) in
    originalFileName stB = File.name fileB /\
    originalImage stB = Some (ans (ReadAsDataURL fileB)) /\
    originalFileName stEnd = File.name fileB /\
    originalImage stEnd = Some (ans (ReadAsDataURL fileA)) /\
    isProcessing stEnd = false.
Proof.
  destruct (handleImageFile_resumes pf fileA st) as (kA & Ho & _ & _ & Hk).
  exists kA. split; [exact Ho|]. cbv zeta.
  set (stA := store (exec pf no_answer (handleImageFile fileA) st)).
  destruct (handleImageFile_run pf ans fileB stA) as (mdB & trB & _ & _ & _ & _ & HB).
  rewrite HB. split; [done|]. split; [done|].
  match goal with |- context [exec pf (answering ans) (kA ?x) ?s] =>
    destruct (Hk ans x s) as (mdA & _ & HA)
  end.
  rewrite HA. done.
Qed.

(** ** Every notification has its timer *)

Lemma owes_bind {X Y : Type} (b : bool) (p : Prog X) (f : X -> Prog Y) :
  owes b p -> (forall a, owes false (f a)) -> owes b (bind p f).
Proof.
  revert b Y f.
  induction p as [X a | X a k IH | X q k IH | X r k IH | X child _ k IH | X cb _ ms k IH];
    intros b Y f Hp Hf; simpl in Hp |- *.
  - subst b. apply Hf.
  - by apply IH.
  - intros x. by apply IH.
  - destruct Hp as [-> Hk]. split; [done|]. intros x. by apply IH.
  - destruct Hp as (-> & Hc & Hk). split; [done|]. split; [done|]. by apply IH.
  - destruct Hp as [Hc Hk]. split; [done|]. by apply IH.
Qed.

Lemma shows_nothing_owes {X : Type} (p : Prog X) :
  acts_in shows_nothing p -> owes false p.
Proof.
  induction p as [X a | X a k IH | X q k IH | X r k IH | X child IHc k IH | X cb IHc ms k IH];
    simpl.
  - done.
  - intros [Ha Hk]. destruct a as [| | | | | | | |[m|]| | | | | | |]; try done; by apply IH.
  - intros Hk x. by apply IH.
  - intros Hk. split; [done|]. intros x. by apply IH.
  - intros [Hc Hk]. split; [done|]. split; [by apply IHc|by apply IH].
  - intros [Hc Hk]. split; [by apply IHc|]. destruct (is_clear cb); by apply IH.
Qed.

Lemma notif_inv_mono (st : AppState) (ts ts' : list Task) :
  notif_inv st ts -> notif_inv st (ts ++ ts').
Proof. intros H Hn. apply Exists_app. left. by apply H. Qed.

Lemma exec_owes {X : Type} (pf : Platform) (orc : Oracle) (p : Prog X) (b : bool)
    (st : AppState) (pre : list Task) :
  owes b p -> (b = false -> notif_inv st pre) ->
  notif_inv (store (exec pf orc p st)) (pre ++ spawned (exec pf orc p st)) /\
  Forall owes_task (spawned (exec pf orc p st)) /\
  outcome_owes (outcome (exec pf orc p st)).
Proof.
  revert b orc st pre.
  induction p as [X a | X a k IH | X q k IH | X r k IH | X child IHc k IH | X cb IHc ms k IH];
    intros b orc st pre Hp Hb; simpl in Hp |- *.
  - split; [|done]. rewrite app_nil_r. by apply Hb.
  - eapply IH; [exact Hp|].
    destruct a as [| | | | | | | |[m|]| | | | | | |]; try exact Hb; [done|].
    intros _ Hn. by destruct Hn.
  - by apply (IH _ b).
  - destruct Hp as [-> Hk]. destruct (orc r) as [x|]; simpl.
    + by apply (IH x false).
    + split; [|done]. rewrite app_nil_r. by apply Hb.
  - destruct Hp as (-> & Hc & Hk).
    destruct (IHc false no_answer st pre Hc Hb) as (H1 & H2 & H3).
    set (r1 := exec pf no_answer child st) in *.
    destruct (IH false orc (store r1) (pre ++ spawned r1 ++ task_of (outcome r1)) Hk)
      as (H4 & H5 & H6).
    { intros _. rewrite app_assoc. by apply notif_inv_mono. }
    split; [by rewrite <- !app_assoc in *|]. split; [|done].
    rewrite !Forall_app. split_and!; [done| |done].
    destruct (outcome r1); simpl; [constructor|]. by repeat constructor.
  - destruct Hp as [Hc Hk].
    destruct (IH (if is_clear cb then false else b) orc st (pre ++ [TaskTimer ms cb]) Hk)
      as (H4 & H5 & H6).
    { destruct (is_clear cb) eqn:E.
      - intros _ _. apply Exists_app. right. by constructor.
      - intros Hb'. by apply notif_inv_mono, Hb. }
    split; [by rewrite <- app_assoc in H4|]. split; [|done]. by constructor.
Qed.

Lemma owes_call_handleImageFile (file : File.t) : owes false (call (handleImageFile file)).
Proof.
  apply shows_nothing_owes.
  unfold call. cbn [acts_in]. split; [|done].
  apply acts_in_bind; [|done].
  apply (acts_in_mono load_setter); [by intros []|].
  apply acts_in_handleImageFile.
Qed.

Lemma owes_setTimeout (cb : Prog unit) (ms : N) :
  owes false cb -> owes false (setTimeout cb ms).
Proof.
  intros H. unfold setTimeout. split; [exact H|].
  by destruct (is_clear cb).
Qed.

Lemma owes_showNotification (m : string) : owes false (showNotification m).
Proof. by simpl. Qed.

Lemma owes_replaceImage (s : AppState) (file : File.t) : owes false (replaceImage s file).
Proof.
  unfold replaceImage.
  apply owes_bind; [by simpl|intros _].
  apply owes_bind; [by simpl|intros _].
  apply owes_bind; [apply owes_showNotification|intros _].
  apply owes_setTimeout, owes_call_handleImageFile.
Qed.

Lemma owes_forEach {X : Type} (l : list X) (body : X -> Prog unit) :
  (forall x, owes false (body x)) -> owes false (forEach l body).
Proof.
  intros Hb. induction l as [|x l IH]; [done|].
  cbn [forEach]. by apply owes_bind.
Qed.

Lemma owes_handleUndo (s : AppState) : owes false (handleUndo s).
Proof.
  unfold handleUndo.
  destruct (decide (history s = [])) as [E|E]; [by rewrite E|].
  destruct (exists_last E) as [h [p Hh]].
  rewrite Hh, length_snoc_eqb, array_pop_snoc. reflexivity.
Qed.

Lemma owes_handleRedo (s : AppState) : owes false (handleRedo s).
Proof. unfold handleRedo. destruct (futureHistory s); reflexivity. Qed.

Lemma owes_rootDrop (s : AppState) (files : list File.t) : owes false (rootDrop s files).
Proof.
  unfold rootDrop. cbn [bind act owes].
  destruct files as [|file0 files]; [done|].
  destruct (String.prefix _ _); [|done].
  destruct (loaded s); [apply owes_replaceImage|apply owes_call_handleImageFile].
Qed.

Lemma owes_handleDrop (s : AppState) (files : list File.t) : owes false (handleDrop s files).
Proof.
  unfold handleDrop. cbn [bind act owes].
  destruct files as [|file0 files]; [done|].
  destruct (String.prefix _ _); [|done].
  destruct (loaded s); [|apply owes_call_handleImageFile].
  apply owes_bind; [by simpl|intros _].
  apply owes_setTimeout, owes_call_handleImageFile.
Qed.

Lemma owes_handleCleanMetadata (s : AppState) : owes false (handleCleanMetadata s).
Proof.
  unfold handleCleanMetadata.
  destruct (originalImage s) as [src|]; [|done].
  destruct (String.eqb src ""); [done|].
  unfold saveToHistory, showNotification, setTimeout, await, ask.
  cbn [bind act owes]. split; [done|].
  intros [w h|]; cbn [owes is_clear]; [|done].
  intros [|]; cbn [negb owes bind]; [|done].
  split; [done|]. by intros [b|].
Qed.

Lemma owes_dispatch (s : AppState) (ev : UserEvent) : owes false (dispatch s ev).
Proof.
  destruct ev; cbn [dispatch]; try done.
  - unfold handlePaste. destruct items as [items|]; [|done].
    apply owes_forEach. intros item.
    destruct (includes "image" (item_type item)); [|done].
    destruct (getAsFile item) as [file|]; [|done].
    destruct (loaded s); [apply owes_replaceImage|apply owes_call_handleImageFile].
  - unfold handleKeyDown.
    apply owes_bind.
    { destruct (_ && _); [|reflexivity]. cbn [bind act owes]. apply owes_handleUndo. }
    intros _. apply owes_bind.
    { destruct (_ && _); [|reflexivity]. cbn [bind act owes]. apply owes_handleRedo. }
    intros _. destruct (_ && _); [|reflexivity].
    cbn [bind act owes]. destruct (loaded s); [|reflexivity].
    apply owes_bind; [by simpl|intros _].
    apply owes_bind; [by simpl|intros _].
    apply owes_showNotification.
  - apply owes_rootDrop.
  - apply owes_bind; [apply owes_handleDrop|]. intros _. apply owes_rootDrop.
  - unfold handleFileSelect. destruct files as [[|file0 files]|]; try done.
    apply owes_call_handleImageFile.
  - unfold copyJson. by destruct (metadata s).
  - unfold handleDownloadOriginal. destruct (originalImage s) as [href|]; [|done].
    by destruct (String.eqb href "").
  - apply owes_handleCleanMetadata.
  - unfold handleDownload. destruct (processedImage s) as [href|]; [|done].
    by destruct (String.eqb href "").
Qed.

Lemma is_clear_run (pf : Platform) (orc : Oracle) (cb : Prog unit) (st : AppState) :
  is_clear cb = true ->
  notification (store (exec pf orc cb st)) = None /\
  spawned (exec pf orc cb st) = [] /\ outcome (exec pf orc cb st) = Finished tt.
Proof.
  destruct cb as [|[| | | | | | | |[m|]| | | | | | |] [[]| | | | |]| | | |]; try done.
Qed.

Lemma reachable_notifications (c : Config) :
  reachable c ->
  notif_inv (current c) (pending c) /\ Forall owes_task (pending c).
Proof.
  induction 1 as [|c c' Hc [Hinv Hts] Hstep]; [split; [by intros ?|constructor]|].
  destruct Hstep as [pf ev _ | pf l1 l2 ms cb E | pf l1 l2 r k x E]; unfold deliver; simpl.
  - destruct (exec_owes pf no_answer (dispatch (handling c ev) ev) false (current c) (pending c))
      as (H1 & H2 & H3); [apply owes_dispatch|done|].
    split.
    + rewrite app_assoc. by apply notif_inv_mono.
    + rewrite !Forall_app. split_and!; [done..|].
      destruct (outcome _); simpl; [constructor|]. by repeat constructor.
  - rewrite E in Hts, Hinv. apply Forall_app in Hts as [Hl1 Hl2].
    apply Forall_cons in Hl2 as [Hcb Hl2].
    destruct (is_clear cb) eqn:Ecl.
    + destruct (is_clear_run pf no_answer cb (current c) Ecl) as (Hn & -> & ->).
      split; [by intros ?|]. simpl. rewrite app_nil_r. by apply Forall_app.
    + destruct (exec_owes pf no_answer cb false (current c) (l1 ++ l2))
        as (H1 & H2 & H3); [done| |].
      { intros _ Hn. specialize (Hinv Hn).
        apply Exists_app in Hinv as [Hinv|Hinv]; apply Exists_app; [by left|right].
        apply Exists_cons in Hinv as [Hinv|Hinv]; [|done].
        simpl in Hinv. congruence. }
      split.
      * rewrite app_assoc. by apply notif_inv_mono.
      * rewrite !Forall_app. split_and!; [done..|].
        destruct (outcome _); simpl; [constructor|]. by repeat constructor.
  - rewrite E in Hts, Hinv. apply Forall_app in Hts as [Hl1 Hl2].
    apply Forall_cons in Hl2 as [Hk Hl2].
    destruct (exec_owes pf no_answer (k x) false (current c) (l1 ++ l2))
      as (H1 & H2 & H3); [apply Hk| |].
    { intros _ Hn. specialize (Hinv Hn).
      apply Exists_app in Hinv as [Hinv|Hinv]; apply Exists_app; [by left|right].
      apply Exists_cons in Hinv as [Hinv|Hinv]; [done|done]. }
    split.
    + rewrite app_assoc. by apply notif_inv_mono.
    + rewrite !Forall_app. split_and!; [done..|].
      destruct (outcome _); simpl; [constructor|]. by repeat constructor.
Qed.

(** X24. No notification stays for ever: in every state that the page can
    reach, when a notification is shown, a timer whose callback is
    [setNotification(null)] is pending. *)
Theorem shown_notification_has_timer (c : Config) :
  reachable c -> notification (current c) <> None ->
  exists ms cb,
    TaskTimer ms cb ∈ pending c /\ cb = act (SetNotification None).
Proof.
  intros Hc Hn. destruct (reachable_notifications c Hc) as [Hinv _].
  apply Hinv in Hn. apply Exists_exists in Hn as (t & Hin & Ht).
  destruct t as [ms cb|]; [|done]. simpl in Ht.
  exists ms, cb. split; [done|].
  destruct cb as [|[| | | | | | | |[m|]| | | | | | |] [[]| | | | |]| | | |]; done.
Qed.

Lemma shown_notification_has_timer_witness :
  notification (current config_deleted) = Some "Image deleted" /\
  exists ms cb,
    TaskTimer ms cb ∈ pending config_deleted /\ cb = act (SetNotification None).
Proof.
  split; [reflexivity|].
  apply (shown_notification_has_timer config_deleted reachable_config_deleted).
  discriminate.
Defined.

Lemma views_exclusive_witness :
  zoneShown blankState || spinnerShown blankState || loadedPanelShown blankState
    || cleanedPanelShown blankState = false.
Proof.
  apply (proj2 (proj2 (views_exclusive blankState))). reflexivity.
Defined.

(** ** The listeners of the document *)

Lemma exec_handleUndo_run (pf : Platform) (orc : Oracle) (s st : AppState)
    (h : list HistoryState.t) (p : HistoryState.t) :
  history s = h ++ [p] ->
  exec pf orc (handleUndo s) st =
  {| trace := [EAct (SetFutureHistory (snapshot s :: futureHistory s));
               EAct (SetOriginalImage (HistoryState.originalImage p));
               EAct (SetOriginalFileName (HistoryState.originalFileName p));
               EAct (SetMetadata (HistoryState.metadata p));
               EAct (SetProcessedImage (HistoryState.processedImage p));
               EAct (SetHistory h)];
     store :=
       {| isDragging := isDragging st; isProcessing := isProcessing st;
          processedImage := HistoryState.processedImage p;
          originalImage := HistoryState.originalImage p;
          originalFileName := HistoryState.originalFileName p;
          metadata := HistoryState.metadata p;
          history := h; futureHistory := snapshot s :: futureHistory s;
          notification := notification st; showJsonModal := showJsonModal st |};
     spawned := []; outcome := Finished tt |}.
Proof.
  intros Hh. unfold handleUndo.
  rewrite Hh, length_snoc_eqb, array_pop_snoc. reflexivity.
Qed.

Lemma exec_handleRedo_run (pf : Platform) (orc : Oracle) (s st : AppState)
    (n : HistoryState.t) (f : list HistoryState.t) :
  futureHistory s = n :: f ->
  exec pf orc (handleRedo s) st =
  {| trace := [EAct (SetHistory (history s ++ [snapshot s]));
               EAct (SetOriginalImage (HistoryState.originalImage n));
               EAct (SetOriginalFileName (HistoryState.originalFileName n));
               EAct (SetMetadata (HistoryState.metadata n));
               EAct (SetProcessedImage (HistoryState.processedImage n));
               EAct (SetFutureHistory f)];
     store :=
       {| isDragging := isDragging st; isProcessing := isProcessing st;
          processedImage := HistoryState.processedImage n;
          originalImage := HistoryState.originalImage n;
          originalFileName := HistoryState.originalFileName n;
          metadata := HistoryState.metadata n;
          history := history s ++ [snapshot s]; futureHistory := f;
          notification := notification st; showJsonModal := showJsonModal st |};
     spawned := []; outcome := Finished tt |}.
Proof.
  intros Hf. unfold handleRedo. rewrite Hf. reflexivity.
Qed.

Lemma exec_finished_eta (r : Run unit) :
  spawned r = [] -> outcome r = Finished tt ->
  {| trace := trace r ++ []; store := store r; spawned := spawned r ++ [];
     outcome := Finished tt |} = r.
Proof. destruct r as [t s sp o]; simpl. intros -> ->. by rewrite app_nil_r. Qed.

(** The whole run of [handleKeyDown] on an undo key and on a redo key. *)
Lemma exec_keydown_undo_run (pf : Platform) (orc : Oracle) (s st : AppState)
    (e : KeyboardEvent) :
  is_undo_key e = true ->
  exec pf orc (handleKeyDown s e) st =
  after [EAct PreventDefault] [] (exec pf orc (handleUndo s) st).
Proof.
  unfold is_undo_key. intros H. apply andb_true_iff in H as [Hc Hk].
  apply String.eqb_eq in Hk. unfold handleKeyDown. rewrite Hk, Hc.
  change ("z" =? "z")%string with true. change ("z" =? "y")%string with false.
  change ("z" =? "d")%string with false. cbn [andb bind act]. cbn [exec].
  rewrite exec_bind.
  destruct (handleUndo_finishes pf orc s (apply_action PreventDefault st)) as [Hsp Ho].
  rewrite Ho. cbn [bind exec after trace store spawned outcome].
  change (apply_action PreventDefault st) with st in *.
  f_equal. unfold after; cbn [trace store spawned outcome].
  by apply exec_finished_eta.
Qed.

Lemma exec_keydown_redo_run (pf : Platform) (orc : Oracle) (s st : AppState)
    (e : KeyboardEvent) :
  is_redo_key e = true ->
  exec pf orc (handleKeyDown s e) st =
  after [EAct PreventDefault] [] (exec pf orc (handleRedo s) st).
Proof.
  unfold is_redo_key. intros H. apply andb_true_iff in H as [Hc Hk].
  apply String.eqb_eq in Hk. unfold handleKeyDown. rewrite Hk, Hc.
  change ("y" =? "z")%string with false. change ("y" =? "y")%string with true.
  change ("y" =? "d")%string with false. cbn [andb bind act]. cbn [exec].
  rewrite exec_bind.
  destruct (handleRedo_finishes pf orc s (apply_action PreventDefault st)) as [Hsp Ho].
  rewrite Ho. cbn [bind exec after trace store spawned outcome].
  change (apply_action PreventDefault st) with st in *.
  f_equal. unfold after; cbn [trace store spawned outcome].
  by apply exec_finished_eta.
Qed.

Lemma quiet_stacks {X : Type} (pf : Platform) (orc : Oracle) (p : Prog X) (st : AppState) :
  acts_in keeps_stacks p -> stacks (store (exec pf orc p st)) = stacks st.
Proof.
  intros Hp.
  by apply (exec_acts_in keeps_stacks stacks pf orc p st); [apply keeps_stacks_apply|].
Qed.

Lemma acts_in_handleDrop (s : AppState) (files : list File.t) :
  acts_in keeps_stacks (handleDrop s files).
Proof.
  unfold handleDrop. cbn [bind act acts_in keeps_stacks]. split_and!; try done.
  destruct files as [|file0 files]; [done|].
  destruct (String.prefix _ _); [|done].
  destruct (loaded s); [|apply acts_in_call_handleImageFile].
  unfold handleReset, setTimeout. cbn [bind act acts_in keeps_stacks].
  split_and!; try done. apply acts_in_call_handleImageFile.
Qed.

Lemma rootDrop_stacks (pf : Platform) (orc : Oracle) (s st : AppState) (files : list File.t) :
  existsb sets_history (trace (exec pf orc (rootDrop s files) st)) = true \/
  acts_in keeps_stacks (rootDrop s files).
Proof.
  destruct (loaded s) eqn:Hl; [|right; by apply acts_in_rootDrop_unloaded].
  unfold rootDrop. rewrite Hl.
  destruct files as [|file0 files]; [by right|].
  destruct (String.prefix _ _); [|by right].
  left. cbn [bind act]. cbn [exec].
  match goal with
  | |- context [exec pf orc (replaceImage s file0) ?st0] =>
      destruct (exec_replaceImage pf orc s st0 file0) as (post & ts & st' & E & _);
      rewrite E
  end.
  reflexivity.
Qed.

(** A run of the handlers of an event calls [setHistory], or it leaves both
    stacks as they are: the future stack is never set alone. *)
Lemma dispatch_stacks (pf : Platform) (s st : AppState) (ev : UserEvent) :
  existsb sets_history (trace (exec pf no_answer (dispatch s ev) st)) = true \/
  stacks (store (exec pf no_answer (dispatch s ev) st)) = stacks st.
Proof.
  destruct ev; cbn [dispatch]; try (by right).
  - destruct (loaded s) eqn:Hl.
    + destruct items as [items|]; [|by right].
      destruct (exec_paste_items pf no_answer s items st Hl) as [_ H].
      cbn [handlePaste]. destruct (existsb pastes_file items).
      * destruct H as (_ & _ & post & ->). by left.
      * destruct H as [_ ->]. by right.
    + right. by apply quiet_stacks, acts_in_handlePaste_unloaded.
  - destruct (is_undo_key e) eqn:Hu.
    { rewrite (exec_keydown_undo_run pf no_answer s st e Hu).
      destruct (decide (history s = [])) as [E|E].
      - right. unfold handleUndo. by rewrite E.
      - left. destruct (exists_last E) as [h [p Hh]].
        by rewrite (exec_handleUndo_run pf no_answer s st h p Hh). }
    destruct (is_redo_key e) eqn:Hr.
    { rewrite (exec_keydown_redo_run pf no_answer s st e Hr).
      destruct (futureHistory s) as [|n f] eqn:E.
      - right. unfold handleRedo. by rewrite E.
      - left. by rewrite (exec_handleRedo_run pf no_answer s st n f E). }
    unfold is_undo_key in Hu. unfold is_redo_key in Hr.
    unfold handleKeyDown. rewrite Hu, Hr. cbn [bind].
    destruct ((ctrlKey e || metaKey e) && String.eqb (key e) "d"); [|by right].
    destruct (loaded s); [left; reflexivity|right; reflexivity].
  - destruct (rootDrop_stacks pf no_answer s st files) as [H|H]; [by left|].
    right. by apply quiet_stacks.
  - rewrite exec_bind.
    destruct (exec_acts_in keeps_stacks stacks pf no_answer (handleDrop s files) st)
      as (Hs & _ & _); [apply keeps_stacks_apply|apply acts_in_handleDrop|].
    destruct (outcome (exec pf no_answer (handleDrop s files) st)) as [[]|q k];
      [|by right].
    cbn [trace store after].
    destruct (rootDrop_stacks pf no_answer s
                (store (exec pf no_answer (handleDrop s files) st)) files) as [H|H].
    + left. rewrite existsb_app, H. apply orb_true_r.
    + right. rewrite <- Hs. by apply quiet_stacks.
  - right. apply quiet_stacks. unfold handleFileSelect.
    destruct files as [[|file0 files]|]; try done.
    apply acts_in_call_handleImageFile.
  - right. unfold copyJson. by destruct (metadata s).
  - right. unfold handleDownloadOriginal. destruct (originalImage s) as [href|]; [|done].
    by destruct (String.eqb href "").
  - unfold handleCleanMetadata. destruct (originalImage s) as [src|]; [|by right].
    destruct (String.eqb src ""); [by right|by left].
  - right. unfold handleDownload. destruct (processedImage s) as [href|]; [|done].
    by destruct (String.eqb href "").
Qed.

Lemma reads_current_refl (st : AppState) : reads_current st st.
Proof. done. Qed.

Lemma deliver_reads_current (pf : Platform) (c : Config) (rest : list Task) (p : Prog unit) :
  reads_current (listener c) (current c) ->
  existsb sets_history (trace (exec pf no_answer p (current c))) = true \/
  stacks (store (exec pf no_answer p (current c))) = stacks (current c) ->
  reads_current (listener (deliver pf c rest p)) (current (deliver pf c rest p)).
Proof.
  intros (H1 & H2 & H3 & H4) H. unfold deliver; simpl.
  destruct (deps_changed _ _) eqn:E; [done|].
  unfold deps_changed in E.
  apply orb_false_iff in E as [E E3]. apply orb_false_iff in E as [E1 E2].
  apply negb_false_iff, bool_decide_eq_true in E1, E2.
  destruct H as [H|H]; [congruence|].
  unfold stacks in H. injection H as Hh Hf.
  unfold reads_current. split_and!; congruence.
Qed.

(** The registered listeners always have the images and the stacks of the
    latest render: every handler that sets the future stack calls
    [setHistory] too, and no timer and no answer of the platform sets a
    stack. *)
Lemma reachable_listener (c : Config) :
  reachable c -> reads_current (listener c) (current c).
Proof.
  induction 1 as [|c c' Hc IH Hstep]; [done|].
  pose proof (reachable_pending c Hc) as Hts.
  destruct Hstep as [pf ev _ | pf l1 l2 ms cb E | pf l1 l2 r k x E];
    apply deliver_reads_current; try done.
  - apply dispatch_stacks.
  - rewrite E in Hts. apply Forall_app in Hts as [_ Hl2].
    apply Forall_cons in Hl2 as [Hcb _]. right. by apply quiet_stacks.
  - rewrite E in Hts. apply Forall_app in Hts as [_ Hl2].
    apply Forall_cons in Hl2 as [Hk _]. right. apply quiet_stacks, Hk.
Qed.

Lemma deps_changed_sets_history (st : AppState) (r : Run unit) :
  existsb sets_history (trace r) = true -> deps_changed st r = true.
Proof. unfold deps_changed. intros ->. apply orb_true_r. Qed.

Lemma snapshot_listened (c : Config) :
  reads_current (listener c) (current c) -> snapshot (listener c) = snapshot (listened c).
Proof. intros (H1 & H2 & _). unfold snapshot, listened; simpl. by rewrite H1, H2. Qed.

Lemma listened_up_to_date (c : Config) : up_to_date c -> listened c = current c.
Proof. intros [H1 H2]. unfold listened. rewrite H1, H2. by destruct (current c). Qed.

(** Ctrl+Z and Ctrl+Y on the page, as long as the listeners have the images
    and the stacks of the latest render. *)
Lemma user_event_undo (pf : Platform) (c : Config) (e : KeyboardEvent)
    (h : list HistoryState.t) (p : HistoryState.t) :
  reads_current (listener c) (current c) -> is_undo_key e = true ->
  history (current c) = h ++ [p] ->
  let st' :=
    {| isDragging := isDragging (current c); isProcessing := isProcessing (current c);
       processedImage := HistoryState.processedImage p;
       originalImage := HistoryState.originalImage p;
       originalFileName := HistoryState.originalFileName p;
       metadata := HistoryState.metadata p;
       history := h; futureHistory := snapshot (listened c) :: futureHistory (current c);
       notification := notification (current c);
       showJsonModal := showJsonModal (current c) |} in
  user_event pf (KeyDown e) c = {| current := st'; listener := st'; pending := pending c |}.
Proof.
  intros Hv He Hh. rewrite <- (snapshot_listened c Hv).
  destruct Hv as (_ & _ & H3 & H4). rewrite <- H3 in Hh. rewrite <- H4.
  unfold user_event, deliver. cbn [handling dispatch].
  rewrite (exec_keydown_undo_run pf no_answer (listener c) (current c) e He).
  rewrite (exec_handleUndo_run pf no_answer (listener c) (current c) h p Hh).
  cbn [after trace store spawned outcome task_of app].
  rewrite deps_changed_sets_history by reflexivity.
  by rewrite !app_nil_r.
Qed.

Lemma user_event_redo (pf : Platform) (c : Config) (e : KeyboardEvent)
    (n : HistoryState.t) (f : list HistoryState.t) :
  reads_current (listener c) (current c) -> is_redo_key e = true ->
  futureHistory (current c) = n :: f ->
  let st' :=
    {| isDragging := isDragging (current c); isProcessing := isProcessing (current c);
       processedImage := HistoryState.processedImage n;
       originalImage := HistoryState.originalImage n;
       originalFileName := HistoryState.originalFileName n;
       metadata := HistoryState.metadata n;
       history := history (current c) ++ [snapshot (listened c)]; futureHistory := f;
       notification := notification (current c);
       showJsonModal := showJsonModal (current c) |} in
  user_event pf (KeyDown e) c = {| current := st'; listener := st'; pending := pending c |}.
Proof.
  intros Hv He Hf. rewrite <- (snapshot_listened c Hv).
  destruct Hv as (_ & _ & H3 & H4). rewrite <- H4 in Hf. rewrite <- H3.
  unfold user_event, deliver. cbn [handling dispatch].
  rewrite (exec_keydown_redo_run pf no_answer (listener c) (current c) e He).
  rewrite (exec_handleRedo_run pf no_answer (listener c) (current c) n f Hf).
  cbn [after trace store spawned outcome task_of app].
  rewrite deps_changed_sets_history by reflexivity.
  by rewrite !app_nil_r.
Qed.

(** With nothing to undo or to redo, the key changes nothing, and the
    listeners stay. *)
Lemma user_event_undo_nil (pf : Platform) (c : Config) (e : KeyboardEvent) :
  reads_current (listener c) (current c) -> is_undo_key e = true ->
  history (current c) = [] -> user_event pf (KeyDown e) c = c.
Proof.
  intros (_ & _ & H3 & _) He Hh. rewrite <- H3 in Hh.
  unfold user_event, deliver. cbn [handling dispatch].
  rewrite (exec_keydown_undo_run pf no_answer (listener c) (current c) e He).
  unfold handleUndo. rewrite Hh. cbn. unfold deps_changed. cbn.
  rewrite !bool_decide_true by done. cbn. rewrite app_nil_r. by destruct c.
Qed.

Lemma user_event_redo_nil (pf : Platform) (c : Config) (e : KeyboardEvent) :
  reads_current (listener c) (current c) -> is_redo_key e = true ->
  futureHistory (current c) = [] -> user_event pf (KeyDown e) c = c.
Proof.
  intros (_ & _ & _ & H4) He Hf. rewrite <- H4 in Hf.
  unfold user_event, deliver. cbn [handling dispatch].
  rewrite (exec_keydown_redo_run pf no_answer (listener c) (current c) e He).
  unfold handleRedo. rewrite Hf. cbn. unfold deps_changed. cbn.
  rewrite !bool_decide_true by done. cbn. rewrite app_nil_r. by destruct c.
Qed.

Lemma caught_up_fresh (c : Config) : listener c = current c -> caught_up c = c.
Proof.
  destruct c as [st l ts]; simpl. intros ->. unfold caught_up, listened; simpl.
  by destruct st.
Qed.

Lemma undo_then_redo_config (pf : Platform) (c : Config) (eZ eY : KeyboardEvent) :
  reads_current (listener c) (current c) ->
  is_undo_key eZ = true -> is_redo_key eY = true ->
  history (current c) <> [] ->
  user_event pf (KeyDown eY) (user_event pf (KeyDown eZ) c) = caught_up c.
Proof.
  intros Hv HZ HY Hne. destruct (exists_last Hne) as [h [p Hh]].
  rewrite (user_event_undo pf c eZ h p Hv HZ Hh).
  erewrite user_event_redo; [|done|exact HY|reflexivity].
  unfold caught_up, listened, snapshot; simpl.
  by rewrite snapshot_eta, <- Hh.
Qed.

Lemma redo_then_undo_config (pf : Platform) (c : Config) (eZ eY : KeyboardEvent) :
  reads_current (listener c) (current c) ->
  is_undo_key eZ = true -> is_redo_key eY = true ->
  futureHistory (current c) <> [] ->
  user_event pf (KeyDown eZ) (user_event pf (KeyDown eY) c) = caught_up c.
Proof.
  intros Hv HZ HY Hne. destruct (futureHistory (current c)) as [|n f] eqn:Hf; [done|].
  rewrite (user_event_redo pf c eY n f Hv HY Hf).
  erewrite user_event_undo; [|done|exact HZ|reflexivity].
  unfold caught_up, listened, snapshot; simpl.
  by rewrite snapshot_eta, <- Hf.
Qed.

Lemma undo_redo_iter (pf : Platform) (eZ eY : KeyboardEvent) (k : nat) (c : Config) :
  is_undo_key eZ = true -> is_redo_key eY = true ->
  reads_current (listener c) (current c) ->
  S k <= length (history (current c)) ->
  Nat.iter (S k) (user_event pf (KeyDown eY))
    (Nat.iter (S k) (user_event pf (KeyDown eZ)) c) = caught_up c.
Proof.
  intros HZ HY. revert c. induction k as [|k IH]; intros c Hv Hk.
  - apply undo_then_redo_config; try done.
    destruct (history (current c)); simpl in Hk; [lia|done].
  - assert (Hne : history (current c) <> [])
      by (destruct (history (current c)); simpl in Hk; [lia|done]).
    destruct (exists_last Hne) as [h [p Hh]].
    rewrite (Nat.iter_succ_r (S k) (user_event pf (KeyDown eZ))).
    rewrite (Nat.iter_succ (S k) (user_event pf (KeyDown eY))).
    rewrite IH.
    + rewrite caught_up_fresh; [by apply undo_then_redo_config|].
      by rewrite (user_event_undo pf c eZ h p Hv HZ Hh).
    + by rewrite (user_event_undo pf c eZ h p Hv HZ Hh).
    + rewrite (user_event_undo pf c eZ h p Hv HZ Hh). simpl.
      rewrite Hh, length_app in Hk. simpl in Hk. lia.
Qed.

Lemma redo_undo_iter (pf : Platform) (eZ eY : KeyboardEvent) (k : nat) (c : Config) :
  is_undo_key eZ = true -> is_redo_key eY = true ->
  reads_current (listener c) (current c) ->
  S k <= length (futureHistory (current c)) ->
  Nat.iter (S k) (user_event pf (KeyDown eZ))
    (Nat.iter (S k) (user_event pf (KeyDown eY)) c) = caught_up c.
Proof.
  intros HZ HY. revert c. induction k as [|k IH]; intros c Hv Hk.
  - apply redo_then_undo_config; try done.
    destruct (futureHistory (current c)); simpl in Hk; [lia|done].
  - destruct (futureHistory (current c)) as [|n f] eqn:Hf; [simpl in Hk; lia|].
    rewrite (Nat.iter_succ_r (S k) (user_event pf (KeyDown eY))).
    rewrite (Nat.iter_succ (S k) (user_event pf (KeyDown eZ))).
    rewrite IH.
    + rewrite caught_up_fresh; [apply redo_then_undo_config; try done; by rewrite Hf|].
      by rewrite (user_event_redo pf c eY n f Hv HY Hf).
    + by rewrite (user_event_redo pf c eY n f Hv HY Hf).
    + rewrite (user_event_redo pf c eY n f Hv HY Hf). simpl.
      simpl in Hk. lia.
Qed.

(** ** The second sample run *)

Lemma step_fire_last (pf : Platform) (c : Config) :
  (exists ms cb, last (pending c) = Some (TaskTimer ms cb)) -> step c (fire_last pf c).
Proof.
  intros (ms & cb & E). unfold fire_last. rewrite E.
  apply last_Some in E as [ts E]. rewrite E, removelast_last.
  pose proof (step_timer c pf ts [] ms cb E) as H.
  by rewrite app_nil_r in H.
Qed.

Lemma reachable_config_loaded : reachable config_loaded.
Proof.
  apply (reachable_step config_extracted).
  - apply (reachable_step config_selected).
    + apply (reachable_step initialConfig); [constructor|].
      by apply step_user_event.
    + apply step_answer_first. do 3 eexists. reflexivity.
  - apply step_answer_first. do 3 eexists. reflexivity.
Qed.

Lemma reachable_config_reloading : reachable config_reloading.
Proof.
  apply (reachable_step config_pasted).
  - apply (reachable_step config_loaded); [apply reachable_config_loaded|].
    by apply step_user_event.
  - apply step_fire_last. do 2 eexists. reflexivity.
Qed.

Lemma reachable_config_undone : reachable config_undone.
Proof.
  apply (reachable_step config_reloading); [apply reachable_config_reloading|].
  by apply step_user_event.
Qed.

(** C3. On the page, [handleUndo] does not always put the snapshot of the
    current four fields on the future stack. With 'photo.jpeg' loaded,
    'second.png' is pasted; its load has set the file name and waits for
    the parser when the user presses Ctrl+Z. The listener that runs
    [handleUndo] is the one registered when the paste had cleared the page:
    it pops the past stack and restores the four fields of 'photo.jpeg',
    but the record it puts on the future stack has the file name '' of its
    own render, while the current file name is 'second.png'. *)
Theorem handleUndo_stale_listener :
  reachable config_reloading /\
  step config_reloading config_undone /\
  history (current config_reloading) = [snapshot (current config_loaded)] /\
  snapshot (current config_reloading) =
    {| HistoryState.originalImage := None;
       HistoryState.originalFileName := "second.png";
       HistoryState.metadata := None;
       HistoryState.processedImage := None |} /\
  history (current config_undone) = [] /\
  snapshot (current config_undone) = snapshot (current config_loaded) /\
  futureHistory (current config_undone) =
    [ {| HistoryState.originalImage := None;
         HistoryState.originalFileName := "";
         HistoryState.metadata := None;
         HistoryState.processedImage := None |} ] /\
  futureHistory (current config_undone) <>
    snapshot (current config_reloading) :: futureHistory (current config_reloading).
Proof.
  split; [apply reachable_config_reloading|].
  split; [by apply step_user_event|].
  split; [reflexivity|]. split; [reflexivity|]. split; [reflexivity|].
  split; [reflexivity|]. split; [reflexivity|].
  intros H. discriminate H.
Qed.

(** C4. On the page, [handleUndo] followed by [handleRedo] is not always
    the identity, by the same stale listener: in the run of C3, Ctrl+Z
    followed by Ctrl+Y gives back the two stacks, the image and the
    processed image, but the file name ends as '', not as 'second.png'. *)
Theorem handleUndo_then_handleRedo_stale_listener :
  reachable config_reloading /\
  step config_reloading config_undone /\ step config_undone config_redone /\
  history (current config_redone) = history (current config_reloading) /\
  futureHistory (current config_redone) = futureHistory (current config_reloading) /\
  originalFileName (current config_reloading) = "second.png" /\
  originalFileName (current config_redone) = "" /\
  snapshot (current config_redone) <> snapshot (current config_reloading).
Proof.
  split; [apply reachable_config_reloading|].
  split; [by apply step_user_event|]. split; [by apply step_user_event|].
  split; [reflexivity|]. split; [reflexivity|]. split; [reflexivity|].
  split; [reflexivity|].
  intros H. discriminate H.
Qed.

(** ** The third sample run *)

Lemma step_answer_last (pf : Platform) (x : forall r : Request, rans r) (c : Config) :
  (exists r k, last (pending c) = Some (TaskAwait r k)) -> step c (answer_last pf x c).
Proof.
  intros (r & k & E). unfold answer_last. rewrite E.
  apply last_Some in E as [ts E]. rewrite E, removelast_last.
  pose proof (step_answer c pf ts [] r k (x r) E) as H.
  by rewrite app_nil_r in H.
Qed.

Lemma reachable_config_second_parsed : reachable config_second_parsed.
Proof.
  apply (reachable_step config_first_read).
  - apply (reachable_step config_first_parsed).
    + apply (reachable_step config_two_loads).
      * apply (reachable_step config_selected); [apply reachable_config_selected|].
        by apply step_user_event.
      * apply step_answer_first. do 3 eexists. reflexivity.
    + apply step_answer_last. do 2 eexists. reflexivity.
  - apply step_answer_first. do 3 eexists. reflexivity.
Qed.

(** The stale listener with an image on the page: the listeners were
    registered when the image of the first file arrived and hold the
    metadata of the first file, while the state has the metadata of the
    second. Ctrl+D pushes the record of the listener, not the snapshot of
    the state. *)
Example stale_listener_delete :
  reachable config_second_parsed /\
  loaded (current config_second_parsed) = true /\
  step config_second_parsed config_stale_deleted /\
  snapshot (listener config_second_parsed) <> snapshot (current config_second_parsed) /\
  history (current config_stale_deleted) = [snapshot (listener config_second_parsed)] /\
  (metadata (listener config_second_parsed) ≫= (.!! "File Info")) =
    Some (fileInfo sampleFile "t1700000000000") /\
  (metadata (current config_second_parsed) ≫= (.!! "File Info")) =
    Some (fileInfo secondFile "t1700000000001").
Proof.
  split; [apply reachable_config_second_parsed|].
  split; [vm_compute; reflexivity|].
  split; [by apply step_user_event|].
  split; [|split; [|split]]; try (vm_compute; reflexivity).
  intros H. apply (f_equal (fun h => HistoryState.metadata h ≫= (.!! "File Info"))) in H.
  vm_compute in H. discriminate H.
Qed.

(** X25. The paste and keyboard listeners always have the images and both
    stacks of the latest render, although the future stack is not among
    the dependencies of the effect that registers them; their file name and
    metadata may be older. *)
Theorem listener_reads_current (c : Config) :
  reachable c ->
  originalImage (listener c) = originalImage (current c) /\
  processedImage (listener c) = processedImage (current c) /\
  history (listener c) = history (current c) /\
  futureHistory (listener c) = futureHistory (current c).
Proof. apply reachable_listener. Qed.

Lemma listener_reads_current_witness :
  (originalImage (listener config_undone) = originalImage (current config_undone) /\
   processedImage (listener config_undone) = processedImage (current config_undone) /\
   history (listener config_undone) = history (current config_undone) /\
   futureHistory (listener config_undone) = futureHistory (current config_undone)) /\
  (history (listener config_reloading) = history (current config_reloading) /\
   originalFileName (listener config_reloading) = "" /\
   originalFileName (current config_reloading) = "second.png").
Proof.
  split.
  - exact (listener_reads_current config_undone reachable_config_undone).
  - split; [|split; reflexivity].
    exact (proj1 (proj2 (proj2
             (listener_reads_current config_reloading reachable_config_reloading)))).
Defined.

(** X26. Ctrl+Z and Ctrl+Y on the page. With a past stack [h ++ [p]],
    Ctrl+Z leaves [h], sets the four fields to those of [p] and puts in
    front of the future stack the snapshot that the listener holds: the
    current image and processed image with the listener's file name and
    metadata, which is the snapshot of the current state when the listener
    is up to date. Ctrl+Y is the mirror image on the head of the future
    stack. After either, the listeners are those of the new render. *)
Theorem undo_redo_keys_on_page (pf : Platform) (c : Config) (e : KeyboardEvent) :
  reachable c ->
  (is_undo_key e = true -> forall h p, history (current c) = h ++ [p] ->
     let c' := user_event pf (KeyDown e) c in
     history (current c') = h /\
     futureHistory (current c') = snapshot (listened c) :: futureHistory (current c) /\
     snapshot (current c') = p /\
     listener c' = current c' /\ pending c' = pending c) /\
  (is_redo_key e = true -> forall n f, futureHistory (current c) = n :: f ->
     let c' := user_event pf (KeyDown e) c in
     futureHistory (current c') = f /\
     history (current c') = history (current c) ++ [snapshot (listened c)] /\
     snapshot (current c') = n /\
     listener c' = current c' /\ pending c' = pending c) /\
  (up_to_date c -> snapshot (listened c) = snapshot (current c)).
Proof.
  intros Hc. pose proof (reachable_listener c Hc) as Hv. split_and!.
  - intros He h p Hh c'. subst c'.
    rewrite (user_event_undo pf c e h p Hv He Hh). simpl.
    split_and!; try done. apply snapshot_eta.
  - intros He n f Hf c'. subst c'.
    rewrite (user_event_redo pf c e n f Hv He Hf). simpl.
    split_and!; try done. apply snapshot_eta.
  - intros Hu. by rewrite (listened_up_to_date c Hu).
Qed.

Lemma undo_redo_keys_on_page_witness :
  let c' := user_event samplePlatform (KeyDown ctrlZ) config_reloading in
  history (current c') = [] /\
  futureHistory (current c') = [snapshot (listened config_reloading)] /\
  snapshot (current c') = snapshot (current config_loaded) /\
  listener c' = current c' /\ pending c' = pending config_reloading.
Proof.
  exact (proj1 (undo_redo_keys_on_page samplePlatform config_reloading ctrlZ
                  reachable_config_reloading)
           eq_refl [] (snapshot (current config_loaded)) eq_refl).
Defined.

(** X1. With a non-empty future stack, Ctrl+Y followed by Ctrl+Z gives back
    both stacks, the image and the processed image, and leaves the file name
    and the metadata that the listener of Ctrl+Y held: the page is as it
    was exactly when that listener was up to date. *)
Theorem handleRedo_then_handleUndo (pf : Platform) (c : Config) (eZ eY : KeyboardEvent) :
  reachable c -> is_undo_key eZ = true -> is_redo_key eY = true ->
  futureHistory (current c) <> [] ->
  let c2 := user_event pf (KeyDown eZ) (user_event pf (KeyDown eY) c) in
  current c2 = listened c /\ pending c2 = pending c /\
  (up_to_date c -> current c2 = current c).
Proof.
  intros Hc HZ HY Hne c2. subst c2.
  rewrite (redo_then_undo_config pf c eZ eY (reachable_listener c Hc) HZ HY Hne).
  split; [done|]. split; [done|]. apply listened_up_to_date.
Qed.

Lemma handleRedo_then_handleUndo_witness :
  let c2 := user_event samplePlatform (KeyDown ctrlZ)
              (user_event samplePlatform (KeyDown cmdY) config_undone) in
  current c2 = listened config_undone /\ pending c2 = pending config_undone /\
  (up_to_date config_undone -> current c2 = current config_undone).
Proof.
  apply (handleRedo_then_handleUndo samplePlatform config_undone ctrlZ cmdY).
  - apply reachable_config_undone.
  - reflexivity.
  - reflexivity.
  - discriminate.
Defined.

(** X2. Any number [k >= 1] of Ctrl+Z, not more than the past stack holds,
    followed by [k] Ctrl+Y gives back the page as the first listener found
    it (the stacks, the images and the other cells as they were, with the
    file name and the metadata of that listener), with nothing new pending;
    and the same for [k] Ctrl+Y, not more than the future stack holds,
    followed by [k] Ctrl+Z. *)
Theorem undo_redo_many (pf : Platform) (k : nat) (c : Config) (eZ eY : KeyboardEvent) :
  reachable c -> is_undo_key eZ = true -> is_redo_key eY = true ->
  (0 < k <= length (history (current c)) ->
   Nat.iter k (user_event pf (KeyDown eY)) (Nat.iter k (user_event pf (KeyDown eZ)) c) =
     caught_up c) /\
  (0 < k <= length (futureHistory (current c)) ->
   Nat.iter k (user_event pf (KeyDown eZ)) (Nat.iter k (user_event pf (KeyDown eY)) c) =
     caught_up c).
Proof.
  intros Hc HZ HY. pose proof (reachable_listener c Hc) as Hv.
  split; intros [H0 Hk]; (destruct k as [|k]; [lia|]).
  - by apply undo_redo_iter.
  - by apply redo_undo_iter.
Qed.

Lemma undo_redo_many_witness :
  Nat.iter 1 (user_event samplePlatform (KeyDown cmdY))
    (Nat.iter 1 (user_event samplePlatform (KeyDown ctrlZ)) config_reloading) =
    caught_up config_reloading /\
  originalFileName (current (caught_up config_reloading)) = "" /\
  originalFileName (current config_reloading) = "second.png".
Proof.
  split; [|split; reflexivity].
  apply (proj1 (undo_redo_many samplePlatform 1 config_reloading ctrlZ cmdY
                  reachable_config_reloading eq_refl eq_refl)).
  simpl. lia.
Defined.

(** X3. [handleUndo] and [handleRedo] only move snapshots between the two
    stacks: run by a render that has the stacks of the store, as every
    registered listener has, they leave on the two stacks together as many
    records as there were. *)
Theorem undo_redo_keep_count (pf : Platform) (orc : Oracle) (s st : AppState) :
  history s = history st -> futureHistory s = futureHistory st ->
  (let st' := store (exec pf orc (handleUndo s) st) in
   length (history st') + length (futureHistory st') =
     length (history st) + length (futureHistory st)) /\
  (let st' := store (exec pf orc (handleRedo s) st) in
   length (history st') + length (futureHistory st') =
     length (history st) + length (futureHistory st)).
Proof.
  intros Hh Hf. split; cbv zeta.
  - destruct (decide (history s = [])) as [E|E].
    + unfold handleUndo. by rewrite E.
    + destruct (exists_last E) as [h [p Hp]].
      rewrite (exec_handleUndo pf orc s st h p Hp). simpl.
      rewrite <- Hh, <- Hf, Hp, length_app. simpl. lia.
  - destruct (futureHistory s) as [|n f] eqn:E.
    + unfold handleRedo. by rewrite E.
    + rewrite (exec_handleRedo pf orc s st n f E). simpl.
      rewrite <- Hh, <- Hf, length_app. simpl. lia.
Qed.

Lemma undo_redo_keep_count_witness :
  let st := apply_action (SetOriginalFileName "second.png") loadedState in
  (let st' := store (exec samplePlatform no_answer (handleUndo loadedState) st) in
   length (history st') + length (futureHistory st') = 2) /\
  (let st' := store (exec samplePlatform no_answer (handleRedo loadedState) st) in
   length (history st') + length (futureHistory st') = 2).
Proof.
  exact (undo_redo_keep_count samplePlatform no_answer loadedState
           (apply_action (SetOriginalFileName "second.png") loadedState)
           eq_refl eq_refl).
Defined.

Lemma handling_reads_current (c : Config) (ev : UserEvent) :
  reachable c -> reads_current (handling c ev) (current c).
Proof.
  intros Hc. destruct (handling_cases c ev) as [-> | ->]; [|done].
  by apply reachable_listener.
Qed.

Lemma handling_snapshot (c : Config) (ev : UserEvent) :
  reachable c -> handling c ev = current c \/ up_to_date c ->
  snapshot (handling c ev) = snapshot (current c).
Proof.
  intros Hc [-> | Hu]; [done|].
  destruct (handling_cases c ev) as [-> | ->]; [|done].
  rewrite (snapshot_listened c (reachable_listener c Hc)).
  by rewrite (listened_up_to_date c Hu).
Qed.

(** C2, amended. On the page, cleaning the metadata of the loaded image,
    replacing the loaded image by a paste or by a drop on the page, and
    deleting it with Ctrl+D or Cmd+D append a record of four fields to the
    past stack as it is, and set none of the four fields before that. The
    record is the snapshot held by the render whose handler runs: its image
    and its processed image are those of the state before the action; for
    the click and the drop, and for the paste and the key when their
    listener is up to date, it is the snapshot of the state before the
    action. The reset buttons clear the four fields and leave the past
    stack as it was. *)
Theorem saving_actions_push_snapshot (pf : Platform) (orc : Oracle)
    (c : Config) (ev : UserEvent) :
  reachable c ->
  (SavingAction (handling c ev) ev ->
   let r := exec pf orc (dispatch (handling c ev) ev) (current c) in
   pushes_snapshot (handling c ev) r /\
   history (store r) = history (current c) ++ [snapshot (handling c ev)] /\
   HistoryState.originalImage (snapshot (handling c ev)) = originalImage (current c) /\
   HistoryState.processedImage (snapshot (handling c ev)) = processedImage (current c) /\
   (handling c ev = current c \/ up_to_date c -> pushes_snapshot (current c) r)) /\
  (let r := exec pf orc (dispatch (handling c ClickReset) ClickReset) (current c) in
   history (store r) = history (current c) /\
   snapshot (store r) = snapshot initialState).
Proof.
  intros Hc. split.
  - intros Hs r.
    destruct (saving_action_effect pf orc (handling c ev) (current c) ev Hs) as [Hp _].
    fold r in Hp.
    destruct (handling_reads_current c ev Hc) as (H1 & H2 & H3 & _).
    split; [exact Hp|]. split; [by rewrite <- H3; apply Hp|].
    split; [exact H1|]. split; [exact H2|].
    intros Hu. unfold pushes_snapshot in *.
    by rewrite <- H3, <- (handling_snapshot c ev Hc Hu).
  - cbn [handling dispatch]. by rewrite exec_handleReset.
Qed.

Lemma reachable_config_pasted : reachable config_pasted.
Proof.
  apply (reachable_step config_loaded); [apply reachable_config_loaded|].
  by apply step_user_event.
Qed.

Lemma saving_actions_push_snapshot_witness :
  (let r := exec samplePlatform no_answer
              (dispatch (handling config_loaded (KeyDown ctrlD)) (KeyDown ctrlD))
              (current config_loaded) in
   pushes_snapshot (current config_loaded) r /\
   history (store r) = [snapshot (current config_loaded)]) /\
  (let r := exec samplePlatform no_answer
              (dispatch (handling config_loaded ClickReset) ClickReset)
              (current config_loaded) in
   history (store r) = history (current config_loaded) /\
   snapshot (store r) = snapshot initialState).
Proof.
  pose proof (saving_actions_push_snapshot samplePlatform no_answer config_loaded
                (KeyDown ctrlD) reachable_config_loaded) as [H1 H2].
  split; [|exact H2].
  destruct (H1 ltac:(apply saving_delete_key; reflexivity)) as (_ & Hh & _ & _ & Hp).
  split; [|exact Hh].
  apply Hp. right. split; reflexivity.
Defined.

(** X4. Ctrl+Z (or Cmd+Z) right after an action that saved a snapshot
    (clean, replace by paste or drop, Ctrl+D) gives back the past stack as
    it was before that action and the four fields that the action saved:
    those of the state before the action for the click and the drop, and
    for the paste and the key when their listener was up to date. The
    future stack then holds one record, the four fields that the action had
    left. *)
Theorem undo_after_saving_action (pf : Platform) (c : Config)
    (ev : UserEvent) (e : KeyboardEvent) :
  reachable c -> SavingAction (handling c ev) ev -> is_undo_key e = true ->
  let c1 := user_event pf ev c in
  let c2 := user_event pf (KeyDown e) c1 in
  history (current c2) = history (current c) /\
  snapshot (current c2) = snapshot (handling c ev) /\
  futureHistory (current c2) = [snapshot (current c1)] /\
  (handling c ev = current c \/ up_to_date c ->
   snapshot (current c2) = snapshot (current c)).
Proof.
  intros Hc Hev He c1 c2.
  destruct (saving_action_effect pf no_answer (handling c ev) (current c) ev Hev)
    as [(Hh & pre & post & Ht & _) Hf].
  destruct (handling_reads_current c ev Hc) as (_ & _ & H3 & _).
  assert (Hl : listener c1 = current c1).
  { unfold c1, user_event, deliver; simpl.
    rewrite deps_changed_sets_history; [done|].
    rewrite Ht, existsb_app. simpl. apply orb_true_r. }
  assert (Hv : reads_current (listener c1) (current c1)) by by rewrite Hl.
  assert (Hh1 : history (current c1) = history (current c) ++ [snapshot (handling c ev)])
    by by rewrite <- H3.
  assert (Hf1 : futureHistory (current c1) = []) by exact Hf.
  clearbody c1. subst c2. rewrite (user_event_undo pf c1 e _ _ Hv He Hh1). simpl.
  rewrite Hf1.
  split; [done|]. split; [done|]. split.
  - f_equal. unfold snapshot, listened; simpl. by rewrite Hl.
  - intros Hu. by apply handling_snapshot.
Qed.

Lemma undo_after_saving_action_witness :
  let c1 := user_event samplePlatform (Paste (Some [secondItem])) config_loaded in
  let c2 := user_event samplePlatform (KeyDown ctrlZ) c1 in
  history (current c2) = [] /\
  snapshot (current c2) = snapshot (current config_loaded) /\
  futureHistory (current c2) = [snapshot (current c1)].
Proof.
  destruct (undo_after_saving_action samplePlatform config_loaded
              (Paste (Some [secondItem])) ctrlZ reachable_config_loaded
              ltac:(apply saving_replace_paste; reflexivity) eq_refl)
    as (H1 & _ & H3 & H4).
  split; [exact H1|]. split; [|exact H3].
  apply H4. right. split; reflexivity.
Defined.
